(** * pr_score_delta: the delta engine of the scorecard, embedded and verified

    The development follows [scripts/pr_score_delta.py].

    - [Py] models the fragment of the Python runtime the script relies on:
      JSON values, [dict.get], iteration, truth values, [==], the numeric
      tower with IEEE binary64 floats, [round], [str], [repr] and the format
      specs [.1f], [+.1f] and [+d].  Exceptions are results, not effects.
    - [PrScoreDelta] transcribes the script function by function, with its
      names; [main] runs against a file system given as a function.
    - [Reading] holds the notions the statements use (the identity triple of
      a site, the selected sites, dictionary-shaped documents, the values a
      report prints as they are) and [Samples] the documents of the examples.
    - The remaining modules prove the properties, one pair of modules per
      function: the facts first, then the theorems of the specification.
    - [Shapes] and the modules named [...Beyond] cover what the
      specification leaves open: the exceptions of each function, the
      invariants of the delta record, the frame of the report and the way
      the functions compose in [main]. *)

From Stdlib Require Import ZArith List String Ascii Bool Lia ListSet.
From Stdlib Require Import Numbers.DecimalString Numbers.DecimalZ.
From Stdlib Require Numbers.DecimalN Numbers.DecimalPos.
From Stdlib Require Import Floats.SpecFloat.
Import ListNotations.

Local Open Scope string_scope.
Local Open Scope Z_scope.

(** ** The Python runtime fragment *)

Module Py.

(** Exceptions are identified by their class. *)
Inductive exn : Type :=
| AttributeError
| TypeError
| ValueError
| KeyError
| ZeroDivisionError
| OverflowError
| FileNotFoundError
| JSONDecodeError
| UnicodeDecodeError
| IsADirectoryError
| PermissionError
| RecursionError.

(** A computation either returns or raises. *)
Inductive result (A : Type) : Type :=
| Ok (a : A)
| Raise (e : exn).
Arguments Ok {A} a.
Arguments Raise {A} e.

Definition bind {A B : Type} (c : result A) (k : A -> result B) : result B :=
  match c with
  | Ok a => k a
  | Raise e => Raise e
  end.

Notation "x <- c ;; k" := (bind c (fun x => k))
  (at level 61, c at next level, right associativity).

Definition is_ok {A : Type} (c : result A) : bool :=
  match c with Ok _ => true | Raise _ => false end.

(** Floats are IEEE binary64 values, computed with the reference
    operations of [SpecFloat].  A float read from JSON is a valid binary64
    ([valid_binary]); no statement below needs that. *)
Definition prec : Z := 53.
Definition emax : Z := 1024.
Definition float : Type := spec_float.

Scheme All for list.
Scheme All for prod.

(** What [json.load] produces.  A [dict] keeps its insertion order; its keys
    are strings.  A string is a sequence of code points below 256. *)
Inductive pyval : Type :=
| PNone
| PBool (b : bool)
| PInt (z : Z)
| PFloat (f : float)
| PStr (s : string)
| PList (l : list pyval)
| PDict (d : list (string * pyval)).

(** [d[k]] on the association list of a dict. *)
Fixpoint lookup (k : string) (d : list (string * pyval)) : option pyval :=
  match d with
  | [] => None
  | (k', v) :: d' => if String.eqb k k' then Some v else lookup k d'
  end.

(** [obj.get(k, default)]: only a dict has the attribute [get]. *)
Definition get (obj : pyval) (k : string) (default : pyval) : result pyval :=
  match obj with
  | PDict d =>
      match lookup k d with
      | Some v => Ok v
      | None => Ok default
      end
  | _ => Raise AttributeError
  end.

Definition is_dict (v : pyval) : bool :=
  match v with PDict _ => true | _ => false end.

(** [for x in obj]: the items a loop visits. *)
Definition iter (obj : pyval) : result (list pyval) :=
  match obj with
  | PList l => Ok l
  | PDict d => Ok (map (fun kv => PStr (fst kv)) d)
  | PStr s => Ok (map (fun c => PStr (String c EmptyString)) (list_ascii_of_string s))
  | _ => Raise TypeError
  end.

(** *** Numbers *)

Inductive num : Type :=
| NInt (z : Z)
| NFloat (f : float).

(** [bool] is a subclass of [int]. *)
Definition as_num (v : pyval) : option num :=
  match v with
  | PBool b => Some (NInt (if b then 1 else 0))
  | PInt z => Some (NInt z)
  | PFloat f => Some (NFloat f)
  | _ => None
  end.

(** The least magnitude that rounds to infinity: the midpoint between the
    largest double and [2^1024]. *)
Definition overflow_threshold : Z := 2 ^ 1024 - 2 ^ 970.

Definition float_of_Z (z : Z) : float := binary_normalize prec emax z 0 false.

(** [float(z)] for an int. *)
Definition int_to_float (z : Z) : result float :=
  if Z.abs z <? overflow_threshold then Ok (float_of_Z z)
  else Raise OverflowError.

Definition to_float (n : num) : result float :=
  match n with
  | NInt z => int_to_float z
  | NFloat f => Ok f
  end.

Definition float_is_zero (f : float) : bool :=
  match f with S754_zero _ => true | _ => false end.

(** The correctly rounded quotient of two positive integers. *)
Definition div_pos (s : bool) (a b : positive) : float :=
  SFdiv prec emax (S754_finite s a 0) (S754_finite false b 0).

(** [a / b] on ints: the correctly rounded quotient. *)
Definition int_truediv (a b : Z) : result float :=
  if b =? 0 then Raise ZeroDivisionError
  else if overflow_threshold * Z.abs b <=? Z.abs a then Raise OverflowError
  else
    let s := xorb (a <? 0) (b <? 0) in
    match a with
    | Z0 => Ok (S754_zero s)
    | _ => Ok (div_pos s (Z.to_pos (Z.abs a)) (Z.to_pos (Z.abs b)))
    end.

Definition num_sub (a b : num) : result pyval :=
  match a, b with
  | NInt x, NInt y => Ok (PInt (x - y))
  | _, _ =>
      x <- to_float a ;;
      y <- to_float b ;;
      Ok (PFloat (SFsub prec emax x y))
  end.

Definition num_mul (a b : num) : result pyval :=
  match a, b with
  | NInt x, NInt y => Ok (PInt (x * y))
  | _, _ =>
      x <- to_float a ;;
      y <- to_float b ;;
      Ok (PFloat (SFmul prec emax x y))
  end.

(** A number is zero as a float exactly when it is zero. *)
Definition num_is_zero (n : num) : bool :=
  match n with
  | NInt z => z =? 0
  | NFloat f => float_is_zero f
  end.

Definition num_truediv (a b : num) : result pyval :=
  match a, b with
  | NInt x, NInt y => f <- int_truediv x y ;; Ok (PFloat f)
  | _, _ =>
      x <- to_float a ;;
      y <- to_float b ;;
      if num_is_zero b then Raise ZeroDivisionError
      else Ok (PFloat (SFdiv prec emax x y))
  end.

Definition arith (op : num -> num -> result pyval) (a b : pyval) : result pyval :=
  match as_num a, as_num b with
  | Some x, Some y => op x y
  | _, _ => Raise TypeError
  end.

(** [a - b], [a * b], [a / b] on JSON values. *)
Definition sub : pyval -> pyval -> result pyval := arith num_sub.
Definition mul : pyval -> pyval -> result pyval := arith num_mul.
Definition truediv : pyval -> pyval -> result pyval := arith num_truediv.

(** Exact comparison of a float with an int; [None] for a NaN. *)
Definition float_cmp_Z (f : float) (k : Z) : option comparison :=
  match f with
  | S754_nan => None
  | S754_infinity s => Some (if s then Lt else Gt)
  | S754_zero _ => Some (0 ?= k)
  | S754_finite s m e =>
      let v := if s then Zneg m else Zpos m in
      if 0 <=? e then Some (v * 2 ^ e ?= k)
      else Some (v ?= k * 2 ^ (- e))
  end.

Definition num_cmp (a b : num) : option comparison :=
  match a, b with
  | NInt x, NInt y => Some (x ?= y)
  | NFloat f, NInt y => float_cmp_Z f y
  | NInt x, NFloat g => option_map CompOpp (float_cmp_Z g x)
  | NFloat f, NFloat g => SFcompare f g
  end.

(** [v > k] and [v < k] against an int literal. *)
Definition gt_int (v : pyval) (k : Z) : result bool :=
  match as_num v with
  | Some n => Ok (match num_cmp n (NInt k) with Some Gt => true | _ => false end)
  | None => Raise TypeError
  end.

Definition lt_int (v : pyval) (k : Z) : result bool :=
  match as_num v with
  | Some n => Ok (match num_cmp n (NInt k) with Some Lt => true | _ => false end)
  | None => Raise TypeError
  end.


(** *** Decimal rounding: [round(x, 1)] and the [.1f] presentation *)

(** The integer nearest to [a / b] for [0 <= a] and [0 < b], ties to even. *)
Definition div_half_even (a b : Z) : Z :=
  let q := a / b in
  match 2 * (a mod b) ?= b with
  | Lt => q
  | Gt => q + 1
  | Eq => if Z.even q then q else q + 1
  end.

(** The exact value [m * 2^e] in tenths, rounded to the nearest integer. *)
Definition tenths (m : positive) (e : Z) : Z :=
  if 0 <=? e then Zpos m * 10 * 2 ^ e
  else div_half_even (Zpos m * 10) (2 ^ (- e)).

(** The double nearest to [k * 10^p]: what reading a decimal literal gives. *)
Definition strtod (s : bool) (k : Z) (p : Z) : float :=
  match k with
  | Zpos k' =>
      if 0 <=? p then binary_normalize prec emax (if s then - (k * 10 ^ p) else k * 10 ^ p) 0 s
      else div_pos s k' (Z.to_pos (10 ^ (- p)))
  | _ => S754_zero s
  end.

(** [float.__round__(x, 1)]: the decimal nearest to the exact value of [x]
    with one fractional digit, read back as a double. *)
Definition float_round1 (f : float) : float :=
  match f with
  | S754_finite s m e => strtod s (tenths m e) (-1)
  | _ => f
  end.

(** [round(v, 1)]: an int rounds to itself. *)
Definition round1 (v : pyval) : result pyval :=
  match v with
  | PBool b => Ok (PInt (if b then 1 else 0))
  | PInt z => Ok (PInt z)
  | PFloat f => Ok (PFloat (float_round1 f))
  | _ => Raise TypeError
  end.

(** Decimal digits of a non-negative integer. *)
Definition digits (z : Z) : string := NilZero.string_of_uint (N.to_uint (Z.to_N z)).

(** The interpreter converts an int to text only when it has at most 4300
    decimal digits (the default of [sys.get_int_max_str_digits()], which
    the script leaves alone); beyond that the conversion raises
    [ValueError]. *)
Definition digit_bound : Z := Eval vm_compute in 10 ^ 4300.

Definition convertible (z : Z) : bool := Z.abs z <? digit_bound.

(** The text of [str(z)] for an int.  The script applies [str] to loaded
    values only, and an int that [json.load] returned is convertible: the
    same limit guards the conversion from text. *)
Definition int_str (z : Z) : string :=
  if z <? 0 then "-" ++ digits (- z) else digits z.

Definition sign_str (plus : bool) (s : bool) : string :=
  if s then "-" else if plus then "+" else "".

(** [format(f, '.1f')], and [format(f, '+.1f')] when [plus] is set. *)
Definition float_f1 (plus : bool) (f : float) : string :=
  match f with
  | S754_nan => sign_str plus false ++ "nan"
  | S754_infinity s => sign_str plus s ++ "inf"
  | S754_zero s => sign_str plus s ++ "0.0"
  | S754_finite s m e =>
      let k := tenths m e in
      sign_str plus s ++ digits (k / 10) ++ "." ++ digits (k mod 10)
  end.

(** [f"{v:.1f}"] and [f"{v:+.1f}"]: an int is converted to a float first. *)
Definition format_f1 (plus : bool) (v : pyval) : result string :=
  match v with
  | PStr _ => Raise ValueError
  | _ =>
      match as_num v with
      | Some n => f <- to_float n ;; Ok (float_f1 plus f)
      | None => Raise TypeError
      end
  end.

(** [f"{v:+d}"]. *)
Definition format_plus_d (v : pyval) : result string :=
  match v with
  | PBool b => Ok (if b then "+1" else "+0")
  | PInt z =>
      if convertible z then Ok (sign_str true (z <? 0) ++ digits (Z.abs z))
      else Raise ValueError
  | PFloat _ => Raise ValueError
  | PStr _ => Raise ValueError
  | _ => Raise TypeError
  end.

(** *** Truth value and equality *)

(** [bool(v)]. *)
Definition truthy (v : pyval) : bool :=
  match v with
  | PNone => false
  | PBool b => b
  | PInt z => negb (z =? 0)
  | PFloat f => negb (float_is_zero f)
  | PStr s => negb (String.eqb s "")
  | PList l => match l with [] => false | _ :: _ => true end
  | PDict d => match d with [] => false | _ :: _ => true end
  end.

(** Inside a list or a dict [==] takes identical objects for equal before
    it compares them, and [json.load] gives every NaN the same object:
    there, and only there, a NaN equals a NaN. *)
Definition same_nan (a b : pyval) : bool :=
  match a, b with
  | PFloat S754_nan, PFloat S754_nan => true
  | _, _ => false
  end.

(** [a == b] on values that [json.load] returned. *)
Fixpoint eq (a b : pyval) {struct a} : bool :=
  match a, b with
  | PNone, PNone => true
  | PStr s, PStr t => String.eqb s t
  | PList l, PList l' =>
      (fix all2 (xs ys : list pyval) {struct xs} : bool :=
         match xs, ys with
         | [], [] => true
         | x :: xs', y :: ys' => (same_nan x y || eq x y) && all2 xs' ys'
         | _, _ => false
         end) l l'
  | PDict d, PDict d' =>
      (Nat.eqb (List.length d) (List.length d'))
      && forallb (fun kv =>
                    match lookup (fst kv) d' with
                    | Some v' => same_nan (snd kv) v' || eq (snd kv) v'
                    | None => false
                    end) d
  | _, _ =>
      match as_num a, as_num b with
      | Some x, Some y => match num_cmp x y with Some Eq => true | _ => false end
      | _, _ => false
      end
  end.

(** *** [repr] and [str] *)

(** [floor(log10(N / D))] for positive [N] and [D]: an estimate from the bit
    lengths, corrected upwards. *)
Definition pow10_le (k N D : Z) : bool :=
  if 0 <=? k then 10 ^ k * D <=? N else D <=? N * 10 ^ (- k).

Definition bump (N D q : Z) : Z :=
  if pow10_le (q + 1) N D then q + 1 else q.

Definition ilog10 (N D : Z) : Z :=
  let q0 := ((Z.log2 N - Z.log2 D) * 1233) / 4096 - 2 in
  bump N D (bump N D (bump N D (bump N D (bump N D q0)))).

Definition float_eqb (f g : float) : bool :=
  match f, g with
  | S754_finite s m e, S754_finite s' m' e' =>
      Bool.eqb s s' && Pos.eqb m m' && Z.eqb e e'
  | S754_zero s, S754_zero s' => Bool.eqb s s'
  | S754_infinity s, S754_infinity s' => Bool.eqb s s'
  | S754_nan, S754_nan => true
  | _, _ => false
  end.

(** The decimals with [n] significant digits next to [N / D]: the one that
    reads back as [m * 2^e], if any, as (digits, exponent of the last digit). *)
Definition candidate (m : positive) (e N D q n : Z) : option (Z * Z) :=
  let p := q - n + 1 in
  let A := if 0 <=? p then N else N * 10 ^ (- p) in
  let B := if 0 <=? p then D * 10 ^ p else D in
  let lo := A / B in
  let r := A mod B in
  let back k := float_eqb (strtod false k p) (S754_finite false m e) in
  if r =? 0 then Some (lo, p)
  else
    match back lo, back (lo + 1) with
    | true, true => Some (div_half_even A B, p)
    | true, false => Some (lo, p)
    | false, true => Some (lo + 1, p)
    | false, false => None
    end.

Fixpoint shortest (fuel : nat) (m : positive) (e N D q n : Z) : Z * Z :=
  match fuel with
  | O => (div_half_even (if 0 <=? q - n + 1 then N else N * 10 ^ (- (q - n + 1)))
                        (if 0 <=? q - n + 1 then D * 10 ^ (q - n + 1) else D),
          q - n + 1)
  | S fuel' =>
      match candidate m e N D q n with
      | Some r => r
      | None => shortest fuel' m e N D q (n + 1)
      end
  end.

Fixpoint strip_zeros (fuel : nat) (k p : Z) : Z * Z :=
  match fuel with
  | O => (k, p)
  | S fuel' => if (k mod 10 =? 0) && negb (k =? 0) then strip_zeros fuel' (k / 10) (p + 1) else (k, p)
  end.

Fixpoint zeros (n : nat) : string :=
  match n with
  | O => ""
  | S n' => String "0" (zeros n')
  end.

(** The shortest digit string that reads back as the float, and the
    position of its decimal point. *)
Definition shortest_digits (m : positive) (e : Z) : string * Z :=
  let N := if 0 <=? e then Zpos m * 2 ^ e else Zpos m in
  let D := if 0 <=? e then 1 else 2 ^ (- e) in
  let '(k, p) := shortest 16 m e N D (ilog10 N D) 1 in
  let '(k', p') := strip_zeros 400 k p in
  (digits k', Z.of_nat (String.length (digits k')) + p').

(** Layout of [repr] for a float given its digits. *)
Definition repr_layout (ds : string) (decpt : Z) : string :=
  let nd := Z.of_nat (String.length ds) in
  if (decpt <=? -4) || (16 <? decpt) then
    let ex := decpt - 1 in
    substring 0 1 ds
    ++ (if 1 <? nd then "." ++ substring 1 (String.length ds - 1) ds else "")
    ++ "e" ++ (if ex <? 0 then "-" else "+")
    ++ (if Z.abs ex <? 10 then "0" else "") ++ digits (Z.abs ex)
  else if decpt <=? 0 then "0." ++ zeros (Z.to_nat (- decpt)) ++ ds
  else if nd <=? decpt then ds ++ zeros (Z.to_nat (decpt - nd)) ++ ".0"
  else substring 0 (Z.to_nat decpt) ds ++ "."
       ++ substring (Z.to_nat decpt) (String.length ds - Z.to_nat decpt) ds.

(** [repr(f)] for a float. *)
Definition float_repr (f : float) : string :=
  match f with
  | S754_nan => "nan"
  | S754_infinity s => sign_str false s ++ "inf"
  | S754_zero s => sign_str false s ++ "0.0"
  | S754_finite s m e =>
      let '(ds, decpt) := shortest_digits m e in
      sign_str false s ++ repr_layout ds decpt
  end.

Definition quote1 : ascii := "'"%char.
Definition quote2 : ascii := "034"%char.
Definition backslash : ascii := "\"%char.

Definition hex_digit (n : nat) : ascii :=
  nth n (list_ascii_of_string "0123456789abcdef") "0"%char.

Definition printable (n : nat) : bool :=
  ((32 <=? n) && (n <? 127) || (161 <=? n) && negb (n =? 173))%nat.

(** One character of a string inside [repr]. *)
Definition escape_char (q c : ascii) : string :=
  let n := nat_of_ascii c in
  if Ascii.eqb c q || Ascii.eqb c backslash then String backslash (String c "")
  else if (n =? 9)%nat then "\t"
  else if (n =? 10)%nat then "\n"
  else if (n =? 13)%nat then "\r"
  else if printable n then String c ""
  else String backslash (String "x" (String (hex_digit (n / 16)) (String (hex_digit (n mod 16)) ""))).

Fixpoint escape (q : ascii) (s : string) : string :=
  match s with
  | EmptyString => ""
  | String c s' => escape_char q c ++ escape q s'
  end.

Fixpoint has_char (c : ascii) (s : string) : bool :=
  match s with
  | EmptyString => false
  | String c' s' => Ascii.eqb c c' || has_char c s'
  end.

(** [repr(s)] for a string: double quotes only when that avoids escaping. *)
Definition str_repr (s : string) : string :=
  let q := if has_char quote1 s && negb (has_char quote2 s) then quote2 else quote1 in
  String q (escape q s ++ String q "").

(** [repr(v)]. *)
Fixpoint repr (v : pyval) : string :=
  match v with
  | PNone => "None"
  | PBool b => if b then "True" else "False"
  | PInt z => int_str z
  | PFloat f => float_repr f
  | PStr s => str_repr s
  | PList l => "[" ++ String.concat ", " (map repr l) ++ "]"
  | PDict d =>
      "{" ++ String.concat ", "
               (map (fun kv => str_repr (fst kv) ++ ": " ++ repr (snd kv)) d)
      ++ "}"
  end.

(** [str(v)], which is also [f"{v}"]. *)
Definition str (v : pyval) : string :=
  match v with
  | PStr s => s
  | _ => repr v
  end.

(** [json.dumps(v)] writes every int of [v] as text: it needs each of them
    to be convertible (NaN and the infinities are written as they are). *)
Fixpoint dumpable (v : pyval) : bool :=
  match v with
  | PInt z => convertible z
  | PList l => forallb dumpable l
  | PDict d => forallb (fun kv => dumpable (snd kv)) d
  | _ => true
  end.

(** How deep lists and dicts are nested in a value.  [str], [==] and
    [json.dumps] recurse on the nesting and give up with [RecursionError]
    near the interpreter's recursion limit (1000 frames by default); that
    limit depends on the call stack and is not modelled: the statements
    that promise a result keep the nesting well below it. *)
Fixpoint nesting (v : pyval) : nat :=
  match v with
  | PList l => S (list_max (map nesting l))
  | PDict d => S (list_max (map (fun kv => nesting (snd kv)) d))
  | _ => O
  end.

(** *** Strings *)

(** [w in s] on strings. *)
Fixpoint contains (w s : string) : bool :=
  prefix w s
  || match s with
     | EmptyString => false
     | String _ s' => contains w s'
     end.

(** An f-string is a sequence of literal parts and formatted values. *)
Inductive frag : Type :=
| Lit (s : string)
| Val (s : string).

Definition frag_text (p : frag) : string :=
  match p with Lit s => s | Val s => s end.

Fixpoint fstring (parts : list frag) : string :=
  match parts with
  | [] => ""
  | p :: parts' => frag_text p ++ fstring parts'
  end.

Definition newline : string := String "010"%char "".

End Py.

(** ** The script *)

Module PrScoreDelta.
Import Py.

(** One metric of the delta dict: [{"base": .., "head": .., "delta": ..}]. *)
Record Metric : Type := {
  m_base : pyval;
  m_head : pyval;
  m_delta : pyval
}.

(** [{"base": .., "head": ..}], for the grade and the coverage. *)
Record Pair : Type := {
  p_base : pyval;
  p_head : pyval
}.

(** The dict [compute_delta] returns, one field per key. *)
Record DeltaRecord : Type := {
  sites_total : Metric;
  instrumented : Metric;
  uninstrumented : Metric;
  score : Metric;
  grade : Pair;
  coverage_pct : Pair
}.

(** [doc.get("scan", {}).get("summary", doc.get("scan", {}))]. *)
Definition scan_summary (doc : pyval) : result pyval :=
  scan <- get doc "scan" (PDict []) ;;
  fallback <- get doc "scan" (PDict []) ;;
  get scan "summary" fallback.

(** [round(instr / sites * 100, 1) if sites > 0 else 0]. *)
Definition coverage (instr sites : pyval) : result pyval :=
  positive_sites <- gt_int sites 0 ;;
  if positive_sites : bool then
    q <- truediv instr sites ;;
    pct <- mul q (PInt 100) ;;
    round1 pct
  else Ok (PInt 0).

Definition compute_delta (base head : pyval) : result DeltaRecord :=
  base_scan <- scan_summary base ;;
  head_scan <- scan_summary head ;;
  base_score <- get base "score" (PDict []) ;;
  head_score <- get head "score" (PDict []) ;;
  b_sites <- get base_scan "sites_total" (PInt 0) ;;
  h_sites <- get head_scan "sites_total" (PInt 0) ;;
  b_instr <- get base_scan "instrumented" (PInt 0) ;;
  h_instr <- get head_scan "instrumented" (PInt 0) ;;
  b_uninstr <- get base_scan "uninstrumented" (PInt 0) ;;
  h_uninstr <- get head_scan "uninstrumented" (PInt 0) ;;
  b_score_val <- get base_score "score" (PInt 0) ;;
  h_score_val <- get head_score "score" (PInt 0) ;;
  b_grade <- get base_score "grade" (PStr "?") ;;
  h_grade <- get head_score "grade" (PStr "?") ;;
  d_sites <- sub h_sites b_sites ;;
  d_instr <- sub h_instr b_instr ;;
  d_uninstr <- sub h_uninstr b_uninstr ;;
  raw_score <- sub h_score_val b_score_val ;;
  d_score <- round1 raw_score ;;
  cov_base <- coverage b_instr b_sites ;;
  cov_head <- coverage h_instr h_sites ;;
  Ok {| sites_total := {| m_base := b_sites; m_head := h_sites; m_delta := d_sites |};
        instrumented := {| m_base := b_instr; m_head := h_instr; m_delta := d_instr |};
        uninstrumented := {| m_base := b_uninstr; m_head := h_uninstr; m_delta := d_uninstr |};
        score := {| m_base := b_score_val; m_head := h_score_val; m_delta := d_score |};
        grade := {| p_base := b_grade; p_head := h_grade |};
        coverage_pct := {| p_base := cov_base; p_head := cov_head |} |}.

(** An entry of the list [find_new_uninstrumented] returns. *)
Record NewSite : Type := {
  file : pyval;
  line : string;
  call : pyval;
  provider : pyval
}.

(** [doc.get("scan", {}).get("sites", doc.get("sites", []))]. *)
Definition site_list (doc : pyval) : result pyval :=
  scan <- get doc "scan" (PDict []) ;;
  fallback <- get doc "sites" (PList []) ;;
  get scan "sites" fallback.

(** [f"{site.get('file', '')}:{site.get('line', '')}:{site.get('call', '')}"]. *)
Definition site_key (site : pyval) : result string :=
  f <- get site "file" (PStr "") ;;
  l <- get site "line" (PStr "") ;;
  c <- get site "call" (PStr "") ;;
  Ok (fstring [Val (str f); Lit ":"; Val (str l); Lit ":"; Val (str c)]).

(** The dict appended for a new site. *)
Definition new_site (site : pyval) : result NewSite :=
  f <- get site "file" (PStr "unknown") ;;
  l <- get site "line" (PStr "?") ;;
  c <- get site "call" (PStr "unknown") ;;
  p <- get site "provider" (PStr "unknown") ;;
  Ok {| file := f; line := str l; call := c; provider := p |}.

(** The first loop: the keys of the base sites. *)
Fixpoint base_loop (sites : list pyval) (base_sites : set string) : result (set string) :=
  match sites with
  | [] => Ok base_sites
  | site :: rest =>
      key <- site_key site ;;
      base_loop rest (set_add string_dec key base_sites)
  end.

(** The second loop: the head sites that are uninstrumented and new. *)
Fixpoint head_loop (base_sites : set string) (sites : list pyval)
    (head_new : list NewSite) : result (list NewSite) :=
  match sites with
  | [] => Ok head_new
  | site :: rest =>
      flag <- get site "instrumented" (PBool false) ;;
      if negb (truthy flag) then
        key <- site_key site ;;
        if negb (set_mem string_dec key base_sites) then
          entry <- new_site site ;;
          head_loop base_sites rest (head_new ++ [entry])
        else head_loop base_sites rest head_new
      else head_loop base_sites rest head_new
  end.

Definition find_new_uninstrumented (base head : pyval) : result (list NewSite) :=
  base_list <- site_list base ;;
  base_items <- iter base_list ;;
  base_sites <- base_loop base_items (empty_set string) ;;
  head_list <- site_list head ;;
  head_items <- iter head_list ;;
  head_new <- head_loop base_sites head_items [] ;;
  Ok (firstn 10 head_new).

Definition format_delta_icon (value : pyval) (invert : bool) : result string :=
  up <- gt_int value 0 ;;
  if up : bool then Ok (if negb invert then "+" else "-")
  else
    down <- lt_int value 0 ;;
    if down : bool then Ok (if negb invert then "-" else "+")
    else Ok "=".

(** A row of the new-sites table. *)
Definition site_row (site : NewSite) : string :=
  fstring [Lit "| `"; Val (str (file site)); Lit "` | "; Val (line site);
           Lit " | `"; Val (str (call site)); Lit "` | ";
           Val (str (provider site)); Lit " |"].

(** The block appended when [new_sites] is not empty. *)
Definition new_sites_block (new_sites : list NewSite) : list string :=
  match new_sites with
  | [] => []
  | _ :: _ =>
      ([""; "### New Uninstrumented Call Sites"; "";
        "| File | Line | Call | Provider |";
        "|------|------|------|----------|"]
       ++ map site_row new_sites
       ++ [""; "> Fix: `pip install assay-ai && assay patch .` to auto-instrument these sites."])%list
  end.

(** A row for one of the three counts. *)
Definition count_row (label : string) (m : Metric) : result string :=
  d <- format_plus_d (m_delta m) ;;
  Ok (fstring [Lit label; Val (str (m_base m)); Lit " | ";
               Val (str (m_head m)); Lit " | "; Val d; Lit " |"]).

Definition render_markdown (delta : DeltaRecord) (new_sites : list NewSite) : result string :=
  let lines := ["## Evidence Readiness Score Delta"; ""] in
  let score_d := score delta in
  up <- gt_int (m_delta score_d) 0 ;;
  score_icon <- (if up : bool then Ok " [improved]"
                 else
                   down <- lt_int (m_delta score_d) 0 ;;
                   Ok (if down : bool then " [regressed]" else "")) ;;
  let lines := (lines ++ ["| Metric | Base | Head | Delta |";
                         "|--------|------|------|-------|"])%list in
  let s := score delta in
  s_base <- format_f1 false (m_base s) ;;
  s_head <- format_f1 false (m_head s) ;;
  s_delta <- format_f1 true (m_delta s) ;;
  let lines := (lines ++ [fstring [Lit "| **Score** | "; Val s_base; Lit " | "; Val s_head;
                                  Lit " | "; Val s_delta; Val score_icon; Lit " |"]])%list in
  let g := grade delta in
  let grade_change :=
    if negb (eq (p_base g) (p_head g))
    then PStr (fstring [Val (str (p_base g)); Lit " -> "; Val (str (p_head g))])
    else p_head g in
  let lines := (lines ++ [fstring [Lit "| **Grade** | "; Val (str (p_base g)); Lit " | ";
                                  Val (str (p_head g)); Lit " | ";
                                  Val (str grade_change); Lit " |"]])%list in
  st_row <- count_row "| Call Sites | " (sites_total delta) ;;
  let lines := (lines ++ [st_row])%list in
  inst_row <- count_row "| Instrumented | " (instrumented delta) ;;
  let lines := (lines ++ [inst_row])%list in
  uninst_row <- count_row "| Uninstrumented | " (uninstrumented delta) ;;
  let lines := (lines ++ [uninst_row])%list in
  let cov := coverage_pct delta in
  cov_delta <- sub (p_head cov) (p_base cov) ;;
  c_base <- format_f1 false (p_base cov) ;;
  c_head <- format_f1 false (p_head cov) ;;
  c_delta <- format_f1 true cov_delta ;;
  let lines := (lines ++ [fstring [Lit "| Coverage | "; Val c_base; Lit "% | "; Val c_head;
                                  Lit "% | "; Val c_delta; Lit "% |"]])%list in
  let lines := (lines ++ new_sites_block new_sites)%list in
  let lines := (lines ++ [""; "---";
    "*Generated by [Assay Scorecard](https://haserjian.github.io/assay-scorecard/) | [Methodology](https://haserjian.github.io/assay-scorecard/methodology.html)*"])%list in
  Ok (String.concat newline lines).

(** *** The command line *)

(** The parsed arguments. *)
Record Args : Type := {
  base_json : string;
  head_json : string;
  output : option string;
  json_output : bool;
  fail_on_regression : bool
}.

(** What reading an existing path does: [json.load] rejects its text
    ([NotJson]), returns a value ([Json]), or [open] or [json.load] raises
    another exception ([Unreadable]): a directory, a file without read
    permission, bytes that are not UTF-8, an int literal longer than the
    interpreter converts, nesting deeper than the recursion limit.  A path
    that does not exist holds nothing. *)
Inductive content : Type :=
| NotJson
| Json (v : pyval)
| Unreadable (e : exn).

(** The files are taken not to change while [main] runs. *)
Definition filesystem : Type := string -> option content.

Definition exists_ (fs : filesystem) (path : string) : bool :=
  match fs path with Some _ => true | None => false end.

Definition load_scan_score (fs : filesystem) (path : string) : result pyval :=
  match fs path with
  | Some (Json v) => Ok v
  | Some NotJson => Raise JSONDecodeError
  | Some (Unreadable e) => Raise e
  | None => Raise FileNotFoundError
  end.

(** The dict given to [json.dumps] in JSON mode. *)
Record Report : Type := {
  r_delta : DeltaRecord;
  new_uninstrumented_sites : list NewSite;
  regressed : bool
}.

(** [result]: the serialised report stands for the dict it serialises. *)
Inductive rendered : Type :=
| JsonText (r : Report)
| Markdown (text : string).

(** The values of the dict given to [json.dumps]. *)
Definition metric_values (m : Metric) : list pyval := [m_base m; m_head m; m_delta m].

Definition pair_values (p : Pair) : list pyval := [p_base p; p_head p].

Definition site_values (site : NewSite) : list pyval :=
  [file site; PStr (line site); call site; provider site].

Definition report_values (r : Report) : list pyval :=
  (metric_values (sites_total (r_delta r)) ++ metric_values (instrumented (r_delta r))
   ++ metric_values (uninstrumented (r_delta r)) ++ metric_values (score (r_delta r))
   ++ pair_values (grade (r_delta r)) ++ pair_values (coverage_pct (r_delta r))
   ++ flat_map site_values (new_uninstrumented_sites r)
   ++ [PBool (regressed r)])%list.

(** [json.dumps(output, indent=2)]: it raises [ValueError] on an int that
    is not convertible (and, which is left out, [RecursionError] on a value
    nested about as deep as the recursion limit). *)
Definition json_dumps (r : Report) : result rendered :=
  if forallb dumpable (report_values r) then Ok (JsonText r) else Raise ValueError.

Inductive effect : Type :=
| ErrBaseNotFound (path : string)
| ErrHeadNotFound (path : string)
| ErrParse
| Print (r : rendered)
| WriteText (path : string) (r : rendered).

(** How the process ends: [sys.exit(code)], falling off the end of [main],
    or an exception nobody catches. *)
Inductive ending : Type :=
| Exit (code : Z)
| Returned
| Uncaught (e : exn).

Record Run : Type := {
  effects : list effect;
  final : ending
}.

(** The status the shell sees: the interpreter turns an uncaught exception
    into a traceback and status 1. *)
Definition exit_status (r : Run) : Z :=
  match final r with
  | Exit code => code
  | Returned => 0
  | Uncaught _ => 1
  end.

(** Everything [main] does between loading the inputs and emitting. *)
Definition build_result (args : Args) (base head : pyval) : result (DeltaRecord * rendered) :=
  delta <- compute_delta base head ;;
  new_sites <- find_new_uninstrumented base head ;;
  if json_output args then
    neg <- lt_int (m_delta (score delta)) 0 ;;
    dumped <- json_dumps {| r_delta := delta;
                            new_uninstrumented_sites := new_sites;
                            regressed := neg |} ;;
    Ok (delta, dumped)
  else
    text <- render_markdown delta new_sites ;;
    Ok (delta, Markdown text).

Definition emit (args : Args) (r : rendered) : effect :=
  match output args with
  | Some path => if String.eqb path "" then Print r else WriteText path r
  | None => Print r
  end.

Definition main (args : Args) (fs : filesystem) : Run :=
  if negb (exists_ fs (base_json args)) then
    {| effects := [ErrBaseNotFound (base_json args)]; final := Exit 3 |}
  else if negb (exists_ fs (head_json args)) then
    {| effects := [ErrHeadNotFound (head_json args)]; final := Exit 3 |}
  else
    match (base <- load_scan_score fs (base_json args) ;;
           head <- load_scan_score fs (head_json args) ;;
           Ok (base, head)) with
    | Raise JSONDecodeError | Raise KeyError =>
        {| effects := [ErrParse]; final := Exit 3 |}
    | Raise e => {| effects := []; final := Uncaught e |}
    | Ok (base, head) =>
        match build_result args base head with
        | Raise e => {| effects := []; final := Uncaught e |}
        | Ok (delta, r) =>
            match (if fail_on_regression args
                   then lt_int (m_delta (score delta)) 0
                   else Ok false) with
            | Ok true => {| effects := [emit args r]; final := Exit 1 |}
            | Ok false => {| effects := [emit args r]; final := Returned |}
            | Raise e => {| effects := [emit args r]; final := Uncaught e |}
            end
        end
    end.

End PrScoreDelta.

(** ** Readings of the script used in the statements *)

Module Reading.
Import Py PrScoreDelta.

(** A dict as its association list. *)
Definition assoc : Type := list (string * pyval).

(** [d.get(k, default)] on a dict known to be one. *)
Definition field (k : string) (default : pyval) (d : assoc) : pyval :=
  match lookup k d with
  | Some v => v
  | None => default
  end.

(** The identity triple of a site: its file, line and call entries. *)
Definition triple_of (d : assoc) : option pyval * option pyval * option pyval :=
  (lookup "file" d, lookup "line" d, lookup "call" d).

(** The key, the flag test and the emitted entry of a site that is a dict. *)
Definition key_of (d : assoc) : string :=
  fstring [Val (str (field "file" (PStr "") d)); Lit ":";
           Val (str (field "line" (PStr "") d)); Lit ":";
           Val (str (field "call" (PStr "") d))].

Definition uninstrumented_site (d : assoc) : bool :=
  negb (truthy (field "instrumented" (PBool false) d)).

Definition entry_of (d : assoc) : NewSite :=
  {| file := field "file" (PStr "unknown") d;
     line := str (field "line" (PStr "?") d);
     call := field "call" (PStr "unknown") d;
     provider := field "provider" (PStr "unknown") d |}.

(** A head site qualifies when it is uninstrumented and its key is not the
    key of a base site. *)
Definition qualifies (base_sites : list assoc) (d : assoc) : bool :=
  uninstrumented_site d
  && negb (existsb (String.eqb (key_of d)) (map key_of base_sites)).

(** The head sites the second loop selects, before and after the cap. *)
Definition qualifying (base_sites head_sites : list assoc) : list assoc :=
  filter (qualifies base_sites) head_sites.

Definition selected (base_sites head_sites : list assoc) : list assoc :=
  firstn 10 (qualifying base_sites head_sites).

(** A document whose site list is the JSON list of the given dicts. *)
Definition has_sites (doc : pyval) (sites : list assoc) : Prop :=
  site_list doc = Ok (PList (map PDict sites)).

(** Neither [scan.sites] nor a top-level [sites] is present. *)
Definition sites_absent (doc : pyval) : bool :=
  match doc with
  | PDict d =>
      match lookup "sites" d with
      | Some _ => false
      | None =>
          match lookup "scan" d with
          | None => true
          | Some (PDict scan) =>
              match lookup "sites" scan with Some _ => false | None => true end
          | Some _ => false
          end
      end
  | _ => false
  end.

(** [v[k]] when [v] is a dict that has the key. *)
Definition sub_lookup (k : string) (v : pyval) : option pyval :=
  match v with
  | PDict d => lookup k d
  | _ => None
  end.

(** A scan-summary field as the specification words it: taken from
    [scan.summary] when the summary key is present, from [scan] directly
    otherwise, and 0 when it is missing. *)
Definition summary_field (name : string) (doc : pyval) : pyval :=
  match sub_lookup "scan" doc with
  | None => PInt 0
  | Some scan =>
      match sub_lookup "summary" scan with
      | Some summary =>
          match sub_lookup name summary with Some v => v | None => PInt 0 end
      | None =>
          match sub_lookup name scan with Some v => v | None => PInt 0 end
      end
  end.

(** A field of the score section, with its default when it is missing. *)
Definition score_field (name : string) (default : pyval) (doc : pyval) : pyval :=
  match sub_lookup "score" doc with
  | None => default
  | Some section =>
      match sub_lookup name section with Some v => v | None => default end
  end.

(** A JSON number that [float] can represent. *)
Definition plain_number (v : pyval) : bool :=
  match v with
  | PBool _ => true
  | PInt z => Z.abs z <? overflow_threshold
  | PFloat _ => true
  | _ => false
  end.

Definition dict_or_absent (o : option pyval) : bool :=
  match o with
  | None => true
  | Some (PDict _) => true
  | Some _ => false
  end.

(** A dictionary-shaped document: a dict whose [scan], [scan.summary] and
    [score] entries, when present, are dicts and whose metrics, when
    present, are plain numbers.  Any of them may be missing. *)
Definition well_shaped (doc : pyval) : bool :=
  match doc with
  | PDict d =>
      dict_or_absent (lookup "scan" d)
      && dict_or_absent (sub_lookup "summary" (field "scan" (PDict []) d))
      && dict_or_absent (lookup "score" d)
      && plain_number (summary_field "sites_total" doc)
      && plain_number (summary_field "instrumented" doc)
      && plain_number (summary_field "uninstrumented" doc)
      && plain_number (score_field "score" (PInt 0) doc)
  | _ => false
  end.

(** [round(instr / sites * 100, 1)]. *)
Definition coverage_formula (instr sites : pyval) : result pyval :=
  q <- truediv instr sites ;;
  pct <- mul q (PInt 100) ;;
  round1 pct.

(** The coverage as C5 words it: the formula when [sites_total] is not
    zero, 0 when it is. *)
Definition coverage_as_stated (instr sites : pyval) : result pyval :=
  if eq sites (PInt 0) then Ok (PInt 0) else coverage_formula instr sites.

(** A character that does not occur in [w] separates occurrences of [w]. *)
Definition starts_with_sep (w s : string) : bool :=
  match s with
  | String c _ => negb (has_char c w)
  | EmptyString => false
  end.

Fixpoint ends_with_sep (w s : string) : bool :=
  match s with
  | EmptyString => false
  | String c EmptyString => negb (has_char c w)
  | String _ s' => ends_with_sep w s'
  end.

(** Two adjacent parts of an f-string are sealed when a literal puts a
    separator at their border. *)
Definition border (w : string) (p q : frag) : bool :=
  match p, q with
  | Lit a, Lit b => ends_with_sep w a || starts_with_sep w b
  | Lit a, Val _ => ends_with_sep w a
  | Val _, Lit b => starts_with_sep w b
  | Val _, Val _ => false
  end.

Fixpoint sealed (w : string) (parts : list frag) : bool :=
  match parts with
  | p :: (q :: _) as rest => border w p q && sealed w rest
  | _ => true
  end.

(** Every character of [s] is one of [alphabet]. *)
Fixpoint within (alphabet s : string) : bool :=
  match s with
  | EmptyString => true
  | String c s' => has_char c alphabet && within alphabet s'
  end.

(** The characters of the numeric formats and of [str] on ints and bools. *)
Definition numeric_alphabet : string := "0123456789+-.infaTrueFls".

(** The values [render_markdown] prints as they are: the grades, the base
    and head of the three counts, and the fields of the new sites. *)
Definition site_texts (site : NewSite) : list string :=
  [str (file site); line site; str (call site); str (provider site)].

Definition free_text (d : DeltaRecord) (new_sites : list NewSite) : list string :=
  ([str (p_base (grade d)); str (p_head (grade d));
    str (m_base (sites_total d)); str (m_head (sites_total d));
    str (m_base (instrumented d)); str (m_head (instrumented d));
    str (m_base (uninstrumented d)); str (m_head (uninstrumented d))]
   ++ flat_map site_texts new_sites)%list.

(** Among them, those that are not counts. *)
Definition printed_text (d : DeltaRecord) (new_sites : list NewSite) : list string :=
  ([str (p_base (grade d)); str (p_head (grade d))]
   ++ flat_map site_texts new_sites)%list.

(** The two labels of the score cell. *)
Definition word (w : string) : Prop := w = "improved" \/ w = "regressed".

(** The suffix of the score cell, as [render_markdown] chooses it. *)
Definition score_icon_of (v : pyval) : result string :=
  up <- gt_int v 0 ;;
  if up : bool then Ok " [improved]"
  else
    down <- lt_int v 0 ;;
    Ok (if down : bool then " [regressed]" else "").

(** Structural equality of values is decidable. *)
Definition float_eq_dec (f g : float) : {f = g} + {f <> g}.
Proof.
  unfold float in *.
  decide equality; try apply Bool.bool_dec; try apply Z.eq_dec; apply Pos.eq_dec.
Defined.

Definition pyval_eq_dec : forall a b : pyval, {a = b} + {a <> b}.
Proof.
  induction a as [ | x | x | x | x | l IH | d IH] using pyval_rect; intros b.
  - destruct b; try (right; discriminate). now left.
  - destruct b as [ | y | | | | | ]; try (right; discriminate).
    destruct (Bool.bool_dec x y); [left; congruence | right; congruence].
  - destruct b as [ | | y | | | | ]; try (right; discriminate).
    destruct (Z.eq_dec x y); [left; congruence | right; congruence].
  - destruct b as [ | | | y | | | ]; try (right; discriminate).
    destruct (float_eq_dec x y); [left; congruence | right; congruence].
  - destruct b as [ | | | | y | | ]; try (right; discriminate).
    destruct (string_dec x y); [left; congruence | right; congruence].
  - destruct b as [ | | | | | l' | ]; try (right; discriminate).
    assert ({l = l'} + {l <> l'}) as [E | E].
    { revert l'. induction IH as [ | a Ha l _ IHl]; intros [ | a' l'];
        try (right; discriminate); [now left |].
      destruct (Ha a'); [| right; congruence].
      destruct (IHl l'); [left; congruence | right; congruence]. }
    + left; congruence.
    + right; congruence.
  - destruct b as [ | | | | | | d']; try (right; discriminate).
    assert ({d = d'} + {d <> d'}) as [E | E].
    { revert d'. induction IH as [ | [k v] Ha d _ IHd]; intros [ | [k' v'] d'];
        try (right; discriminate); [now left |].
      inversion Ha as [k0 _ v0 Hv]; subst.
      destruct (string_dec k k'); [| right; congruence].
      destruct (Hv v'); [| right; congruence].
      destruct (IHd d'); [left; congruence | right; congruence]. }
    + left; congruence.
    + right; congruence.
Defined.

Definition assoc_eq_dec : forall d d' : assoc, {d = d'} + {d <> d'}.
Proof.
  apply list_eq_dec. intros [k v] [k' v'].
  destruct (string_dec k k'); [| right; congruence].
  destruct (pyval_eq_dec v v'); [left; congruence | right; congruence].
Defined.

End Reading.

(** ** Sample documents *)

Module Samples.
Import Py PrScoreDelta Reading.

(** A call site as the scanner reports it. *)
Definition site (f : string) (l : Z) (c p : string) (i : bool) : assoc :=
  [("file", PStr f); ("line", PInt l); ("call", PStr c);
   ("provider", PStr p); ("instrumented", PBool i)].

(** A document that only lists sites, under [scan.sites]. *)
Definition with_sites (sites : list assoc) : pyval :=
  PDict [("scan", PDict [("sites", PList (map PDict sites))])].

(** [n] uninstrumented sites on consecutive lines of one file. *)
Definition numbered (n : nat) : list assoc :=
  map (fun i => site "app.py" (Z.of_nat i) "client.create" "openai" false) (seq 0 n).

(** A document with a flat scan section and a score. *)
Definition flat (sites_n instr uninstr : Z) (score_v : pyval) (grade_v : string) : pyval :=
  PDict [("scan", PDict [("sites_total", PInt sites_n); ("instrumented", PInt instr);
                         ("uninstrumented", PInt uninstr)]);
         ("score", PDict [("score", score_v); ("grade", PStr grade_v)])].

(** The double a decimal literal [k * 10^p] denotes. *)
Definition dec (k p : Z) : pyval :=
  PFloat (if k <? 0 then strtod true (- k) p else strtod false k p).

(** A file system with at most the two input files, and the command line
    that names them. *)
Definition world (base_file head_file : option content) : filesystem :=
  fun path =>
    if String.eqb path "base.json" then base_file
    else if String.eqb path "head.json" then head_file
    else None.

Definition cli (as_json fail : bool) : Args :=
  {| base_json := "base.json"; head_json := "head.json"; output := None;
     json_output := as_json; fail_on_regression := fail |}.

End Samples.

(** ** Shapes of documents and records used beyond the specification *)

Module Shapes.
Import Py PrScoreDelta Reading.

(** The containers [compute_delta] calls [get] on: the document, its
    [scan] entry, the [summary] entry of that, and its [score] entry.  An
    entry that is present has to be a dict; it may be missing. *)
Definition containers_ok (doc : pyval) : bool :=
  match doc with
  | PDict d =>
      dict_or_absent (lookup "scan" d)
      && dict_or_absent (sub_lookup "summary" (field "scan" (PDict []) d))
      && dict_or_absent (lookup "score" d)
  | _ => false
  end.

(** An int, a bool or a float. *)
Definition is_number (v : pyval) : bool :=
  match as_num v with Some _ => true | None => false end.

Definition is_float (v : pyval) : bool :=
  match v with PFloat _ => true | _ => false end.

(** An int or a float, not a bool: what a subtraction returns. *)
Definition int_or_float (v : pyval) : bool :=
  match v with PInt _ | PFloat _ => true | _ => false end.

(** The value of a coverage cell: the int 0 or a float. *)
Definition zero_or_float (v : pyval) : bool :=
  match v with PInt 0 | PFloat _ => true | _ => false end.

(** An int or a bool: what [+d] formats. *)
Definition int_like (v : pyval) : bool :=
  match v with PBool _ | PInt _ => true | _ => false end.

(** A number other than an infinity or a NaN. *)
Definition finite_number (v : pyval) : bool :=
  match v with
  | PBool _ | PInt _ => true
  | PFloat (S754_zero _) | PFloat (S754_finite _ _ _) => true
  | _ => false
  end.

(** A number whose difference with another such number still converts to
    a float: any float, any int below [2^1000] in magnitude. *)
Definition modest (v : pyval) : bool :=
  match v with
  | PBool _ => true
  | PInt z => Z.abs z <? 2 ^ 1000
  | PFloat _ => true
  | _ => false
  end.

(** A document that every step of the script can convert to text: its
    ints are convertible, as those of a document [json.load] returned are,
    and its nesting stays far below the recursion limit. *)
Definition moderate (v : pyval) : bool :=
  dumpable v && (nesting v <=? 100)%nat.

(** What [for site in v] rejects: a value that is not iterable. *)
Definition scalar (v : pyval) : bool :=
  match v with
  | PNone | PBool _ | PInt _ | PFloat _ => true
  | _ => false
  end.

(** A site as the scanner writes it: the file is a string without a colon,
    the line an int and the call a string. *)
Definition typed_site (d : assoc) : bool :=
  match lookup "file" d, lookup "line" d, lookup "call" d with
  | Some (PStr f), Some (PInt _), Some (PStr _) => negb (has_char ":" f)
  | _, _, _ => false
  end.

(** The base and head values of the three counts of a record. *)
Definition count_values (d : DeltaRecord) : list pyval :=
  [m_base (sites_total d); m_head (sites_total d);
   m_base (instrumented d); m_head (instrumented d);
   m_base (uninstrumented d); m_head (uninstrumented d)].

(** The three counts and the score of a document, as [compute_delta]
    resolves them. *)
Definition count_fields (doc : pyval) : list pyval :=
  [summary_field "sites_total" doc; summary_field "instrumented" doc;
   summary_field "uninstrumented" doc].

Definition metric_fields (doc : pyval) : list pyval :=
  (count_fields doc ++ [score_field "score" (PInt 0) doc])%list.

(** The command line with [--fail-on-regression] given or not. *)
Definition with_flag (flag : bool) (args : Args) : Args :=
  {| base_json := base_json args; head_json := head_json args;
     output := output args; json_output := json_output args;
     fail_on_regression := flag |}.

(** The icon of the opposite direction. *)
Definition flip_icon (icon : string) : string :=
  if String.eqb icon "+" then "-"
  else if String.eqb icon "-" then "+"
  else icon.

(** The lines every report starts and ends with. *)
Definition report_head : string :=
  String.concat newline
    ["## Evidence Readiness Score Delta"; "";
     "| Metric | Base | Head | Delta |";
     "|--------|------|------|-------|"; "| **Score** | "].

Definition report_foot : string :=
  String.concat newline
    [""; ""; "---";
     "*Generated by [Assay Scorecard](https://haserjian.github.io/assay-scorecard/) | [Methodology](https://haserjian.github.io/assay-scorecard/methodology.html)*"].

(** The text around the rows of the new-sites table. *)
Definition sites_head : string :=
  String.concat newline
    [""; ""; "### New Uninstrumented Call Sites"; "";
     "| File | Line | Call | Provider |";
     "|------|------|------|----------|"; ""].

Definition sites_foot : string :=
  String.concat newline
    [""; ""; "> Fix: `pip install assay-ai && assay patch .` to auto-instrument these sites."].

End Shapes.

(** ** The runtime model on known values *)

Module PyExamples.
Import Py Samples.

(** [round(0.25, 1) == 0.2], [round(0.35, 1) == 0.3], [round(-0.04, 1) == -0.0]. *)
Example round_to_one_decimal :
  round1 (dec 25 (-2)) = Ok (dec 2 (-1))
  /\ round1 (dec 35 (-2)) = Ok (dec 3 (-1))
  /\ round1 (dec (-4) (-2)) = Ok (PFloat (S754_zero true))
  /\ round1 (PBool true) = Ok (PInt 1).
Proof. repeat split; vm_compute; reflexivity. Qed.

(** [10 / 15 * 100 == 66.66666666666666], [0 / -4 == -0.0], and a quotient
    beyond the doubles raises. *)
Example true_division :
  (q <- truediv (PInt 10) (PInt 15) ;; mul q (PInt 100)) = Ok (dec 6666666666666666 (-14))
  /\ truediv (PInt 0) (PInt (-4)) = Ok (PFloat (S754_zero true))
  /\ truediv (PInt (10 ^ 400)) (PInt 1) = Raise OverflowError
  /\ truediv (PInt 1) (PInt 0) = Raise ZeroDivisionError
  /\ sub (PInt (10 ^ 400)) (dec 10 (-1)) = Raise OverflowError.
Proof. repeat split; vm_compute; reflexivity. Qed.

(** [repr(0.30000000000000004)], [repr(1e22)], [repr(5e-324)],
    [repr(0.00001)], [repr(1e16)], [repr(0.0001)], [repr(66.7)]. *)
Example shortest_repr :
  str (dec 30000000000000004 (-17)) = "0.30000000000000004"
  /\ str (dec 1 22) = "1e+22"
  /\ str (dec 5 (-324)) = "5e-324"
  /\ str (dec 1 (-5)) = "1e-05"
  /\ str (dec 1 16) = "1e+16"
  /\ str (dec 1 (-4)) = "0.0001"
  /\ str (dec 667 (-1)) = "66.7".
Proof. repeat split; vm_compute; reflexivity. Qed.

(** [f"{15.0:+.1f}"], [f"{-0.0:+.1f}"], [f"{0.25:.1f}"], [f"{10**30:.1f}"],
    [f"{True:+d}"], [f"{-3:+d}"], and the format errors. *)
Example format_specs :
  format_f1 true (dec 150 (-1)) = Ok "+15.0"
  /\ format_f1 true (PFloat (S754_zero true)) = Ok "-0.0"
  /\ format_f1 false (dec 25 (-2)) = Ok "0.2"
  /\ format_f1 false (PInt (10 ^ 30)) = Ok "1000000000000000019884624838656.0"
  /\ format_plus_d (PBool true) = Ok "+1"
  /\ format_plus_d (PInt (-3)) = Ok "-3"
  /\ format_plus_d (dec 15 (-1)) = Raise ValueError
  /\ format_f1 false (PStr "x") = Raise ValueError
  /\ format_f1 false PNone = Raise TypeError.
Proof. repeat split; vm_compute; reflexivity. Qed.

(** [str] of a nested value, and [==] across the numeric types. *)
Example str_and_equality :
  str (PDict [("a", PList [PInt 1; dec 25 (-1); PNone; PBool true; PStr "x'y"])])
  = String "{"%char ("'a': [1, 2.5, None, True, "
                     ++ String quote2 ("x'y" ++ String quote2 "]}"))
  /\ eq (PInt 1) (dec 10 (-1)) = true
  /\ eq (PBool true) (PInt 1) = true
  /\ eq (PDict [("a", PInt 1); ("b", PInt 2)]) (PDict [("b", PInt 2); ("a", PInt 1)]) = true
  /\ eq (PFloat S754_nan) (PFloat S754_nan) = false.
Proof. repeat split; vm_compute; reflexivity. Qed.

(** Loaded NaNs are one object: [[nan] == [nan]] and [{"g": nan} == {"g": nan}]
    hold, [[nan] == [1.0]] does not.  [format(10**4300 - 1, "+d")] has 4300
    digits and is returned; [format(10**4300, "+d")] raises [ValueError],
    and so does [json.dumps] on a list that holds that int. *)
Example shared_nan_and_long_ints :
  eq (PList [PFloat S754_nan]) (PList [PFloat S754_nan]) = true
  /\ eq (PDict [("g", PFloat S754_nan)]) (PDict [("g", PFloat S754_nan)]) = true
  /\ eq (PList [PFloat S754_nan]) (PList [dec 10 (-1)]) = false
  /\ is_ok (format_plus_d (PInt (10 ^ 4300 - 1))) = true
  /\ format_plus_d (PInt (10 ^ 4300)) = Raise ValueError
  /\ format_plus_d (PInt (- 10 ^ 4300)) = Raise ValueError
  /\ dumpable (PList [PInt (10 ^ 4300 - 1); PFloat S754_nan]) = true
  /\ dumpable (PDict [("a", PList [PInt (10 ^ 4300)])]) = false.
Proof. repeat split; vm_compute; reflexivity. Qed.

End PyExamples.

(** ** The site diff *)

Module SitesFacts.
Import Py PrScoreDelta Reading.

Lemma site_key_dict (d : assoc) : site_key (PDict d) = Ok (key_of d).
Proof.
  unfold site_key, key_of, field, get.
  destruct (lookup "file" d), (lookup "line" d), (lookup "call" d); reflexivity.
Qed.

Lemma new_site_dict (d : assoc) : new_site (PDict d) = Ok (entry_of d).
Proof.
  unfold new_site, entry_of, field, get.
  destruct (lookup "file" d), (lookup "line" d), (lookup "call" d),
    (lookup "provider" d); reflexivity.
Qed.

Lemma flag_dict (d : assoc) :
  get (PDict d) "instrumented" (PBool false)
  = Ok (field "instrumented" (PBool false) d).
Proof. unfold get, field. destruct (lookup "instrumented" d); reflexivity. Qed.

(** The first loop never raises on dicts and collects exactly their keys. *)
Lemma base_loop_dicts (bs : list assoc) :
  forall acc, exists keys,
    base_loop (map PDict bs) acc = Ok keys
    /\ forall k, set_In k keys <-> set_In k acc \/ In k (map key_of bs).
Proof.
  induction bs as [|b bs IH]; intros acc; cbn [map base_loop].
  - exists acc. split; [reflexivity | intros k; simpl; tauto].
  - rewrite site_key_dict. cbn [bind].
    destruct (IH (set_add string_dec (key_of b) acc)) as [keys [Hrun Hkeys]].
    exists keys. split; [exact Hrun |].
    intros k. rewrite Hkeys, set_add_iff. simpl. intuition congruence.
Qed.

(** The second loop never raises on dicts: it appends the entries of the
    sites that pass both tests, in order. *)
Lemma head_loop_dicts (keys : set string) (hs : list assoc) :
  forall acc,
    head_loop keys (map PDict hs) acc
    = Ok (acc ++ map entry_of
            (filter (fun d => uninstrumented_site d
                              && negb (set_mem string_dec (key_of d) keys)) hs))%list.
Proof.
  induction hs as [|h hs IH]; intros acc; cbn [map filter head_loop].
  - now rewrite app_nil_r.
  - rewrite flag_dict. cbn [bind]. unfold uninstrumented_site at 1.
    destruct (negb (truthy (field "instrumented" (PBool false) h))); cbn [andb].
    + rewrite site_key_dict. cbn [bind].
      destruct (set_mem string_dec (key_of h) keys); cbn [negb].
      * apply IH.
      * rewrite new_site_dict. cbn [bind map]. rewrite IH, <- app_assoc. reflexivity.
    + apply IH.
Qed.

Lemma mem_keys (keys : set string) (bs : list assoc) (k : string) :
  (forall k', set_In k' keys <-> In k' (map key_of bs)) ->
  set_mem string_dec k keys = existsb (String.eqb k) (map key_of bs).
Proof.
  intros Hkeys.
  destruct (existsb (String.eqb k) (map key_of bs)) eqn:E.
  - apply existsb_exists in E. destruct E as [k' [Hin Heq]].
    apply String.eqb_eq in Heq. subst k'.
    apply set_mem_correct2, Hkeys, Hin.
  - destruct (set_mem string_dec k keys) eqn:M; [| reflexivity].
    apply set_mem_correct1, Hkeys in M.
    assert (existsb (String.eqb k) (map key_of bs) = true) as E'.
    { apply existsb_exists. exists k. split; [exact M | apply String.eqb_refl]. }
    congruence.
Qed.

(** On documents whose site lists are lists of dicts the function returns
    the entries of the selected sites. *)
Lemma find_new_reading (base head : pyval) (bs hs : list assoc) :
  has_sites base bs -> has_sites head hs ->
  find_new_uninstrumented base head = Ok (map entry_of (selected bs hs)).
Proof.
  unfold has_sites, find_new_uninstrumented. intros Hb Hh.
  rewrite Hb. cbn [bind iter].
  destruct (base_loop_dicts bs (empty_set string)) as [keys [Hrun Hkeys]].
  rewrite Hrun. cbn [bind]. rewrite Hh. cbn [bind iter].
  rewrite head_loop_dicts. cbn [bind app].
  unfold selected, qualifying. rewrite <- firstn_map. do 3 f_equal.
  apply filter_ext. intros d. unfold qualifies. do 2 f_equal.
  apply mem_keys. intros k'. rewrite Hkeys. simpl. tauto.
Qed.

(** Equal triples give equal keys. *)
Lemma triple_key (d d' : assoc) : triple_of d = triple_of d' -> key_of d = key_of d'.
Proof.
  unfold triple_of, key_of, field. intros H. injection H as Hf Hl Hc.
  now rewrite Hf, Hl, Hc.
Qed.

Lemma in_firstn {A : Type} (n : nat) (l : list A) (x : A) :
  In x (firstn n l) -> In x l.
Proof.
  intros H. rewrite <- (firstn_skipn n l). apply in_or_app. now left.
Qed.

Lemma selected_cap (bs hs : list assoc) : (List.length (selected bs hs) <= 10)%nat.
Proof. unfold selected. apply firstn_le_length. Qed.

Lemma selected_in_qualifying (bs hs : list assoc) (d : assoc) :
  In d (selected bs hs) -> In d hs /\ qualifies bs d = true.
Proof.
  unfold selected, qualifying. intros H.
  apply in_firstn in H. now apply filter_In in H.
Qed.

(** A qualifying site preceded by fewer than ten qualifying ones is kept. *)
Lemma early_selected (bs pre post : list assoc) (d : assoc) :
  qualifies bs d = true ->
  (List.length (qualifying bs pre) < 10)%nat ->
  In d (selected bs (pre ++ d :: post)).
Proof.
  unfold selected, qualifying. intros Hq Hlen.
  rewrite filter_app. cbn [filter]. rewrite Hq.
  rewrite firstn_app. apply in_or_app. right.
  destruct (10 - List.length (filter (qualifies bs) pre))%nat as [|n] eqn:E; [lia |].
  cbn [firstn]. now left.
Qed.

End SitesFacts.

(** ** Properties of [find_new_uninstrumented] *)

Module SitesClaims.
Import Py PrScoreDelta Reading Samples SitesFacts.

(** C1, as stated, fails on the cap: with an empty base and eleven
    uninstrumented head sites the eleventh is new and uninstrumented, yet the
    output does not contain its entry. *)
Lemma new_site_beyond_cap_is_dropped :
  let base := with_sites [] in
  let head := with_sites (numbered 11) in
  let d := site "app.py" 10 "client.create" "openai" false in
  In d (numbered 11)
  /\ uninstrumented_site d = true
  /\ ~ In (triple_of d) (map triple_of [])
  /\ exists out, find_new_uninstrumented base head = Ok out
                 /\ ~ In (entry_of d) out.
Proof.
  cbv zeta. split; [| split; [| split]].
  - vm_compute. tauto.
  - reflexivity.
  - simpl. tauto.
  - eexists. split; [vm_compute; reflexivity |].
    simpl. intros H. repeat (destruct H as [H | H]; [discriminate H |]). exact H.
Qed.

(** C1 (amended).  On documents whose site lists are lists of dicts the
    function returns the entries of the selected head sites, and:
    an uninstrumented head site whose (file, line, call) triple is not the
    triple of a base site, whose key is not shared with a base site of another
    triple, and which fewer than ten qualifying sites precede, is selected and
    its entry is in the output; a site whose triple is the triple of a base
    site is never selected, whatever its flag and provider; and sites with
    equal triples have equal keys. *)
Theorem new_uninstrumented_sites_reported
    (base head : pyval) (bs hs : list assoc) :
  has_sites base bs -> has_sites head hs ->
  find_new_uninstrumented base head = Ok (map entry_of (selected bs hs))
  /\ (forall pre d post,
        hs = (pre ++ d :: post)%list ->
        uninstrumented_site d = true ->
        ~ In (triple_of d) (map triple_of bs) ->
        (forall b, In b bs -> key_of b = key_of d -> triple_of b = triple_of d) ->
        (List.length (qualifying bs pre) < 10)%nat ->
        In d (selected bs hs)
        /\ In (entry_of d) (map entry_of (selected bs hs)))
  /\ (forall d, In (triple_of d) (map triple_of bs) -> ~ In d (selected bs hs))
  /\ (forall d d', triple_of d = triple_of d' -> key_of d = key_of d').
Proof.
  intros Hb Hh. split; [now apply find_new_reading |]. split; [| split].
  - intros pre d post -> Hflag Hnew Hinj Hlen.
    assert (qualifies bs d = true) as Hq.
    { unfold qualifies. rewrite Hflag. cbn [andb].
      destruct (existsb (String.eqb (key_of d)) (map key_of bs)) eqn:E; [| reflexivity].
      exfalso. apply existsb_exists in E. destruct E as [k [Hin Heq]].
      apply String.eqb_eq in Heq. subst k.
      apply in_map_iff in Hin. destruct Hin as [b [Hkey Hinb]].
      apply Hnew. apply in_map_iff. exists b. split; [| exact Hinb].
      now apply Hinj. }
    assert (In d (selected bs (pre ++ d :: post))) as Hsel
      by now apply early_selected.
    split; [exact Hsel | now apply in_map].
  - intros d Hin Hsel.
    apply selected_in_qualifying in Hsel. destruct Hsel as [_ Hq].
    apply in_map_iff in Hin. destruct Hin as [b [Htriple Hinb]].
    unfold qualifies in Hq. apply andb_true_iff in Hq. destruct Hq as [_ Hq].
    apply negb_true_iff in Hq.
    assert (existsb (String.eqb (key_of d)) (map key_of bs) = true) as E.
    { apply existsb_exists. exists (key_of b). split.
      - now apply in_map.
      - apply String.eqb_eq. symmetry. now apply triple_key. }
    congruence.
  - apply triple_key.
Qed.

(** The amended C1 at a base with one site and a head that repeats it with
    another flag and provider and adds a new one. *)
Lemma new_uninstrumented_sites_reported_witness :
  let bs := [site "app.py" 42 "client.create" "openai" true] in
  let hs := [site "app.py" 42 "client.create" "azure" false;
             site "new.py" 10 "client.create" "openai" false] in
  has_sites (with_sites bs) bs /\ has_sites (with_sites hs) hs
  /\ (find_new_uninstrumented (with_sites bs) (with_sites hs)
      = Ok (map entry_of (selected bs hs))
      /\ (forall pre d post,
            hs = (pre ++ d :: post)%list ->
            uninstrumented_site d = true ->
            ~ In (triple_of d) (map triple_of bs) ->
            (forall b, In b bs -> key_of b = key_of d -> triple_of b = triple_of d) ->
            (List.length (qualifying bs pre) < 10)%nat ->
            In d (selected bs hs)
            /\ In (entry_of d) (map entry_of (selected bs hs)))
      /\ (forall d, In (triple_of d) (map triple_of bs) -> ~ In d (selected bs hs))
      /\ (forall d d', triple_of d = triple_of d' -> key_of d = key_of d')).
Proof.
  cbv zeta. split; [reflexivity | split; [reflexivity |]].
  apply new_uninstrumented_sites_reported; reflexivity.
Defined.

(** The key is the text [file:line:call], so two sites with different
    triples can share it: here a base site hides a new head site. *)
Example colon_in_fields_merges_sites :
  let b := site "a:1" 2 "x" "openai" true in
  let h := site "a" 1 "2:x" "openai" false in
  triple_of b <> triple_of h
  /\ key_of b = key_of h
  /\ find_new_uninstrumented (with_sites [b]) (with_sites [h]) = Ok [].
Proof.
  cbv zeta. split; [discriminate | split; reflexivity].
Qed.

(** C4.  On documents whose site lists are lists of dicts the output is the
    first ten entries of the qualifying head sites, taken in the order of the
    head list; it has at most ten entries, and exactly ten when twenty or
    more sites qualify. *)
Theorem output_is_capped_prefix (base head : pyval) (bs hs : list assoc) :
  has_sites base bs -> has_sites head hs ->
  exists out,
    find_new_uninstrumented base head = Ok out
    /\ out = firstn 10 (map entry_of (filter (qualifies bs) hs))
    /\ (List.length out <= 10)%nat
    /\ ((20 <= List.length (filter (qualifies bs) hs))%nat -> List.length out = 10%nat).
Proof.
  intros Hb Hh. exists (map entry_of (selected bs hs)).
  split; [now apply find_new_reading |].
  unfold selected, qualifying. rewrite <- firstn_map.
  split; [reflexivity |]. split.
  - apply firstn_le_length.
  - intros Hlen. rewrite length_firstn, length_map. lia.
Qed.

(** C4 at twenty new sites. *)
Lemma output_is_capped_prefix_witness :
  has_sites (with_sites []) [] /\ has_sites (with_sites (numbered 20)) (numbered 20)
  /\ exists out,
       find_new_uninstrumented (with_sites []) (with_sites (numbered 20)) = Ok out
       /\ out = firstn 10 (map entry_of (filter (qualifies []) (numbered 20)))
       /\ (List.length out <= 10)%nat
       /\ ((20 <= List.length (filter (qualifies []) (numbered 20)))%nat
           -> List.length out = 10%nat).
Proof.
  split; [reflexivity | split; [reflexivity |]].
  apply output_is_capped_prefix; reflexivity.
Defined.

Lemma count_occ_filter_true {A : Type} (dec : forall x y : A, {x = y} + {x <> y})
    (f : A -> bool) (l : list A) (x : A) :
  f x = true -> count_occ dec (filter f l) x = count_occ dec l x.
Proof.
  intros Hx. induction l as [|a l IH]; [reflexivity |].
  cbn [filter]. destruct (dec a x) as [-> | Hne].
  - rewrite Hx. now rewrite !count_occ_cons_eq, IH.
  - destruct (f a).
    + now rewrite !count_occ_cons_neq, IH.
    + now rewrite count_occ_cons_neq, IH.
Qed.

Lemma filter_repeat_true {A : Type} (f : A -> bool) (x : A) (n : nat) :
  f x = true -> filter f (repeat x n) = repeat x n.
Proof.
  intros Hx. induction n as [|n IH]; [reflexivity |].
  cbn [repeat filter]. now rewrite Hx, IH.
Qed.

Lemma firstn_repeat {A : Type} (x : A) (k n : nat) :
  firstn k (repeat x n) = repeat x (Nat.min k n).
Proof.
  revert n. induction k as [|k IH]; intros [|n]; cbn; try reflexivity.
  now rewrite IH.
Qed.

(** C10.  A qualifying site that occurs [n] times in the head list occurs
    [n] times among the qualifying sites: the loop keeps every occurrence.
    The output holds the entries of the first ten of them, so all [n]
    occurrences are emitted when at most ten sites qualify, and a head list
    made of [n] copies of the site yields [min n 10] copies of its entry. *)
Theorem repeated_site_is_emitted_each_time
    (base head : pyval) (bs hs : list assoc) (d : assoc) (n : nat) :
  has_sites base bs -> has_sites head hs ->
  qualifies bs d = true ->
  count_occ assoc_eq_dec hs d = n ->
  find_new_uninstrumented base head = Ok (map entry_of (firstn 10 (qualifying bs hs)))
  /\ count_occ assoc_eq_dec (qualifying bs hs) d = n
  /\ ((List.length (qualifying bs hs) <= 10)%nat ->
      find_new_uninstrumented base head = Ok (map entry_of (qualifying bs hs)))
  /\ (hs = repeat d n ->
      find_new_uninstrumented base head = Ok (repeat (entry_of d) (Nat.min n 10))).
Proof.
  intros Hb Hh Hq Hn.
  pose proof (find_new_reading base head bs hs Hb Hh) as Hrun.
  unfold selected in Hrun.
  split; [exact Hrun |]. split; [| split].
  - unfold qualifying. now rewrite count_occ_filter_true.
  - intros Hlen. rewrite Hrun. now rewrite firstn_all2.
  - intros ->. rewrite Hrun. unfold qualifying.
    rewrite filter_repeat_true by exact Hq.
    rewrite firstn_repeat, map_repeat. now rewrite Nat.min_comm.
Qed.

(** C10 at a head list that holds the same new site three times. *)
Lemma repeated_site_is_emitted_each_time_witness :
  let d := site "new.py" 10 "client.create" "openai" false in
  has_sites (with_sites []) [] /\ has_sites (with_sites (repeat d 3)) (repeat d 3)
  /\ qualifies [] d = true
  /\ count_occ assoc_eq_dec (repeat d 3) d = 3%nat
  /\ find_new_uninstrumented (with_sites []) (with_sites (repeat d 3))
     = Ok (repeat (entry_of d) 3).
Proof.
  cbv zeta. split; [reflexivity | split; [reflexivity | split; [reflexivity |]]].
  split; [vm_compute; reflexivity |].
  set (d := site "new.py" 10 "client.create" "openai" false).
  refine (proj2 (proj2 (proj2
    (repeated_site_is_emitted_each_time
       (with_sites []) (with_sites (repeat d 3)) [] (repeat d 3) d 3%nat
       _ _ _ _))) eq_refl); reflexivity.
Defined.

End SitesClaims.

(** ** The metric deltas *)

Module DeltaFacts.
Import Py PrScoreDelta Reading.

(** Inversion of a sequence of binds that returned. *)
Ltac bind_inv H :=
  repeat match type of H with
         | bind ?c _ = Ok _ =>
             let E := fresh "E" in
             destruct c eqn:E; cbn [bind] in H; [| discriminate H]
         end.

Lemma get_ok_inv (v : pyval) (k : string) (default r : pyval) :
  get v k default = Ok r -> exists d, v = PDict d /\ r = field k default d.
Proof.
  destruct v; try discriminate. unfold get, field. intros H. eexists. split; [reflexivity |].
  destruct (lookup k d); congruence.
Qed.

Lemma get_dict (d : assoc) (k : string) (default : pyval) :
  get (PDict d) k default = Ok (field k default d).
Proof. unfold get, field. destruct (lookup k d); reflexivity. Qed.

(** What [scan_summary] returns holds the fields the specification names. *)
Lemma scan_summary_field (doc summary : pyval) (name : string) (v : pyval) :
  scan_summary doc = Ok summary -> get summary name (PInt 0) = Ok v ->
  v = summary_field name doc.
Proof.
  unfold scan_summary. intros H Hget.
  destruct (get doc "scan" (PDict [])) as [scan |] eqn:Escan; [| discriminate H].
  cbn [bind] in H.
  apply get_ok_inv in Escan. destruct Escan as [d [-> ->]].
  apply get_ok_inv in H. destruct H as [sc [Hsc ->]].
  apply get_ok_inv in Hget. destruct Hget as [sm [Hsm ->]].
  unfold summary_field, sub_lookup, field in *.
  destruct (lookup "scan" d) as [scan |].
  - subst scan. destruct (lookup "summary" sc) as [m |].
    + subst m. reflexivity.
    + injection Hsm as <-. reflexivity.
  - injection Hsc as <-. cbn in Hsm. injection Hsm as <-. reflexivity.
Qed.

Lemma score_section_field (doc section : pyval) (name : string) (default v : pyval) :
  get doc "score" (PDict []) = Ok section -> get section name default = Ok v ->
  v = score_field name default doc.
Proof.
  intros H Hget.
  apply get_ok_inv in H. destruct H as [d [-> ->]].
  apply get_ok_inv in Hget. destruct Hget as [sc [Hsc ->]].
  unfold score_field, sub_lookup, field in *.
  destruct (lookup "score" d) as [section |].
  - subst section. reflexivity.
  - injection Hsc as <-. reflexivity.
Qed.

(** The arithmetic of a returned delta record, read off the record. *)
Lemma compute_delta_arithmetic (base head : pyval) (d : DeltaRecord) :
  compute_delta base head = Ok d ->
  sub (m_head (sites_total d)) (m_base (sites_total d)) = Ok (m_delta (sites_total d))
  /\ sub (m_head (instrumented d)) (m_base (instrumented d)) = Ok (m_delta (instrumented d))
  /\ sub (m_head (uninstrumented d)) (m_base (uninstrumented d))
     = Ok (m_delta (uninstrumented d))
  /\ (raw <- sub (m_head (score d)) (m_base (score d)) ;; round1 raw)
     = Ok (m_delta (score d))
  /\ coverage (m_base (instrumented d)) (m_base (sites_total d))
     = Ok (p_base (coverage_pct d))
  /\ coverage (m_head (instrumented d)) (m_head (sites_total d))
     = Ok (p_head (coverage_pct d)).
Proof.
  unfold compute_delta. intros H. bind_inv H. injection H as <-.
  cbn [sites_total instrumented uninstrumented score grade coverage_pct
       m_base m_head m_delta p_base p_head].
  repeat split; try assumption.
  match goal with
  | E : sub ?a ?b = Ok _ |- bind (sub ?a ?b) _ = _ => rewrite E; cbn [bind]; assumption
  end.
Qed.

(** The base and head values of a returned record are the resolved fields. *)
Lemma compute_delta_resolution (base head : pyval) (d : DeltaRecord) :
  compute_delta base head = Ok d ->
  m_base (sites_total d) = summary_field "sites_total" base
  /\ m_head (sites_total d) = summary_field "sites_total" head
  /\ m_base (instrumented d) = summary_field "instrumented" base
  /\ m_head (instrumented d) = summary_field "instrumented" head
  /\ m_base (uninstrumented d) = summary_field "uninstrumented" base
  /\ m_head (uninstrumented d) = summary_field "uninstrumented" head
  /\ m_base (score d) = score_field "score" (PInt 0) base
  /\ m_head (score d) = score_field "score" (PInt 0) head
  /\ p_base (grade d) = score_field "grade" (PStr "?") base
  /\ p_head (grade d) = score_field "grade" (PStr "?") head.
Proof.
  unfold compute_delta. intros H. bind_inv H. injection H as <-.
  cbn [sites_total instrumented uninstrumented score grade coverage_pct
       m_base m_head m_delta p_base p_head].
  repeat split;
    first [ eapply scan_summary_field; eassumption
          | eapply score_section_field; eassumption ].
Qed.

(** *** No exception on plain numbers *)

Lemma threshold_pos : 0 < overflow_threshold.
Proof. vm_compute. reflexivity. Qed.

Lemma plain_to_float (v : pyval) :
  plain_number v = true -> exists n f, as_num v = Some n /\ to_float n = Ok f.
Proof.
  destruct v as [ | b | z | f | | | ]; try discriminate; intros H.
  - exists (NInt (if b then 1 else 0)), (float_of_Z (if b then 1 else 0)).
    split; [reflexivity |]. destruct b; vm_compute; reflexivity.
  - exists (NInt z), (float_of_Z z). split; [reflexivity |].
    cbn [plain_number] in H. cbn [to_float]. unfold int_to_float. now rewrite H.
  - exists (NFloat f), f. split; reflexivity.
Qed.

Lemma plain_int (v : pyval) (z : Z) :
  plain_number v = true -> as_num v = Some (NInt z) -> Z.abs z < overflow_threshold.
Proof.
  destruct v as [ | b | x | f | | | ]; try discriminate; cbn; intros H E;
    injection E as <-.
  - pose proof threshold_pos. destruct b; cbn; lia.
  - now apply Z.ltb_lt.
Qed.

(** A difference of plain numbers is an int or a float. *)
Lemma sub_plain (a b : pyval) :
  plain_number a = true -> plain_number b = true ->
  exists r, sub a b = Ok r /\ is_ok (round1 r) = true.
Proof.
  intros Ha Hb.
  destruct (plain_to_float a Ha) as [na [fa [Ea Fa]]].
  destruct (plain_to_float b Hb) as [nb [fb [Eb Fb]]].
  unfold sub, arith. rewrite Ea, Eb.
  destruct na, nb; cbn [num_sub]; try rewrite Fa; try rewrite Fb; cbn [bind];
    eexists; split; reflexivity.
Qed.

Lemma gt_zero_not_zero (n : num) :
  num_cmp n (NInt 0) = Some Gt -> num_is_zero n = false.
Proof.
  destruct n as [z | f]; cbn.
  - intros H. injection H as H. apply Z.compare_gt_iff in H. apply Z.eqb_neq. lia.
  - destruct f; cbn; try reflexivity. discriminate.
Qed.

Lemma coverage_plain (instr sites : pyval) :
  plain_number instr = true -> plain_number sites = true ->
  exists r, coverage instr sites = Ok r.
Proof.
  intros Hi Hs.
  destruct (plain_to_float instr Hi) as [ni [fi [Ei Fi]]].
  destruct (plain_to_float sites Hs) as [ns [fs [Es Fs]]].
  unfold coverage, gt_int. rewrite Es. cbn [bind].
  destruct (num_cmp ns (NInt 0)) as [[ | | ] |] eqn:C; try (eexists; reflexivity).
  pose proof (gt_zero_not_zero ns C) as Hz.
  unfold truediv, arith. rewrite Ei, Es.
  assert (exists q, num_truediv ni ns = Ok (PFloat q)) as [q Hq].
  { destruct ni as [x | x], ns as [y | y]; cbn [num_truediv];
      try (rewrite Fi, Fs; cbn [bind]; rewrite Hz; eexists; reflexivity).
    cbn in Hz. apply Z.eqb_neq in Hz.
    pose proof (plain_int instr x Hi Ei) as Hx. pose proof threshold_pos as Hpos.
    unfold int_truediv. apply Z.eqb_neq in Hz. rewrite Hz.
    apply Z.eqb_neq in Hz.
    assert ((overflow_threshold * Z.abs y <=? Z.abs x) = false) as ->
      by (apply Z.leb_gt; nia).
    destruct x; cbn [bind]; eexists; reflexivity. }
  rewrite Hq. cbn [bind]. eexists. vm_compute. reflexivity.
Qed.

Lemma scan_summary_total (doc : pyval) :
  well_shaped doc = true ->
  exists sm, scan_summary doc = Ok (PDict sm)
             /\ forall name, field name (PInt 0) sm = summary_field name doc.
Proof.
  destruct doc as [ | | | | | | d]; try discriminate.
  unfold well_shaped. intros H.
  repeat (apply andb_true_iff in H; destruct H as [H ?]).
  unfold scan_summary, summary_field, get, sub_lookup, field in *.
  destruct (lookup "scan" d) as [[ | | | | | | sc] |]; try discriminate; cbn [bind].
  - cbn [sub_lookup] in *.
    destruct (lookup "summary" sc) as [[ | | | | | | m] |]; try discriminate;
      eexists; split; reflexivity.
  - cbn. eexists. split; reflexivity.
Qed.

Lemma score_section_total (doc : pyval) :
  well_shaped doc = true ->
  exists sc, get doc "score" (PDict []) = Ok (PDict sc)
             /\ forall name default, field name default sc = score_field name default doc.
Proof.
  destruct doc as [ | | | | | | d]; try discriminate.
  unfold well_shaped. intros H.
  repeat (apply andb_true_iff in H; destruct H as [H ?]).
  unfold score_field, get, sub_lookup, field in *.
  destruct (lookup "score" d) as [[ | | | | | | sc] |]; try discriminate;
    eexists; split; reflexivity.
Qed.

Lemma well_shaped_plain (doc : pyval) :
  well_shaped doc = true ->
  plain_number (summary_field "sites_total" doc) = true
  /\ plain_number (summary_field "instrumented" doc) = true
  /\ plain_number (summary_field "uninstrumented" doc) = true
  /\ plain_number (score_field "score" (PInt 0) doc) = true.
Proof.
  destruct doc as [ | | | | | | d]; try discriminate.
  unfold well_shaped. intros H.
  repeat (apply andb_true_iff in H; destruct H as [H ?]). tauto.
Qed.

(** On dictionary-shaped documents [compute_delta] returns, whichever
    fields are missing. *)
Lemma compute_delta_total (base head : pyval) :
  well_shaped base = true -> well_shaped head = true ->
  exists d, compute_delta base head = Ok d.
Proof.
  intros Wb Wh.
  destruct (scan_summary_total base Wb) as [smb [Hsb Fb]].
  destruct (scan_summary_total head Wh) as [smh [Hsh Fh]].
  destruct (score_section_total base Wb) as [scb [Hcb Gb]].
  destruct (score_section_total head Wh) as [sch [Hch Gh]].
  destruct (well_shaped_plain base Wb) as [Pb1 [Pb2 [Pb3 Pb4]]].
  destruct (well_shaped_plain head Wh) as [Ph1 [Ph2 [Ph3 Ph4]]].
  unfold compute_delta. rewrite Hsb, Hsh. cbn [bind]. rewrite Hcb, Hch. cbn [bind].
  rewrite !get_dict. cbn [bind]. rewrite !Fb, !Fh, !Gb, !Gh.
  destruct (sub_plain _ _ Ph1 Pb1) as [d1 [-> _]].
  destruct (sub_plain _ _ Ph2 Pb2) as [d2 [-> _]].
  destruct (sub_plain _ _ Ph3 Pb3) as [d3 [-> _]].
  destruct (sub_plain _ _ Ph4 Pb4) as [d4 [-> R4]]. cbn [bind].
  destruct (round1 d4) as [r4 |]; [| discriminate R4]. cbn [bind].
  destruct (coverage_plain _ _ Pb2 Pb1) as [c1 ->].
  destruct (coverage_plain _ _ Ph2 Ph1) as [c2 ->]. cbn [bind].
  eexists. reflexivity.
Qed.

End DeltaFacts.

(** ** Properties of [compute_delta] *)

Module DeltaClaims.
Import Py PrScoreDelta Reading Samples SitesFacts DeltaFacts.

(** C2.  On dictionary-shaped documents, whichever optional fields are
    missing, [compute_delta] returns; each count of the record is the field
    of [scan.summary] when the summary key is present and of [scan]
    otherwise, separately for base and head; the score defaults to 0 and the
    grade to ["?"]; and a document with neither [scan.sites] nor [sites] has
    an empty site list: [find_new_uninstrumented] treats it, as base or as
    head and against any other document, like a document that lists no
    site.  So an absent base makes every uninstrumented site of the head
    new (the first ten are returned), an absent head gives an empty list,
    and so do two absent documents. *)
Theorem missing_fields_never_raise (base head : pyval) :
  well_shaped base = true -> well_shaped head = true ->
  (exists d,
      compute_delta base head = Ok d
      /\ m_base (sites_total d) = summary_field "sites_total" base
      /\ m_head (sites_total d) = summary_field "sites_total" head
      /\ m_base (instrumented d) = summary_field "instrumented" base
      /\ m_head (instrumented d) = summary_field "instrumented" head
      /\ m_base (uninstrumented d) = summary_field "uninstrumented" base
      /\ m_head (uninstrumented d) = summary_field "uninstrumented" head
      /\ m_base (score d) = score_field "score" (PInt 0) base
      /\ m_head (score d) = score_field "score" (PInt 0) head
      /\ p_base (grade d) = score_field "grade" (PStr "?") base
      /\ p_head (grade d) = score_field "grade" (PStr "?") head)
  /\ (sites_absent base = true -> site_list base = Ok (PList []))
  /\ (sites_absent head = true -> site_list head = Ok (PList []))
  /\ (sites_absent base = true -> sites_absent head = true ->
      find_new_uninstrumented base head = Ok [])
  /\ (sites_absent base = true ->
      forall other,
        find_new_uninstrumented base other
        = find_new_uninstrumented (PDict [("sites", PList [])]) other)
  /\ (sites_absent head = true ->
      forall other,
        find_new_uninstrumented other head
        = find_new_uninstrumented other (PDict [("sites", PList [])]))
  /\ (sites_absent base = true ->
      forall hs,
        has_sites head hs ->
        find_new_uninstrumented base head
        = Ok (map entry_of (firstn 10 (filter uninstrumented_site hs))))
  /\ (sites_absent head = true ->
      forall bs,
        has_sites base bs -> find_new_uninstrumented base head = Ok []).
Proof.
  intros Wb Wh.
  assert (forall doc, sites_absent doc = true -> site_list doc = Ok (PList [])) as Habs.
  { intros doc. destruct doc as [ | | | | | | d]; try discriminate.
    unfold sites_absent, site_list, get.
    destruct (lookup "sites" d); [discriminate |].
    destruct (lookup "scan" d) as [[ | | | | | | sc] |]; try discriminate; cbn [bind].
    - destruct (lookup "sites" sc); [discriminate | reflexivity].
    - reflexivity. }
  split; [| split; [apply Habs | split; [apply Habs | split; [| split; [| split; [| split]]]]]].
  - destruct (compute_delta_total base head Wb Wh) as [d Hd].
    exists d. split; [exact Hd |]. now apply compute_delta_resolution.
  - intros Ab Ah.
    apply (find_new_reading base head [] []); unfold has_sites; now apply Habs.
  - intros Ab other. unfold find_new_uninstrumented. now rewrite (Habs base Ab).
  - intros Ah other. unfold find_new_uninstrumented. now rewrite (Habs head Ah).
  - intros Ab hs Hh.
    rewrite (find_new_reading base head [] hs (Habs base Ab) Hh).
    unfold selected, qualifying. do 3 f_equal.
    apply filter_ext. intros d. unfold qualifies. cbn [map existsb negb].
    apply andb_true_r.
  - intros Ah bs Hb.
    now rewrite (find_new_reading base head bs [] Hb (Habs head Ah)).
Qed.

(** C2 at a base that is an empty dict and a head that nests its counts
    under [scan.summary] and has no score section; and at the same base
    against a head that lists a new site and an instrumented one. *)
Lemma missing_fields_never_raise_witness :
  let base := PDict [] in
  let head := PDict [("scan", PDict [("summary", PDict [("sites_total", PInt 4)]);
                                     ("instrumented", PInt 9)])] in
  let new := site "new.py" 10 "client.create" "openai" false in
  let old := site "app.py" 42 "client.create" "openai" true in
  well_shaped base = true /\ well_shaped head = true
  /\ (exists d,
        compute_delta base head = Ok d
        /\ m_head (sites_total d) = PInt 4
        /\ m_head (instrumented d) = PInt 0
        /\ m_base (score d) = PInt 0
        /\ p_head (grade d) = PStr "?"
        /\ find_new_uninstrumented base head = Ok [])
  /\ find_new_uninstrumented base (with_sites [new; old]) = Ok [entry_of new]
  /\ find_new_uninstrumented (with_sites [new; old]) base = Ok [].
Proof.
  cbv zeta. split; [reflexivity | split; [reflexivity |]].
  split; [| split].
  - destruct (missing_fields_never_raise
                (PDict [])
                (PDict [("scan", PDict [("summary", PDict [("sites_total", PInt 4)]);
                                        ("instrumented", PInt 9)])])
                eq_refl eq_refl)
      as [[d [Hd [_ [H1 [_ [H2 [_ [_ [H3 [_ [_ H4]]]]]]]]]]] [_ [_ [Hnew _]]]].
    exists d. split; [exact Hd |].
    split; [exact H1 |]. split; [exact H2 |]. split; [exact H3 |].
    split; [exact H4 |]. apply Hnew; reflexivity.
  - destruct (missing_fields_never_raise
                (PDict [])
                (with_sites [site "new.py" 10 "client.create" "openai" false;
                             site "app.py" 42 "client.create" "openai" true])
                eq_refl eq_refl)
      as [_ [_ [_ [_ [_ [_ [Hbase _]]]]]]].
    now rewrite (Hbase eq_refl _ eq_refl).
  - destruct (missing_fields_never_raise
                (with_sites [site "new.py" 10 "client.create" "openai" false;
                             site "app.py" 42 "client.create" "openai" true])
                (PDict [])
                eq_refl eq_refl)
      as [_ [_ [_ [_ [_ [_ [_ Hhead]]]]]]].
    now rewrite (Hhead eq_refl _ eq_refl).
Defined.

(** C5, as stated, fails below zero: with [sites_total = -4] and
    [instrumented = 2] the stated coverage is [-50.0] while the code gives 0. *)
Lemma negative_total_has_zero_coverage :
  let base := flat (-4) 2 0 (PInt 0) "F" in
  exists d,
    compute_delta base (PDict []) = Ok d
    /\ coverage_as_stated (m_base (instrumented d)) (m_base (sites_total d))
       = Ok (dec (-500) (-1))
    /\ p_base (coverage_pct d) = PInt 0
    /\ PInt 0 <> dec (-500) (-1).
Proof.
  cbv zeta. eexists. split; [vm_compute; reflexivity |].
  split; [vm_compute; reflexivity |]. split; [reflexivity |].
  vm_compute. discriminate.
Qed.

(** C5 (amended).  On dictionary-shaped documents [compute_delta] returns a
    record in which, for base and head separately, the coverage is
    [round(instrumented / sites_total * 100, 1)] when [sites_total > 0] and
    is exactly 0 otherwise, whatever [instrumented] is.  For a count, that is
    a [sites_total] that is an int and not negative, this is the coverage as
    first stated. *)
Theorem coverage_by_side (base head : pyval) :
  well_shaped base = true -> well_shaped head = true ->
  exists d,
    compute_delta base head = Ok d
    /\ (gt_int (m_base (sites_total d)) 0 = Ok true ->
        coverage_formula (m_base (instrumented d)) (m_base (sites_total d))
        = Ok (p_base (coverage_pct d)))
    /\ (gt_int (m_base (sites_total d)) 0 = Ok false ->
        p_base (coverage_pct d) = PInt 0)
    /\ (gt_int (m_head (sites_total d)) 0 = Ok true ->
        coverage_formula (m_head (instrumented d)) (m_head (sites_total d))
        = Ok (p_head (coverage_pct d)))
    /\ (gt_int (m_head (sites_total d)) 0 = Ok false ->
        p_head (coverage_pct d) = PInt 0)
    /\ is_ok (gt_int (m_base (sites_total d)) 0) = true
    /\ is_ok (gt_int (m_head (sites_total d)) 0) = true
    /\ (forall n, m_base (sites_total d) = PInt n -> 0 <= n ->
        coverage_as_stated (m_base (instrumented d)) (m_base (sites_total d))
        = Ok (p_base (coverage_pct d)))
    /\ (forall n, m_head (sites_total d) = PInt n -> 0 <= n ->
        coverage_as_stated (m_head (instrumented d)) (m_head (sites_total d))
        = Ok (p_head (coverage_pct d))).
Proof.
  intros Wb Wh. destruct (compute_delta_total base head Wb Wh) as [d Hd].
  exists d. split; [exact Hd |].
  destruct (compute_delta_arithmetic base head d Hd) as [_ [_ [_ [_ [Cb Ch]]]]].
  assert (forall instr sites cov n,
             coverage instr sites = Ok cov -> sites = PInt n -> 0 <= n ->
             coverage_as_stated instr sites = Ok cov) as Hcount.
  { intros instr sites cov n Hcov Hsites Hn. subst sites.
    unfold coverage, gt_int in Hcov. unfold coverage_as_stated, coverage_formula.
    cbn [as_num num_cmp eq bind] in Hcov |- *.
    destruct (n ?= 0) eqn:C.
    - exact Hcov.
    - pose proof (proj1 (Z.compare_lt_iff n 0) C). lia.
    - exact Hcov. }
  unfold coverage, coverage_formula in Cb, Ch |- *.
  destruct (gt_int (m_base (sites_total d)) 0) as [[ | ] |] eqn:Gb;
    destruct (gt_int (m_head (sites_total d)) 0) as [[ | ] |] eqn:Gh;
    cbn [bind] in Cb, Ch; try discriminate;
    (split; [intros; try discriminate; try congruence |]);
    (split; [intros; try discriminate; try congruence |]);
    (split; [intros; try discriminate; try congruence |]);
    (split; [intros; try discriminate; try congruence |]);
    (split; [reflexivity |]); (split; [reflexivity |]);
    (split; intros n Hn Hpos;
     [ apply (Hcount _ _ _ n); [unfold coverage; rewrite Gb; exact Cb | exact Hn | exact Hpos]
     | apply (Hcount _ _ _ n); [unfold coverage; rewrite Gh; exact Ch | exact Hn | exact Hpos] ]).
Qed.

(** The amended C5 at the scenario of the specification: 5 of 10 sites
    instrumented in base, 10 of 15 in head. *)
Lemma coverage_by_side_witness :
  let base := flat 10 5 5 (dec 100 (-1)) "F" in
  let head := flat 15 10 5 (dec 250 (-1)) "F" in
  well_shaped base = true /\ well_shaped head = true
  /\ exists d,
       compute_delta base head = Ok d
       /\ p_base (coverage_pct d) = dec 500 (-1)
       /\ p_head (coverage_pct d) = dec 667 (-1).
Proof.
  cbv zeta. split; [reflexivity | split; [reflexivity |]].
  destruct (coverage_by_side (flat 10 5 5 (dec 100 (-1)) "F")
                             (flat 15 10 5 (dec 250 (-1)) "F") eq_refl eq_refl)
    as [d [Hd _]].
  exists d. split; [exact Hd |].
  vm_compute in Hd. injection Hd as <-. split; reflexivity.
Defined.

(** C6.  On dictionary-shaped documents [compute_delta] returns a record
    whose score delta is [round(head.score - base.score, 1)], the scores
    being those of the documents, and whose three count deltas are the
    plain differences head minus base. *)
Theorem score_delta_is_rounded (base head : pyval) :
  well_shaped base = true -> well_shaped head = true ->
  exists d,
    compute_delta base head = Ok d
    /\ (raw <- sub (score_field "score" (PInt 0) head)
                   (score_field "score" (PInt 0) base) ;;
        round1 raw) = Ok (m_delta (score d))
    /\ sub (summary_field "sites_total" head) (summary_field "sites_total" base)
       = Ok (m_delta (sites_total d))
    /\ sub (summary_field "instrumented" head) (summary_field "instrumented" base)
       = Ok (m_delta (instrumented d))
    /\ sub (summary_field "uninstrumented" head) (summary_field "uninstrumented" base)
       = Ok (m_delta (uninstrumented d)).
Proof.
  intros Wb Wh. destruct (compute_delta_total base head Wb Wh) as [d Hd].
  exists d. split; [exact Hd |].
  destruct (compute_delta_arithmetic base head d Hd) as [A1 [A2 [A3 [A4 _]]]].
  destruct (compute_delta_resolution base head d Hd)
    as [R1 [R2 [R3 [R4 [R5 [R6 [R7 [R8 _]]]]]]]].
  rewrite <- R1, <- R2, <- R3, <- R4, <- R5, <- R6, <- R7, <- R8.
  repeat split; assumption.
Qed.

(** C6 at a regression from 25.0 to 9.96: the delta is -15.0, the rounding
    of -15.04. *)
Lemma score_delta_is_rounded_witness :
  let base := flat 10 5 5 (dec 250 (-1)) "F" in
  let head := flat 12 5 7 (dec 996 (-2)) "F" in
  well_shaped base = true /\ well_shaped head = true
  /\ exists d,
       compute_delta base head = Ok d
       /\ sub (dec 996 (-2)) (dec 250 (-1)) = Ok (dec (-1504) (-2))
       /\ m_delta (score d) = dec (-150) (-1)
       /\ m_delta (sites_total d) = PInt 2.
Proof.
  cbv zeta. split; [reflexivity | split; [reflexivity |]].
  destruct (score_delta_is_rounded (flat 10 5 5 (dec 250 (-1)) "F")
                                   (flat 12 5 7 (dec 996 (-2)) "F") eq_refl eq_refl)
    as [d [Hd _]].
  exists d. split; [exact Hd |]. split; [vm_compute; reflexivity |].
  vm_compute in Hd. injection Hd as <-. split; reflexivity.
Defined.

End DeltaClaims.

(** ** The command line *)

Module MainFacts.
Import Py PrScoreDelta Reading DeltaFacts.

(** Once both inputs are loaded, [main] is its computation phase. *)
Lemma main_loaded (args : Args) (fs : filesystem) (base head : pyval) :
  fs (base_json args) = Some (Json base) ->
  fs (head_json args) = Some (Json head) ->
  main args fs =
  match build_result args base head with
  | Raise e => {| effects := []; final := Uncaught e |}
  | Ok (delta, r) =>
      match (if fail_on_regression args
             then lt_int (m_delta (score delta)) 0
             else Ok false) with
      | Ok true => {| effects := [emit args r]; final := Exit 1 |}
      | Ok false => {| effects := [emit args r]; final := Returned |}
      | Raise e => {| effects := [emit args r]; final := Uncaught e |}
      end
  end.
Proof.
  intros Hb Hh. unfold main, exists_, load_scan_score. rewrite Hb, Hh. reflexivity.
Qed.




Lemma round1_is_number (v r : pyval) :
  round1 v = Ok r -> exists neg, lt_int r 0 = Ok neg.
Proof.
  destruct v; try discriminate; cbn; intros H; injection H as <-;
    unfold lt_int; cbn [as_num]; eexists; reflexivity.
Qed.

Lemma build_result_delta (args : Args) (base head : pyval) (d : DeltaRecord)
    (r : rendered) :
  build_result args base head = Ok (d, r) -> compute_delta base head = Ok d.
Proof.
  unfold build_result. intros H.
  destruct (compute_delta base head) as [d' |]; [| discriminate H]. cbn [bind] in H.
  destruct (find_new_uninstrumented base head) as [ns |]; [| discriminate H].
  cbn [bind] in H.
  destruct (json_output args).
  - destruct (lt_int (m_delta (score d')) 0); [| discriminate H].
    cbn [bind] in H. destruct (json_dumps _); [| discriminate H].
    cbn [bind] in H. congruence.
  - destruct (render_markdown d' ns); [| discriminate H].
    cbn [bind] in H. congruence.
Qed.

(** What [json.dumps] returns is the text of its argument. *)
Lemma json_dumps_ok (r : Report) (t : rendered) :
  json_dumps r = Ok t -> t = JsonText r /\ forallb dumpable (report_values r) = true.
Proof.
  unfold json_dumps. destruct (forallb dumpable (report_values r)); [| discriminate].
  intros H. injection H as <-. now split.
Qed.

End MainFacts.

(** ** Properties of the command line *)

Module MainClaims.
Import Py PrScoreDelta Reading Samples DeltaFacts MainFacts.




(** C9.  When both inputs load and the computation phase returns, the
    [regressed] flag of the JSON report and the exit decision are both the
    test [round(head.score - base.score, 1) < 0] on the rounded delta: the
    run ends with status 1 when the fail-on-regression flag is set and the
    rounded delta is negative, and with status 0 otherwise. *)
Theorem regression_is_decided_on_rounded_delta
    (args : Args) (fs : filesystem) (base head : pyval)
    (d : DeltaRecord) (r : rendered) :
  fs (base_json args) = Some (Json base) ->
  fs (head_json args) = Some (Json head) ->
  build_result args base head = Ok (d, r) ->
  exists raw rounded neg,
    sub (score_field "score" (PInt 0) head) (score_field "score" (PInt 0) base) = Ok raw
    /\ round1 raw = Ok rounded
    /\ m_delta (score d) = rounded
    /\ lt_int rounded 0 = Ok neg
    /\ (json_output args = true ->
        exists ns, r = JsonText {| r_delta := d; new_uninstrumented_sites := ns;
                                   regressed := neg |})
    /\ main args fs = {| effects := [emit args r];
                         final := if fail_on_regression args && neg
                                  then Exit 1 else Returned |}
    /\ exit_status (main args fs) = (if fail_on_regression args && neg then 1 else 0).
Proof.
  intros Hb Hh Hbuild.
  pose proof (build_result_delta _ _ _ _ _ Hbuild) as Hd.
  destruct (compute_delta_arithmetic base head d Hd) as [_ [_ [_ [A _]]]].
  destruct (compute_delta_resolution base head d Hd)
    as [_ [_ [_ [_ [_ [_ [R7 [R8 _]]]]]]]].
  rewrite R7, R8 in A.
  destruct (sub (score_field "score" (PInt 0) head)
                (score_field "score" (PInt 0) base)) as [raw |] eqn:Eraw;
    [| discriminate A].
  cbn [bind] in A.
  destruct (round1_is_number raw _ A) as [neg Hneg].
  exists raw, (m_delta (score d)), neg.
  split; [reflexivity |]. split; [exact A |]. split; [reflexivity |].
  split; [exact Hneg |]. split.
  - intros Hjson. unfold build_result in Hbuild. rewrite Hd in Hbuild.
    cbn [bind] in Hbuild.
    destruct (find_new_uninstrumented base head) as [ns |]; [| discriminate Hbuild].
    cbn [bind] in Hbuild. rewrite Hjson, Hneg in Hbuild. cbn [bind] in Hbuild.
    exists ns.
    destruct (json_dumps _) as [t |] eqn:Hdump; [| discriminate Hbuild].
    cbn [bind] in Hbuild. apply json_dumps_ok in Hdump as [-> _]. congruence.
  - assert (main args fs = {| effects := [emit args r];
                              final := if fail_on_regression args && neg
                                       then Exit 1 else Returned |}) as Hmain.
    { rewrite (main_loaded args fs base head Hb Hh), Hbuild.
      destruct (fail_on_regression args); cbn [andb].
      - rewrite Hneg. destruct neg; reflexivity.
      - reflexivity. }
    split; [exact Hmain |]. rewrite Hmain. unfold exit_status. cbn [final].
    destruct (fail_on_regression args && neg); reflexivity.
Qed.

(** C9 at a base score of 10.04 and a head score of 10.0 with both flags
    set: the raw difference is negative, its rounding is [-0.0], the report
    says [regressed = false] and the status is 0. *)
Lemma regression_is_decided_on_rounded_delta_witness :
  let base := flat 1 1 0 (dec 1004 (-2)) "F" in
  let head := flat 1 1 0 (dec 100 (-1)) "F" in
  let args := cli true true in
  let fs := world (Some (Json base)) (Some (Json head)) in
  fs (base_json args) = Some (Json base)
  /\ fs (head_json args) = Some (Json head)
  /\ is_ok (build_result args base head) = true
  /\ exists raw,
       sub (dec 100 (-1)) (dec 1004 (-2)) = Ok raw
       /\ lt_int raw 0 = Ok true
       /\ round1 raw = Ok (PFloat (S754_zero true))
       /\ exit_status (main args fs) = 0
       /\ exists d,
            effects (main args fs)
            = [Print (JsonText {| r_delta := d; new_uninstrumented_sites := [];
                                  regressed := false |})].
Proof.
  cbv zeta.
  split; [reflexivity | split; [reflexivity | split; [vm_compute; reflexivity |]]].
  set (base := flat 1 1 0 (dec 1004 (-2)) "F").
  set (head := flat 1 1 0 (dec 100 (-1)) "F").
  set (fs := world (Some (Json base)) (Some (Json head))).
  destruct (build_result (cli true true) base head) as [[d r] |] eqn:Hbuild;
    [| vm_compute in Hbuild; discriminate Hbuild].
  destruct (regression_is_decided_on_rounded_delta
              (cli true true) fs base head d r eq_refl eq_refl Hbuild)
    as [raw [rounded [neg [Hraw [Hround [_ [Hneg [Hjson [Hmain Hexit]]]]]]]]].
  vm_compute in Hraw. injection Hraw as <-.
  vm_compute in Hround. injection Hround as <-.
  vm_compute in Hneg. injection Hneg as <-.
  eexists. split; [vm_compute; reflexivity |].
  split; [vm_compute; reflexivity |]. split; [vm_compute; reflexivity |].
  split; [exact Hexit |].
  destruct (Hjson eq_refl) as [ns Hr]. rewrite Hmain, Hr. cbn [effects emit cli output].
  exists d. do 3 f_equal.
  vm_compute in Hbuild. congruence.
Defined.

End MainClaims.

(** ** Occurrences of a word in the report *)

Module TextFacts.
Import Py PrScoreDelta Reading DeltaFacts.

Lemma append_nil_r (s : string) : s ++ "" = s.
Proof. induction s as [|c s IH]; [reflexivity | cbn; now rewrite IH]. Qed.

Lemma append_assoc (a b c : string) : (a ++ b) ++ c = a ++ (b ++ c).
Proof. induction a as [|x a IH]; [reflexivity | cbn; now rewrite IH]. Qed.

Lemma has_char_head (c x : ascii) (w : string) :
  has_char c (String x w) = false -> x <> c /\ has_char c w = false.
Proof.
  cbn. intros H. apply orb_false_iff in H. destruct H as [H1 H2].
  split; [| exact H2]. intros ->. now rewrite Ascii.eqb_refl in H1.
Qed.

(** A word cannot reach across a character it does not have. *)
Lemma prefix_sep (w : string) (c : ascii) :
  has_char c w = false ->
  forall a b, prefix w (a ++ String c b) = prefix w a.
Proof.
  induction w as [|x w IH]; intros Hc a b.
  - destruct a; reflexivity.
  - apply has_char_head in Hc. destruct Hc as [Hx Hw].
    destruct a as [|y a]; cbn.
    + destruct (ascii_dec x c); [contradiction | reflexivity].
    + destruct (ascii_dec x y); [now apply IH | reflexivity].
Qed.

Lemma contains_nil (w : string) : contains w "" = prefix w "".
Proof. cbn. apply orb_false_r. Qed.

Lemma contains_sep (w : string) (c : ascii) (a b : string) :
  has_char c w = false ->
  contains w (a ++ String c b) = contains w a || contains w b.
Proof.
  intros Hc. induction a as [|y a IH].
  - cbn [append]. rewrite contains_nil.
    change (contains w (String c b)) with (prefix w (String c b) || contains w b).
    now rewrite <- (prefix_sep w c Hc "" b).
  - change (contains w (String y a ++ String c b))
      with (prefix w (String y a ++ String c b) || contains w (a ++ String c b)).
    change (contains w (String y a)) with (prefix w (String y a) || contains w a).
    rewrite prefix_sep by exact Hc. rewrite IH. now rewrite orb_assoc.
Qed.

Lemma ends_with_sep_split (w s : string) :
  ends_with_sep w s = true ->
  exists s' c, s = s' ++ String c "" /\ has_char c w = false.
Proof.
  induction s as [|x s IH]; [discriminate |].
  destruct s as [|y s].
  - cbn. intros H. exists "", x. split; [reflexivity | now apply negb_true_iff].
  - intros H. change (ends_with_sep w (String y s) = true) in H.
    destruct (IH H) as [s' [c [E Hc]]]. exists (String x s'), c.
    split; [cbn; now rewrite <- E | exact Hc].
Qed.

Lemma contains_app_ends (w a b : string) :
  prefix w "" = false -> ends_with_sep w a = true ->
  contains w (a ++ b) = contains w a || contains w b.
Proof.
  intros Hw H. destruct (ends_with_sep_split w a H) as [a' [c [-> Hc]]].
  rewrite append_assoc. cbn [append].
  rewrite !contains_sep by exact Hc. rewrite contains_nil, Hw, orb_false_r.
  reflexivity.
Qed.

Lemma contains_app_starts (w a b : string) :
  starts_with_sep w b = true ->
  contains w (a ++ b) = contains w a || contains w b.
Proof.
  destruct b as [|c b]; [discriminate |]. cbn [starts_with_sep]. intros H.
  apply negb_true_iff in H. rewrite contains_sep by exact H.
  change (contains w (String c b)) with (prefix w (String c b) || contains w b).
  change (String c b) with ("" ++ String c b) at 1.
  rewrite (prefix_sep w c H "" b).
  destruct w as [|x w]; [| reflexivity].
  destruct b; cbn; now rewrite !orb_true_r.
Qed.

Lemma fstring_cons (p : frag) (parts : list frag) :
  fstring (p :: parts) = frag_text p ++ fstring parts.
Proof. reflexivity. Qed.

Lemma fstring_starts (w : string) (q : frag) (rest : list frag) :
  starts_with_sep w (frag_text q) = true ->
  starts_with_sep w (fstring (q :: rest)) = true.
Proof.
  rewrite fstring_cons. destruct (frag_text q); [discriminate | trivial].
Qed.

(** In a sealed f-string [w] occurs exactly when it occurs in a part. *)
Lemma contains_fstring (w : string) (parts : list frag) :
  prefix w "" = false -> sealed w parts = true ->
  contains w (fstring parts) = existsb (fun p => contains w (frag_text p)) parts.
Proof.
  intros Hw. induction parts as [|p parts IH]; intros Hs.
  - cbn [fstring existsb]. now rewrite contains_nil.
  - assert (contains w (fstring (p :: parts))
            = contains w (frag_text p) || contains w (fstring parts)) as Hsplit.
    { rewrite fstring_cons. destruct parts as [|q rest].
      - cbn [fstring]. rewrite append_nil_r, contains_nil, Hw. now rewrite orb_false_r.
      - cbn [sealed] in Hs. apply andb_true_iff in Hs. destruct Hs as [Hb _].
        destruct p as [a | a], q as [b | b]; cbn [border frag_text] in *;
          try discriminate.
        + apply orb_true_iff in Hb. destruct Hb as [Hb | Hb].
          * now apply contains_app_ends.
          * apply contains_app_starts. now apply fstring_starts.
        + now apply contains_app_ends.
        + apply contains_app_starts. now apply fstring_starts. }
    rewrite Hsplit.
    assert (sealed w parts = true) as Hs'.
    { destruct parts as [|q rest]; [reflexivity |].
      cbn [sealed] in Hs. apply andb_true_iff in Hs. tauto. }
    now rewrite (IH Hs').
Qed.

(** In lines joined by a character that [w] does not have, [w] occurs
    exactly when it occurs in a line. *)
Lemma contains_concat (w : string) (c : ascii) (lines : list string) :
  prefix w "" = false -> has_char c w = false ->
  contains w (String.concat (String c "") lines) = existsb (contains w) lines.
Proof.
  intros Hw Hc. induction lines as [|x lines IH].
  - cbn [String.concat existsb]. now rewrite contains_nil.
  - destruct lines as [|y lines].
    + cbn [String.concat existsb]. now rewrite orb_false_r.
    + change (String.concat (String c "") (x :: y :: lines))
        with (x ++ String c (String.concat (String c "") (y :: lines))).
      rewrite contains_sep by exact Hc. rewrite IH. reflexivity.
Qed.

(** A word occurs only in texts that have all its characters. *)
Lemma prefix_has_char (w s : string) (x : ascii) :
  prefix w s = true -> has_char x w = true -> has_char x s = true.
Proof.
  revert s. induction w as [|a w IH]; intros s Hp Hx; [discriminate |].
  destruct s as [|b s]; [discriminate |]. cbn in Hp.
  destruct (ascii_dec a b) as [-> |]; [| discriminate].
  cbn in *. apply orb_true_iff in Hx. destruct Hx as [Hx | Hx].
  - now rewrite Hx.
  - rewrite (IH s Hp Hx). apply orb_true_r.
Qed.

Lemma contains_has_char (w s : string) (x : ascii) :
  contains w s = true -> has_char x w = true -> has_char x s = true.
Proof.
  induction s as [|b s IH]; intros Hc Hx.
  - rewrite contains_nil in Hc. now apply (prefix_has_char w "" x).
  - change (contains w (String b s)) with (prefix w (String b s) || contains w s) in Hc.
    apply orb_true_iff in Hc. destruct Hc as [Hc | Hc].
    + now apply (prefix_has_char w).
    + cbn. rewrite (IH Hc Hx). apply orb_true_r.
Qed.

Lemma within_has_char (alphabet s : string) (x : ascii) :
  within alphabet s = true -> has_char x s = true -> has_char x alphabet = true.
Proof.
  induction s as [|b s IH]; [discriminate |]. cbn. intros Hw Hx.
  apply andb_true_iff in Hw. destruct Hw as [Hb Hs].
  apply orb_true_iff in Hx. destruct Hx as [Hx | Hx].
  - apply Ascii.eqb_eq in Hx. now subst.
  - now apply IH.
Qed.

(** A text over an alphabet that lacks a character of [w] is free of [w]. *)
Lemma within_free (alphabet w s : string) (x : ascii) :
  has_char x w = true -> has_char x alphabet = false ->
  within alphabet s = true -> contains w s = false.
Proof.
  intros Hx Ha Hs. destruct (contains w s) eqn:E; [| reflexivity].
  pose proof (contains_has_char w s x E Hx) as H.
  pose proof (within_has_char alphabet s x Hs H). congruence.
Qed.

Lemma within_app (alphabet a b : string) :
  within alphabet (a ++ b) = within alphabet a && within alphabet b.
Proof.
  induction a as [|c a IH]; [reflexivity |]. cbn. now rewrite IH, andb_assoc.
Qed.

Lemma within_uint (u : Decimal.uint) :
  within numeric_alphabet (NilEmpty.string_of_uint u) = true.
Proof. induction u; cbn [NilEmpty.string_of_uint within]; try rewrite IHu; reflexivity. Qed.

Lemma within_digits (z : Z) : within numeric_alphabet (digits z) = true.
Proof.
  unfold digits, NilZero.string_of_uint.
  destruct (N.to_uint (Z.to_N z)); try reflexivity; apply within_uint.
Qed.

Lemma within_sign (plus s : bool) : within numeric_alphabet (sign_str plus s) = true.
Proof. destruct plus, s; reflexivity. Qed.

Lemma within_float_f1 (plus : bool) (f : float) :
  within numeric_alphabet (float_f1 plus f) = true.
Proof.
  destruct f; cbn [float_f1]; rewrite ?within_app, ?within_sign, ?within_digits;
    reflexivity.
Qed.

Lemma within_format_f1 (plus : bool) (v : pyval) (t : string) :
  format_f1 plus v = Ok t -> within numeric_alphabet t = true.
Proof.
  unfold format_f1. destruct v; try discriminate; cbn [as_num];
    (destruct (to_float _); cbn [bind]; [| discriminate]);
    intros H; injection H as <-; apply within_float_f1.
Qed.

Lemma within_format_plus_d (v : pyval) (t : string) :
  format_plus_d v = Ok t -> within numeric_alphabet t = true.
Proof.
  destruct v; try discriminate; cbn [format_plus_d]; intros H.
  - injection H as <-. destruct b; reflexivity.
  - destruct (convertible z); [| discriminate H]. injection H as <-.
    now rewrite within_app, within_sign, within_digits.
Qed.


Lemma Ok_inj {A : Type} (a b : A) : Ok a = Ok b -> a = b.
Proof. congruence. Qed.

Lemma numeric_free (w t : string) :
  word w -> within numeric_alphabet t = true -> contains w t = false.
Proof.
  intros [-> | ->] H.
  - now apply (within_free numeric_alphabet "improved" t "m"%char).
  - now apply (within_free numeric_alphabet "regressed" t "g"%char).
Qed.

(** Evaluate the occurrences of a word in closed texts. *)
Ltac has_var t := match t with context [?v] => is_var v end.

Ltac eval_closed :=
  repeat match goal with
         | |- context [contains ?w ?s] =>
             tryif has_var (contains w s) then fail
             else
               let b := eval vm_compute in (contains w s) in
               change (contains w s) with b
         end.

Lemma site_row_free (w : string) (site : NewSite) :
  word w ->
  contains w (site_row site) = existsb (contains w) (site_texts site).
Proof.
  intros [-> | ->]; unfold site_row; rewrite contains_fstring by reflexivity;
    cbn [existsb frag_text site_texts]; eval_closed; cbn [orb];
    now rewrite !orb_false_r.
Qed.

Lemma site_rows_free (w : string) (new_sites : list NewSite) :
  word w ->
  existsb (contains w) (map site_row new_sites)
  = existsb (contains w) (flat_map site_texts new_sites).
Proof.
  intros Hw. induction new_sites as [|s l IH]; [reflexivity |].
  cbn [map flat_map existsb]. rewrite existsb_app, IH, site_row_free by exact Hw.
  reflexivity.
Qed.

Lemma block_free (w : string) (new_sites : list NewSite) :
  word w ->
  existsb (contains w) (new_sites_block new_sites)
  = existsb (contains w) (flat_map site_texts new_sites).
Proof.
  intros Hw. destruct new_sites as [|s l]; [reflexivity |].
  unfold new_sites_block. rewrite !existsb_app, site_rows_free by exact Hw.
  destruct Hw as [-> | ->]; cbn [existsb]; eval_closed; cbn [orb];
    now rewrite !orb_false_r.
Qed.

Lemma score_row_free (w sb sh sd icon : string) (v : pyval) :
  word w -> score_icon_of v = Ok icon ->
  contains w (fstring [Lit "| **Score** | "; Val sb; Lit " | "; Val sh;
                       Lit " | "; Val sd; Val icon; Lit " |"])
  = contains w sb || contains w sh || contains w sd || contains w icon.
Proof.
  intros Hw Hicon.
  assert (icon = " [improved]" \/ icon = " [regressed]" \/ icon = "") as Hcases.
  { unfold score_icon_of in Hicon.
    destruct (gt_int v 0) as [[ | ] |]; cbn [bind] in Hicon; try discriminate.
    - left. congruence.
    - destruct (lt_int v 0) as [[ | ] |]; cbn [bind] in Hicon; try discriminate;
        right; [left | right]; congruence. }
  destruct Hcases as [-> | [-> | ->]];
    match goal with
    | |- contains _ (fstring [?a; ?b; ?c; ?d; ?e; ?f; Val ?i; Lit ?l]) = _ =>
        change (fstring [a; b; c; d; e; f; Val i; Lit l])
          with (fstring [a; b; c; d; e; f; Lit (i ++ l)])
    end;
    destruct Hw as [-> | ->];
    rewrite contains_fstring by reflexivity;
    cbn [existsb frag_text]; eval_closed; cbn [orb];
    now rewrite ?orb_false_r, ?orb_true_r, ?orb_assoc.
Qed.

Lemma gt_excludes_lt (v : pyval) :
  gt_int v 0 = Ok true -> lt_int v 0 = Ok false.
Proof.
  unfold gt_int, lt_int. destruct (as_num v); [| discriminate].
  destruct (num_cmp n (NInt 0)) as [[ | | ] |]; intros H; try discriminate; reflexivity.
Qed.

Lemma free_text_split (w : string) (d : DeltaRecord) (ns : list NewSite) :
  existsb (contains w) (free_text d ns) = false ->
  contains w (str (p_base (grade d))) = false
  /\ contains w (str (p_head (grade d))) = false
  /\ contains w (str (m_base (sites_total d))) = false
  /\ contains w (str (m_head (sites_total d))) = false
  /\ contains w (str (m_base (instrumented d))) = false
  /\ contains w (str (m_head (instrumented d))) = false
  /\ contains w (str (m_base (uninstrumented d))) = false
  /\ contains w (str (m_head (uninstrumented d))) = false
  /\ existsb (contains w) (flat_map site_texts ns) = false.
Proof.
  unfold free_text. rewrite existsb_app. cbn [existsb]. intros H.
  repeat (apply orb_false_iff in H; destruct H as [? H]).
  repeat (match goal with H : _ || _ = false |- _ =>
            apply orb_false_iff in H; destruct H end).
  repeat split; assumption.
Qed.

Lemma count_row_free (w label : string) (m : Metric) (row : string) :
  word w -> contains w label = false -> ends_with_sep w label = true ->
  count_row label m = Ok row ->
  contains w (str (m_base m)) = false -> contains w (str (m_head m)) = false ->
  contains w row = false.
Proof.
  intros Hw Hlabel Hend Hrow Hb Hh. unfold count_row in Hrow.
  destruct (format_plus_d (m_delta m)) as [t |] eqn:E; [| discriminate Hrow].
  cbn [bind] in Hrow. apply Ok_inj in Hrow. subst row.
  apply within_format_plus_d in E. apply (numeric_free w) in E; [| exact Hw].
  rewrite contains_fstring.
  - cbn [existsb frag_text]. rewrite Hlabel, Hb, Hh, E.
    destruct Hw as [-> | ->]; reflexivity.
  - destruct Hw as [-> | ->]; reflexivity.
  - cbn [sealed border]. rewrite Hend. destruct Hw as [-> | ->]; reflexivity.
Qed.

Lemma within_int_str (z : Z) : within numeric_alphabet (int_str z) = true.
Proof.
  unfold int_str. destruct (z <? 0); [rewrite within_app |]; now rewrite ?within_digits.
Qed.

(** A difference that [+d] accepts has int or bool operands. *)
Lemma int_operands (a b r : pyval) (t : string) :
  sub a b = Ok r -> format_plus_d r = Ok t ->
  within numeric_alphabet (str a) = true /\ within numeric_alphabet (str b) = true.
Proof.
  unfold sub, arith. intros Hsub Hfmt.
  assert (forall v, (exists z, as_num v = Some (NInt z)) ->
                    within numeric_alphabet (str v) = true) as Hint.
  { intros v [z Hz]. destruct v as [ | c | x | | | | ]; try discriminate.
    - destruct c; reflexivity.
    - apply within_int_str. }
  destruct (as_num a) as [[x | x] |] eqn:Ea; try discriminate;
    destruct (as_num b) as [[y | y] |] eqn:Eb; try discriminate;
    cbn [num_sub to_float bind] in Hsub.
  - split; apply Hint; eauto.
  - destruct (int_to_float x); cbn [bind] in Hsub; [| discriminate].
    apply Ok_inj in Hsub. subst r. discriminate.
  - destruct (int_to_float y); cbn [bind] in Hsub; [| discriminate].
    apply Ok_inj in Hsub. subst r. discriminate.
  - apply Ok_inj in Hsub. subst r. discriminate.
Qed.

Lemma count_row_delta (label : string) (m : Metric) (row : string) :
  count_row label m = Ok row -> exists t, format_plus_d (m_delta m) = Ok t.
Proof.
  unfold count_row. destruct (format_plus_d (m_delta m)) as [t |]; [| discriminate].
  intros _. now exists t.
Qed.

(** In a report on a record that [compute_delta] returned the counts are
    ints or bools, which no word occurs in. *)
Lemma computed_counts_free (w : string) (base head : pyval) (d : DeltaRecord)
    (ns : list NewSite) (text : string) :
  word w ->
  compute_delta base head = Ok d -> render_markdown d ns = Ok text ->
  existsb (contains w) (printed_text d ns) = false ->
  existsb (contains w) (free_text d ns) = false.
Proof.
  intros Hw Hd Hrender Hfree.
  destruct (compute_delta_arithmetic base head d Hd) as [A1 [A2 [A3 _]]].
  unfold render_markdown in Hrender. cbv zeta in Hrender. bind_inv Hrender.
  repeat match goal with
         | H : count_row _ _ = Ok _ |- _ =>
             apply count_row_delta in H; destruct H as [? H]
         end.
  repeat match goal with
         | A : sub ?h ?b = Ok ?r, H : format_plus_d ?r = Ok _ |- _ =>
             destruct (int_operands h b r _ A H) as [? ?]; clear A H
         end.
  repeat match goal with
         | H : within numeric_alphabet _ = true |- _ =>
             apply (numeric_free w) in H; [| exact Hw]
         end.
  unfold printed_text in Hfree. rewrite existsb_app in Hfree. cbn [existsb] in Hfree.
  repeat (apply orb_false_iff in Hfree; destruct Hfree as [? Hfree]).
  repeat match goal with
         | H : _ || _ = false |- _ => apply orb_false_iff in H; destruct H
         end.
  unfold free_text. rewrite existsb_app. cbn [existsb].
  repeat match goal with
         | H : contains w _ = false |- _ => rewrite H; clear H
         end.
  cbn [orb]. assumption.
Qed.

(** The only place where the report can say [w] is the score suffix, when
    the values it prints as they are do not. *)
Lemma report_occurrence (w : string) (d : DeltaRecord) (ns : list NewSite)
    (text : string) :
  word w ->
  render_markdown d ns = Ok text ->
  existsb (contains w) (free_text d ns) = false ->
  exists icon, score_icon_of (m_delta (score d)) = Ok icon
               /\ contains w text = contains w icon.
Proof.
  intros Hw Hrender Hfree.
  apply free_text_split in Hfree.
  destruct Hfree as [G1 [G2 [S1 [S2 [I1 [I2 [U1 [U2 Hsites]]]]]]]].
  unfold render_markdown in Hrender. cbv zeta in Hrender.
  destruct (gt_int (m_delta (score d)) 0) as [up |] eqn:Eup; [| discriminate Hrender].
  cbn [bind] in Hrender.
  match type of Hrender with
  | bind ?c _ = _ => destruct c as [icon |] eqn:Eicon; [| discriminate Hrender]
  end.
  assert (score_icon_of (m_delta (score d)) = Ok icon) as Hicon.
  { unfold score_icon_of. rewrite Eup. cbn [bind]. exact Eicon. }
  clear Eicon Eup. exists icon. split; [exact Hicon |].
  cbn [bind] in Hrender.
  bind_inv Hrender. apply Ok_inj in Hrender. subst text.
  unfold newline. rewrite contains_concat by (destruct Hw as [-> | ->]; reflexivity).
  rewrite !existsb_app. cbn [existsb].
  rewrite (score_row_free w _ _ _ icon _ Hw Hicon).
  repeat match goal with
         | H : format_f1 _ _ = Ok _ |- _ =>
             apply within_format_f1 in H; apply (numeric_free w) in H; [| exact Hw]
         end.
  repeat match goal with
         | H : count_row ?label ?m = Ok ?row |- _ =>
             apply (count_row_free w label m row Hw) in H;
             [| destruct Hw as [-> | ->]; reflexivity
              | destruct Hw as [-> | ->]; reflexivity
              | assumption | assumption]
         end.
  rewrite block_free by exact Hw.
  rewrite !contains_fstring by (destruct Hw as [-> | ->]; reflexivity).
  cbn [existsb frag_text].
  assert (contains w
            (str (if negb (eq (p_base (grade d)) (p_head (grade d)))
                  then PStr (fstring [Val (str (p_base (grade d))); Lit " -> ";
                                      Val (str (p_head (grade d)))])
                  else p_head (grade d))) = false) as Hchange.
  { destruct (negb (eq (p_base (grade d)) (p_head (grade d)))); [| exact G2].
    cbn [str]. rewrite contains_fstring by (destruct Hw as [-> | ->]; reflexivity).
    cbn [existsb frag_text]. rewrite G1, G2.
    destruct Hw as [-> | ->]; reflexivity. }
  rewrite Hchange.
  repeat match goal with
         | H : contains w _ = false |- _ => rewrite H; clear H
         end.
  rewrite Hsites.
  destruct Hw as [-> | ->]; eval_closed; cbn [orb]; now rewrite ?orb_false_r.
Qed.

End TextFacts.

(** ** Properties of [render_markdown] *)

Module RenderClaims.
Import Py PrScoreDelta Reading Samples DeltaFacts TextFacts.

(** C7, as stated, fails on printed values: with equal scores and a new
    site in a file named [improved_prompts.py] the score delta is 0 and the
    report contains the word. *)
Lemma file_name_brings_the_word :
  let base := flat 1 0 1 (PInt 5) "F" in
  let head := flat 1 0 1 (PInt 5) "F" in
  let new_sites := [{| file := PStr "improved_prompts.py"; line := "7";
                       call := PStr "client.create"; provider := PStr "openai" |}] in
  exists d text,
    compute_delta base head = Ok d
    /\ render_markdown d new_sites = Ok text
    /\ gt_int (m_delta (score d)) 0 = Ok false
    /\ lt_int (m_delta (score d)) 0 = Ok false
    /\ contains "improved" text = true.
Proof.
  cbv zeta. eexists. eexists.
  split; [vm_compute; reflexivity |]. split; [vm_compute; reflexivity |].
  split; [reflexivity |]. split; [reflexivity |]. vm_compute. reflexivity.
Qed.

(** C7 (amended).  When [render_markdown] returns a text, the two tests on
    the score delta have returned, and: if none of the values printed as
    they are (the two grades, the base and head of the three counts, the
    fields of the new sites) contains "improved", the text contains
    "improved" exactly when the score delta is greater than 0; likewise for
    "regressed" and a score delta less than 0; so with such values the text
    contains neither word when the score delta is neither.  For a record
    that [compute_delta] returned the counts are numbers, and the condition
    on the grades and on the fields of the new sites is enough. *)
Theorem labels_follow_score_delta
    (d : DeltaRecord) (new_sites : list NewSite) (text : string) :
  render_markdown d new_sites = Ok text ->
  exists up down,
    gt_int (m_delta (score d)) 0 = Ok up
    /\ lt_int (m_delta (score d)) 0 = Ok down
    /\ (existsb (contains "improved") (free_text d new_sites) = false ->
        (contains "improved" text = true <-> up = true))
    /\ (existsb (contains "regressed") (free_text d new_sites) = false ->
        (contains "regressed" text = true <-> down = true))
    /\ (existsb (contains "improved") (free_text d new_sites) = false ->
        existsb (contains "regressed") (free_text d new_sites) = false ->
        up = false -> down = false ->
        contains "improved" text = false /\ contains "regressed" text = false)
    /\ (forall base head,
          compute_delta base head = Ok d ->
          existsb (contains "improved") (printed_text d new_sites) = false ->
          (contains "improved" text = true <-> up = true))
    /\ (forall base head,
          compute_delta base head = Ok d ->
          existsb (contains "regressed") (printed_text d new_sites) = false ->
          (contains "regressed" text = true <-> down = true)).
Proof.
  intros Hrender.
  assert (exists up down icon,
             gt_int (m_delta (score d)) 0 = Ok up
             /\ lt_int (m_delta (score d)) 0 = Ok down
             /\ score_icon_of (m_delta (score d)) = Ok icon
             /\ contains "improved" icon = up
             /\ contains "regressed" icon = down) as [up [down [icon H]]].
  { unfold render_markdown in Hrender. cbv zeta in Hrender.
    destruct (gt_int (m_delta (score d)) 0) as [up |] eqn:Eup; [| discriminate Hrender].
    cbn [bind] in Hrender. unfold score_icon_of. rewrite Eup. cbn [bind].
    destruct up.
    - exists true, false, " [improved]".
      split; [reflexivity |]. split; [now apply gt_excludes_lt |].
      repeat split; reflexivity.
    - destruct (lt_int (m_delta (score d)) 0) as [down |] eqn:Edown;
        [| discriminate Hrender].
      cbn [bind]. exists false, down, (if down then " [regressed]" else "").
      destruct down; repeat split; reflexivity. }
  destruct H as [Hup [Hdown [Hicon [Himp Hreg]]]].
  exists up, down. split; [exact Hup |]. split; [exact Hdown |].
  assert (existsb (contains "improved") (free_text d new_sites) = false ->
          contains "improved" text = up) as Ha.
  { intros Hfree.
    destruct (report_occurrence "improved" d new_sites text
                (or_introl eq_refl) Hrender Hfree) as [icon' [Hicon' ->]].
    congruence. }
  assert (existsb (contains "regressed") (free_text d new_sites) = false ->
          contains "regressed" text = down) as Hb.
  { intros Hfree.
    destruct (report_occurrence "regressed" d new_sites text
                (or_intror eq_refl) Hrender Hfree) as [icon' [Hicon' ->]].
    congruence. }
  split; [intros Hfree; now rewrite (Ha Hfree) |].
  split; [intros Hfree; now rewrite (Hb Hfree) |].
  split; [intros F1 F2 -> ->; split; [now apply Ha | now apply Hb] |].
  split; intros base head Hd Hfree.
  - rewrite Ha; [reflexivity |].
    now apply (computed_counts_free "improved" base head d new_sites text
                 (or_introl eq_refl)).
  - rewrite Hb; [reflexivity |].
    now apply (computed_counts_free "regressed" base head d new_sites text
                 (or_intror eq_refl)).
Qed.

(** The amended C7 at an improvement from 10.0 to 25.0 with one new site. *)
Lemma labels_follow_score_delta_witness :
  let base := flat 10 5 5 (dec 100 (-1)) "F" in
  let head := flat 15 10 5 (dec 250 (-1)) "F" in
  let new_sites := [{| file := PStr "new.py"; line := "10";
                       call := PStr "client.create"; provider := PStr "openai" |}] in
  exists d text,
    compute_delta base head = Ok d
    /\ render_markdown d new_sites = Ok text
    /\ existsb (contains "improved") (free_text d new_sites) = false
    /\ existsb (contains "regressed") (free_text d new_sites) = false
    /\ gt_int (m_delta (score d)) 0 = Ok true
    /\ contains "improved" text = true
    /\ contains "regressed" text = false.
Proof.
  cbv zeta.
  set (new_sites := [{| file := PStr "new.py"; line := "10";
                        call := PStr "client.create"; provider := PStr "openai" |}]).
  set (base := flat 10 5 5 (dec 100 (-1)) "F").
  set (head := flat 15 10 5 (dec 250 (-1)) "F").
  destruct (compute_delta base head) as [d |] eqn:Hd;
    [| vm_compute in Hd; discriminate Hd].
  vm_compute in Hd. apply Ok_inj in Hd.
  destruct (render_markdown d new_sites) as [text |] eqn:Htext;
    [| subst d; vm_compute in Htext; discriminate Htext].
  exists d, text. split; [reflexivity |]. split; [exact Htext |].
  destruct (labels_follow_score_delta d new_sites text Htext)
    as [up [down [Hup [Hdown [Himp [Hreg _]]]]]].
  assert (existsb (contains "improved") (free_text d new_sites) = false) as F1
    by (subst d; vm_compute; reflexivity).
  assert (existsb (contains "regressed") (free_text d new_sites) = false) as F2
    by (subst d; vm_compute; reflexivity).
  split; [exact F1 |]. split; [exact F2 |].
  assert (up = true) as Eup by (subst d; vm_compute in Hup; congruence).
  assert (down = false) as Edown by (subst d; vm_compute in Hdown; congruence).
  split; [rewrite Hup; now rewrite Eup |]. split.
  - apply (Himp F1). exact Eup.
  - pose proof (Hreg F2) as [Hword _].
    destruct (contains "regressed" text); [| reflexivity].
    specialize (Hword eq_refl). congruence.
Defined.

End RenderClaims.

(** * Beyond the specification *)

(** ** [find_new_uninstrumented]: errors, identity of sites, the base as a set *)

Module SitesBeyond.
Import Py PrScoreDelta Reading Samples Shapes SitesFacts TextFacts.

Lemma dicts_map (l : list pyval) :
  forallb is_dict l = true -> exists ds : list assoc, l = map PDict ds.
Proof.
  induction l as [|x l IH]; intros H.
  - now exists [].
  - cbn [forallb] in H. apply andb_prop in H as [Hx Hl].
    destruct x as [ | | | | | |d]; try discriminate Hx.
    destruct (IH Hl) as [ds ->]. now exists (d :: ds).
Qed.

Lemma get_non_dict (v : pyval) (k : string) (default : pyval) :
  is_dict v = false -> get v k default = Raise AttributeError.
Proof. destruct v; try reflexivity; discriminate. Qed.

Lemma site_key_non_dict (v : pyval) :
  is_dict v = false -> site_key v = Raise AttributeError.
Proof. intros H. unfold site_key. now rewrite get_non_dict. Qed.

(** Either loop stops with [AttributeError] at the first site that is not
    a dict. *)
Lemma base_loop_non_dict (l : list pyval) :
  forallb is_dict l = false ->
  forall acc, base_loop l acc = Raise AttributeError.
Proof.
  induction l as [|x l IH]; intros H acc; [discriminate H |].
  cbn [forallb] in H. cbn [base_loop].
  destruct (is_dict x) eqn:Ex; cbn [andb] in H.
  - destruct x as [ | | | | | |d]; try discriminate Ex.
    rewrite site_key_dict. cbn [bind]. now apply IH.
  - now rewrite site_key_non_dict.
Qed.

Lemma head_loop_non_dict (l : list pyval) :
  forallb is_dict l = false ->
  forall keys acc, head_loop keys l acc = Raise AttributeError.
Proof.
  induction l as [|x l IH]; intros H keys acc; [discriminate H |].
  cbn [forallb] in H. cbn [head_loop].
  destruct (is_dict x) eqn:Ex; cbn [andb] in H.
  - destruct x as [ | | | | | |d]; try discriminate Ex.
    rewrite flag_dict. cbn [bind].
    destruct (negb (truthy (field "instrumented" (PBool false) d))); [| now apply IH].
    rewrite site_key_dict. cbn [bind].
    destruct (negb (set_mem string_dec (key_of d) keys)); [| now apply IH].
    rewrite new_site_dict. cbn [bind]. now apply IH.
  - now rewrite get_non_dict.
Qed.

Lemma existsb_same {A : Type} (f : A -> bool) (l l' : list A) :
  (forall x, In x l <-> In x l') -> existsb f l = existsb f l'.
Proof.
  intros H.
  destruct (existsb f l) eqn:E, (existsb f l') eqn:E'; try reflexivity.
  - apply existsb_exists in E as [x [Hin Hf]].
    assert (existsb f l' = true) by (apply existsb_exists; exists x; split; [now apply H | exact Hf]).
    congruence.
  - apply existsb_exists in E' as [x [Hin Hf]].
    assert (existsb f l = true) by (apply existsb_exists; exists x; split; [now apply H | exact Hf]).
    congruence.
Qed.

Lemma filter_none {A : Type} (f : A -> bool) (l : list A) :
  (forall x, In x l -> f x = false) -> filter f l = [].
Proof.
  induction l as [|x l IH]; intros H; [reflexivity |].
  cbn [filter]. rewrite (H x (or_introl eq_refl)). apply IH.
  intros y Hy. apply H. now right.
Qed.

(** *** Keys of typed sites *)

Lemma split_at_sep (c : ascii) :
  forall a a' x x',
    has_char c a = false -> has_char c a' = false ->
    a ++ String c x = a' ++ String c x' -> a = a' /\ x = x'.
Proof.
  induction a as [|y a IH]; intros [|y' a'] x x' Ha Ha' E; cbn [append] in E.
  - injection E as E. now split.
  - injection E as Ec _. subst y'. cbn [has_char] in Ha'.
    now rewrite Ascii.eqb_refl in Ha'.
  - injection E as Ec _. subst y. cbn [has_char] in Ha.
    now rewrite Ascii.eqb_refl in Ha.
  - injection E as Ey E. subst y'.
    cbn [has_char] in Ha, Ha'. apply orb_false_elim in Ha as [_ Ha].
    apply orb_false_elim in Ha' as [_ Ha'].
    destruct (IH a' x x' Ha Ha' E) as [-> ->]. now split.
Qed.

Lemma uint_digits_only (u : Decimal.uint) :
  within "0123456789" (NilEmpty.string_of_uint u) = true.
Proof. induction u; cbn [NilEmpty.string_of_uint within]; try rewrite IHu; reflexivity. Qed.

Lemma n_to_uint_nonnil (n : N) : N.to_uint n <> Decimal.Nil.
Proof.
  destruct n as [|p]; [discriminate |].
  apply DecimalPos.Unsigned.to_uint_nonnil.
Qed.

Lemma digits_only (z : Z) : within "0123456789" (digits z) = true.
Proof.
  unfold digits. pose proof (n_to_uint_nonnil (Z.to_N z)) as Hn.
  destruct (N.to_uint (Z.to_N z)) eqn:E; try (now contradiction Hn);
    rewrite <- E; unfold NilZero.string_of_uint; rewrite E; rewrite <- E;
    apply uint_digits_only.
Qed.

Lemma digits_inj (a b : Z) : 0 <= a -> 0 <= b -> digits a = digits b -> a = b.
Proof.
  unfold digits. intros Ha Hb E.
  apply (f_equal NilZero.uint_of_string) in E.
  rewrite !NilZero.usu in E by apply n_to_uint_nonnil.
  injection E as E. apply DecimalN.Unsigned.to_uint_inj in E.
  now apply Z2N.inj.
Qed.

Lemma int_str_inj (a b : Z) : int_str a = int_str b -> a = b.
Proof.
  unfold int_str.
  destruct (a <? 0) eqn:Ea, (b <? 0) eqn:Eb; intros E.
  - cbn [append] in E. injection E as E.
    apply Z.ltb_lt in Ea, Eb. apply digits_inj in E; lia.
  - cbn [append] in E. pose proof (digits_only b) as Hb. rewrite <- E in Hb.
    discriminate Hb.
  - cbn [append] in E. pose proof (digits_only a) as Ha. rewrite E in Ha.
    discriminate Ha.
  - apply Z.ltb_ge in Ea, Eb. now apply digits_inj.
Qed.

Lemma int_str_no_colon (z : Z) : has_char ":" (int_str z) = false.
Proof.
  destruct (has_char ":" (int_str z)) eqn:E; [| reflexivity].
  pose proof (within_has_char _ _ _ (within_int_str z) E) as F. discriminate F.
Qed.

(** Typed sites with the same key have the same identity triple. *)
Lemma typed_key_injective (d d' : assoc) :
  typed_site d = true -> typed_site d' = true ->
  key_of d = key_of d' -> triple_of d = triple_of d'.
Proof.
  unfold typed_site, key_of, triple_of, field.
  destruct (lookup "file" d) as [[ | | | |f| | ]|]; try discriminate;
  destruct (lookup "line" d) as [[ | |z| | | | ]|]; try discriminate;
  destruct (lookup "call" d) as [[ | | | |c| | ]|]; try discriminate.
  destruct (lookup "file" d') as [[ | | | |f'| | ]|]; try discriminate;
  destruct (lookup "line" d') as [[ | |z'| | | | ]|]; try discriminate;
  destruct (lookup "call" d') as [[ | | | |c'| | ]|]; try discriminate.
  intros Hf Hf' E. apply negb_true_iff in Hf, Hf'.
  cbn [str repr fstring frag_text append] in E.
  apply split_at_sep in E as [-> E]; [| exact Hf | exact Hf'].
  apply split_at_sep in E as [Ez E]; [| apply int_str_no_colon | apply int_str_no_colon].
  apply int_str_inj in Ez. subst z'.
  rewrite !append_nil_r in E. now subst c'.
Qed.

Lemma qualifies_typed (bs : list assoc) (d : assoc) :
  forallb typed_site bs = true -> typed_site d = true ->
  (qualifies bs d = true
   <-> uninstrumented_site d = true /\ ~ In (triple_of d) (map triple_of bs)).
Proof.
  intros Hbs Hd. unfold qualifies. rewrite andb_true_iff, negb_true_iff. split.
  - intros [Hu Hk]. split; [exact Hu |]. intros Hin.
    apply in_map_iff in Hin as [b [Hb Hin]].
    assert (existsb (String.eqb (key_of d)) (map key_of bs) = true) as F.
    { apply existsb_exists. exists (key_of b). split; [now apply in_map |].
      apply String.eqb_eq. symmetry. now apply triple_key. }
    congruence.
  - intros [Hu Hnot]. split; [exact Hu |].
    destruct (existsb (String.eqb (key_of d)) (map key_of bs)) eqn:E; [| reflexivity].
    exfalso. apply Hnot.
    apply existsb_exists in E as [k [Hin Hk]]. apply String.eqb_eq in Hk. subst k.
    apply in_map_iff in Hin as [b [Hb Hin]].
    apply in_map_iff. exists b. split; [| exact Hin].
    apply typed_key_injective; [| exact Hd | exact Hb].
    rewrite forallb_forall in Hbs. now apply Hbs.
Qed.

(** X1.  A head that brings no new identity triple reports nothing; in
    particular a document compared with itself reports no new site. *)
Theorem known_sites_report_nothing (doc : pyval) (sites : list assoc) :
  has_sites doc sites ->
  find_new_uninstrumented doc doc = Ok []
  /\ forall head hs,
       has_sites head hs ->
       incl (map triple_of hs) (map triple_of sites) ->
       find_new_uninstrumented doc head = Ok [].
Proof.
  intros Hdoc.
  assert (forall head hs, has_sites head hs ->
            incl (map triple_of hs) (map triple_of sites) ->
            find_new_uninstrumented doc head = Ok []) as General.
  { intros head hs Hhead Hincl.
    rewrite (find_new_reading doc head sites hs Hdoc Hhead).
    unfold selected, qualifying.
    rewrite filter_none; [reflexivity |]. intros d Hd.
    unfold qualifies. apply andb_false_iff. right.
    apply negb_false_iff, existsb_exists.
    assert (In (triple_of d) (map triple_of sites)) as Hin
      by (apply Hincl; now apply in_map).
    apply in_map_iff in Hin as [b [Hb Hin]].
    exists (key_of b). split; [now apply in_map |].
    apply String.eqb_eq. symmetry. now apply triple_key. }
  split; [| exact General].
  apply (General doc sites Hdoc). apply incl_refl.
Qed.

Lemma known_sites_report_nothing_witness :
  let s := site "app.py" 42 "client.chat.completions.create" "openai" false in
  find_new_uninstrumented (with_sites [s]) (with_sites [s]) = Ok [].
Proof.
  intros s. apply (proj1 (known_sites_report_nothing (with_sites [s]) [s] eq_refl)).
Defined.

(** X2.  A head site whose [instrumented] entry is truthy is never
    reported, whatever the base holds; a head of instrumented sites only
    reports nothing. *)
Theorem instrumented_sites_are_not_reported
    (base head : pyval) (bs hs : list assoc) :
  has_sites base bs -> has_sites head hs ->
  exists kept,
    find_new_uninstrumented base head = Ok (map entry_of kept)
    /\ incl kept hs
    /\ (forall d, In d kept -> truthy (field "instrumented" (PBool false) d) = false)
    /\ ((forall d, In d hs -> truthy (field "instrumented" (PBool false) d) = true) ->
        kept = []).
Proof.
  intros Hb Hh. exists (selected bs hs).
  split; [now apply find_new_reading |].
  split; [| split].
  - intros d Hd. now apply selected_in_qualifying in Hd.
  - intros d Hd. apply selected_in_qualifying in Hd as [_ Hq].
    unfold qualifies, uninstrumented_site in Hq.
    apply andb_true_iff in Hq as [Hu _]. now apply negb_true_iff in Hu.
  - intros Hall. unfold selected, qualifying.
    rewrite filter_none; [reflexivity |]. intros d Hd.
    unfold qualifies, uninstrumented_site. now rewrite (Hall d Hd).
Qed.

Lemma instrumented_sites_are_not_reported_witness :
  let s := site "app.py" 42 "client.create" "openai" true in
  exists kept,
    find_new_uninstrumented (with_sites []) (with_sites [s]) = Ok (map entry_of kept)
    /\ kept = [].
Proof.
  intros s.
  destruct (instrumented_sites_are_not_reported (with_sites []) (with_sites [s])
              [] [s] eq_refl eq_refl) as [kept [Hrun [_ [_ Hnone]]]].
  exists kept. split; [exact Hrun |].
  apply Hnone. intros d [<- | []]. reflexivity.
Defined.

(** X3.  The function returns exactly when every item of the base site
    list and of the head site list is a dict, and raises [AttributeError]
    otherwise.  The items are those the loop visits: the elements of a
    JSON list, but also the keys of an object and the characters of a
    string, so that of these two only an empty one is accepted. *)
Theorem sites_must_all_be_dicts
    (base head base_list head_list : pyval) (bl hl : list pyval) :
  site_list base = Ok base_list -> iter base_list = Ok bl ->
  site_list head = Ok head_list -> iter head_list = Ok hl ->
  (forallb is_dict bl && forallb is_dict hl = true ->
   exists out, find_new_uninstrumented base head = Ok out)
  /\ (forallb is_dict bl && forallb is_dict hl = false ->
      find_new_uninstrumented base head = Raise AttributeError).
Proof.
  intros Hb Ib Hh Ih. unfold find_new_uninstrumented.
  rewrite Hb. cbn [bind]. rewrite Ib. cbn [bind].
  split; intros H.
  - apply andb_prop in H as [Hbl Hhl].
    destruct (dicts_map bl Hbl) as [bs ->]. destruct (dicts_map hl Hhl) as [hs ->].
    destruct (base_loop_dicts bs (empty_set string)) as [keys [Hrun _]].
    rewrite Hrun. cbn [bind]. rewrite Hh. cbn [bind]. rewrite Ih. cbn [bind].
    rewrite head_loop_dicts. cbn [bind]. eexists. reflexivity.
  - destruct (forallb is_dict bl) eqn:Ebl; cbn [andb] in H.
    + destruct (dicts_map bl Ebl) as [bs ->].
      destruct (base_loop_dicts bs (empty_set string)) as [keys [Hrun _]].
      rewrite Hrun. cbn [bind]. rewrite Hh. cbn [bind]. rewrite Ih. cbn [bind].
      now rewrite head_loop_non_dict.
    + now rewrite base_loop_non_dict.
Qed.

Lemma sites_must_all_be_dicts_witness :
  find_new_uninstrumented (with_sites []) (PDict [("sites", PList [PStr "app.py:42"])])
  = Raise AttributeError
  /\ find_new_uninstrumented (PDict [("sites", PDict [("app.py", PInt 42)])])
                             (with_sites [])
     = Raise AttributeError
  /\ exists out,
       find_new_uninstrumented (PDict [("sites", PDict [])]) (PDict [("sites", PStr "")])
       = Ok out.
Proof.
  split; [| split].
  - apply (proj2 (sites_must_all_be_dicts (with_sites [])
                    (PDict [("sites", PList [PStr "app.py:42"])])
                    (PList []) (PList [PStr "app.py:42"]) [] [PStr "app.py:42"]
                    eq_refl eq_refl eq_refl eq_refl)).
    reflexivity.
  - apply (proj2 (sites_must_all_be_dicts
                    (PDict [("sites", PDict [("app.py", PInt 42)])]) (with_sites [])
                    (PDict [("app.py", PInt 42)]) (PList []) [PStr "app.py"] []
                    eq_refl eq_refl eq_refl eq_refl)).
    reflexivity.
  - apply (proj1 (sites_must_all_be_dicts
                    (PDict [("sites", PDict [])]) (PDict [("sites", PStr "")])
                    (PDict []) (PStr "") [] []
                    eq_refl eq_refl eq_refl eq_refl)).
    reflexivity.
Defined.

(** X4.  A site list that is [null], a boolean or a number is not
    iterable: the function raises [TypeError], for the base at once and for
    the head after the base sites have been read. *)
Theorem scalar_site_list_is_a_type_error (base head v : pyval) :
  scalar v = true ->
  (site_list base = Ok v -> find_new_uninstrumented base head = Raise TypeError)
  /\ (forall bs, has_sites base bs -> site_list head = Ok v ->
        find_new_uninstrumented base head = Raise TypeError).
Proof.
  intros Hv.
  assert (iter v = Raise TypeError) as Hiter
    by (destruct v; try discriminate Hv; reflexivity).
  split.
  - intros Hb. unfold find_new_uninstrumented. rewrite Hb. cbn [bind].
    now rewrite Hiter.
  - intros bs Hb Hh. unfold find_new_uninstrumented. rewrite Hb. cbn [bind iter].
    destruct (base_loop_dicts bs (empty_set string)) as [keys [Hrun _]].
    rewrite Hrun. cbn [bind]. rewrite Hh. cbn [bind]. now rewrite Hiter.
Qed.

Lemma scalar_site_list_is_a_type_error_witness :
  find_new_uninstrumented (PDict [("scan", PDict [("sites", PNone)])]) (with_sites [])
  = Raise TypeError
  /\ find_new_uninstrumented (with_sites []) (PDict [("sites", PInt 0)])
     = Raise TypeError.
Proof.
  split.
  - apply (proj1 (scalar_site_list_is_a_type_error
                    (PDict [("scan", PDict [("sites", PNone)])]) (with_sites [])
                    PNone eq_refl)).
    reflexivity.
  - apply (proj2 (scalar_site_list_is_a_type_error
                    (with_sites []) (PDict [("sites", PInt 0)])
                    (PInt 0) eq_refl) []); reflexivity.
Defined.

(** X5.  For sites as the scanner writes them (file a string without a
    colon, line an int, call a string) the key identifies the triple: a
    head site qualifies exactly when it is uninstrumented and its
    (file, line, call) triple is the triple of no base site, and the
    function returns the first ten of those. *)
Theorem typed_sites_are_compared_by_triple
    (base head : pyval) (bs hs : list assoc) :
  has_sites base bs -> has_sites head hs ->
  forallb typed_site bs = true -> forallb typed_site hs = true ->
  find_new_uninstrumented base head
  = Ok (map entry_of (firstn 10 (filter (qualifies bs) hs)))
  /\ (forall d, In d hs ->
        (qualifies bs d = true
         <-> uninstrumented_site d = true /\ ~ In (triple_of d) (map triple_of bs)))
  /\ (forall d d', In d hs -> In d' bs ->
        (key_of d = key_of d' <-> triple_of d = triple_of d')).
Proof.
  intros Hb Hh Tb Th. split; [now apply find_new_reading |]. split.
  - intros d Hd. apply qualifies_typed; [exact Tb |].
    rewrite forallb_forall in Th. now apply Th.
  - intros d d' Hd Hd'. rewrite forallb_forall in Tb, Th. split.
    + apply typed_key_injective; [now apply Th | now apply Tb].
    + apply triple_key.
Qed.

Lemma typed_sites_are_compared_by_triple_witness :
  let b := site "a.py" 12 "x:create" "openai" true in
  let h := site "a.py" 1 "2:x:create" "openai" false in
  find_new_uninstrumented (with_sites [b]) (with_sites [h]) = Ok [entry_of h].
Proof.
  intros b h.
  destruct (typed_sites_are_compared_by_triple (with_sites [b]) (with_sites [h])
              [b] [h] eq_refl eq_refl eq_refl eq_refl) as [Hrun [Hq _]].
  rewrite Hrun. cbn [filter].
  replace (qualifies [b] h) with true; [reflexivity |].
  symmetry. apply Hq; [now left |]. split; [reflexivity |].
  intros [E | []]. discriminate E.
Defined.

(** X6.  The base counts as a set of sites: base documents that list the
    same sites, in any order and with any repetition, give the same
    result. *)
Theorem base_is_read_as_a_set
    (base base' head : pyval) (bs bs' hs : list assoc) :
  has_sites base bs -> has_sites base' bs' -> has_sites head hs ->
  (forall b, In b bs <-> In b bs') ->
  find_new_uninstrumented base head = find_new_uninstrumented base' head.
Proof.
  intros Hb Hb' Hh Hsame.
  rewrite (find_new_reading base head bs hs Hb Hh).
  rewrite (find_new_reading base' head bs' hs Hb' Hh).
  unfold selected, qualifying. do 3 f_equal.
  apply filter_ext. intros d. unfold qualifies. do 2 f_equal.
  apply existsb_same. intros k. rewrite !in_map_iff.
  split; intros [b [Hk Hin]]; exists b; (split; [exact Hk | now apply Hsame]).
Qed.

Lemma base_is_read_as_a_set_witness :
  let a := site "a.py" 1 "create" "openai" false in
  let b := site "b.py" 2 "create" "openai" true in
  let c := site "c.py" 3 "create" "openai" false in
  find_new_uninstrumented (with_sites [a; b]) (with_sites [a; c])
  = find_new_uninstrumented (with_sites [b; a; b]) (with_sites [a; c]).
Proof.
  intros a b c.
  apply (base_is_read_as_a_set (with_sites [a; b]) (with_sites [b; a; b])
           (with_sites [a; c]) [a; b] [b; a; b] [a; c] eq_refl eq_refl eq_refl).
  intros x. cbn [In]. tauto.
Defined.

End SitesBeyond.

(** ** [compute_delta]: its exceptions, its record, identical inputs *)

Module DeltaBeyond.
Import Py PrScoreDelta Reading Samples Shapes DeltaFacts MainFacts TextFacts.

(** *** What each step can raise *)

Lemma get_raise (v : pyval) (k : string) (default : pyval) (e : exn) :
  get v k default = Raise e -> e = AttributeError.
Proof.
  destruct v; cbn [get]; try congruence.
  destruct (lookup k d); discriminate.
Qed.

Lemma scan_summary_raise (doc : pyval) (e : exn) :
  scan_summary doc = Raise e -> e = AttributeError.
Proof.
  unfold scan_summary. intros H.
  destruct (get doc "scan" (PDict [])) eqn:E; cbn [bind] in H.
  - now apply get_raise in H.
  - injection H as <-. now apply get_raise in E.
Qed.

Lemma to_float_raise (n : num) (e : exn) : to_float n = Raise e -> e = OverflowError.
Proof.
  destruct n as [z | f]; cbn [to_float]; [| discriminate].
  unfold int_to_float. destruct (Z.abs z <? overflow_threshold); congruence.
Qed.

Lemma num_sub_raise (a b : num) (e : exn) : num_sub a b = Raise e -> e = OverflowError.
Proof.
  destruct a as [x | x], b as [y | y]; cbn [num_sub to_float bind]; try discriminate.
  - destruct (int_to_float x) eqn:E; cbn [bind]; [discriminate |].
    intros H. injection H as <-. now apply (to_float_raise (NInt x)).
  - destruct (int_to_float y) eqn:E; cbn [bind]; [discriminate |].
    intros H. injection H as <-. now apply (to_float_raise (NInt y)).
Qed.

Lemma sub_raise (a b : pyval) (e : exn) :
  sub a b = Raise e -> e = TypeError \/ e = OverflowError.
Proof.
  unfold sub, arith.
  destruct (as_num a) as [x |]; [| intros H; left; congruence].
  destruct (as_num b) as [y |]; [| intros H; left; congruence].
  intros H. right. now apply num_sub_raise in H.
Qed.

Lemma round1_raise (v : pyval) (e : exn) : round1 v = Raise e -> e = TypeError.
Proof. destruct v; cbn [round1]; congruence. Qed.

(** Subtraction returns an int or a float, and only on numbers. *)
Lemma sub_ok (a b r : pyval) :
  sub a b = Ok r ->
  is_number a = true /\ is_number b = true /\ int_or_float r = true
  /\ (is_float a || is_float b = true -> is_float r = true)
  /\ (int_like a = true -> int_like b = true -> int_like r = true).
Proof.
  unfold sub, arith, is_number.
  destruct a as [ | x | x | x | | | ]; try discriminate;
    destruct b as [ | y | y | y | | | ]; try discriminate;
    cbn [as_num num_sub to_float]; intros H;
    repeat match type of H with
           | bind ?c _ = Ok _ => destruct c; cbn [bind] in H; [| discriminate H]
           end;
    injection H as <-; repeat split; try reflexivity; try discriminate.
Qed.

Lemma round1_ok (v r : pyval) :
  int_or_float v = true -> round1 v = Ok r ->
  int_or_float r = true /\ is_float r = is_float v.
Proof.
  destruct v; try discriminate; cbn [round1]; intros _ H; injection H as <-;
    now split.
Qed.

Lemma number_compares (v : pyval) :
  is_number v = true ->
  exists up down, gt_int v 0 = Ok up /\ lt_int v 0 = Ok down.
Proof.
  unfold is_number, gt_int, lt_int. destruct (as_num v); [| discriminate].
  intros _. eexists. eexists. split; reflexivity.
Qed.

Lemma int_or_float_number (v : pyval) : int_or_float v = true -> is_number v = true.
Proof. destruct v; try discriminate; reflexivity. Qed.

(** The guard [sites > 0] keeps the division away from a zero divisor. *)
Lemma truediv_guarded (instr sites : pyval) (e : exn) :
  gt_int sites 0 = Ok true -> truediv instr sites = Raise e ->
  e = TypeError \/ e = OverflowError.
Proof.
  unfold gt_int, truediv, arith.
  destruct (as_num sites) as [ns |]; [| discriminate].
  intros G. injection G as G.
  destruct (num_cmp ns (NInt 0)) as [[ | | ] |] eqn:C; try discriminate G.
  pose proof (gt_zero_not_zero ns C) as Hz.
  destruct (as_num instr) as [ni |]; [| intros H; left; congruence].
  intros H. right.
  destruct ni as [x | x], ns as [y | y]; cbn [num_truediv to_float] in H.
  - unfold int_truediv in H. cbn [num_is_zero] in Hz. rewrite Hz in H.
    destruct (overflow_threshold * Z.abs y <=? Z.abs x); cbn [bind] in H;
      [congruence |].
    destruct x; discriminate H.
  - destruct (int_to_float x) eqn:E; cbn [bind] in H.
    + rewrite Hz in H. discriminate H.
    + injection H as <-. now apply (to_float_raise (NInt x)).
  - destruct (int_to_float y) eqn:E; cbn [bind] in H.
    + rewrite Hz in H. discriminate H.
    + injection H as <-. now apply (to_float_raise (NInt y)).
  - cbn [bind] in H. rewrite Hz in H. discriminate H.
Qed.

Lemma truediv_ok (instr sites q : pyval) :
  truediv instr sites = Ok q -> is_float q = true.
Proof.
  unfold truediv, arith.
  destruct (as_num instr) as [ni |]; [| discriminate].
  destruct (as_num sites) as [ns |]; [| discriminate].
  destruct ni as [x | x], ns as [y | y]; cbn [num_truediv]; intros H;
    repeat match type of H with
           | bind ?c _ = Ok _ => destruct c; cbn [bind] in H; [| discriminate H]
           end;
    try (destruct (num_is_zero _); [discriminate H |]);
    injection H as <-; reflexivity.
Qed.

Lemma percent_of_float (q : pyval) :
  is_float q = true ->
  exists f, (pct <- mul q (PInt 100) ;; round1 pct) = Ok (PFloat f).
Proof.
  destruct q as [ | | | f | | | ]; try discriminate. intros _.
  unfold mul, arith. cbn [as_num num_mul to_float bind].
  replace (int_to_float 100) with (Ok (float_of_Z 100)) by (vm_compute; reflexivity).
  cbn [bind round1]. eexists. reflexivity.
Qed.

Lemma coverage_raise (instr sites : pyval) (e : exn) :
  coverage instr sites = Raise e -> e = TypeError \/ e = OverflowError.
Proof.
  unfold coverage. intros H.
  destruct (gt_int sites 0) as [[ | ] |] eqn:G; cbn [bind] in H.
  - destruct (truediv instr sites) as [q |] eqn:Q; cbn [bind] in H.
    + destruct (percent_of_float q (truediv_ok _ _ _ Q)) as [f Hf].
      rewrite Hf in H. discriminate H.
    + injection H as <-. now apply (truediv_guarded instr sites).
  - discriminate H.
  - injection H as <-. left. unfold gt_int in G.
    destruct (as_num sites); congruence.
Qed.

Lemma coverage_ok (instr sites c : pyval) :
  coverage instr sites = Ok c -> zero_or_float c = true.
Proof.
  unfold coverage. intros H.
  destruct (gt_int sites 0) as [[ | ] |] eqn:G; cbn [bind] in H.
  - destruct (truediv instr sites) as [q |] eqn:Q; cbn [bind] in H; [| discriminate H].
    destruct (percent_of_float q (truediv_ok _ _ _ Q)) as [f Hf].
    rewrite Hf in H. injection H as <-. reflexivity.
  - injection H as <-. reflexivity.
  - discriminate H.
Qed.

(** *** The containers *)

Lemma containers_resolve (doc : pyval) :
  containers_ok doc = true ->
  exists sm sc, scan_summary doc = Ok (PDict sm)
                /\ get doc "score" (PDict []) = Ok (PDict sc).
Proof.
  destruct doc as [ | | | | | | d]; try discriminate.
  unfold containers_ok. intros H.
  repeat (apply andb_true_iff in H; destruct H as [H ?]).
  unfold scan_summary, get, sub_lookup, field in *.
  destruct (lookup "score" d) as [[ | | | | | | sc] |]; try discriminate;
    destruct (lookup "scan" d) as [[ | | | | | | scn] |]; try discriminate;
    cbn [bind sub_lookup lookup] in *;
    try (destruct (lookup "summary" scn) as [[ | | | | | | m] |]; try discriminate);
    eexists; eexists; split; reflexivity.
Qed.

Lemma containers_from_gets (doc summary section v w : pyval) :
  scan_summary doc = Ok summary -> get summary "sites_total" (PInt 0) = Ok v ->
  get doc "score" (PDict []) = Ok section -> get section "score" (PInt 0) = Ok w ->
  containers_ok doc = true.
Proof.
  unfold scan_summary. intros Hs Hv Hc Hw.
  destruct (get doc "scan" (PDict [])) as [scan |] eqn:Escan; [| discriminate Hs].
  cbn [bind] in Hs.
  apply get_ok_inv in Escan as [d [-> ->]].
  apply get_ok_inv in Hs as [scd [Hscd ->]].
  apply get_ok_inv in Hv as [sm [Hsm _]].
  apply get_ok_inv in Hc as [d' [Hd' ->]]. injection Hd' as <-.
  apply get_ok_inv in Hw as [sc [Hsc _]].
  unfold containers_ok. rewrite Hscd. cbn [sub_lookup].
  unfold field in *.
  destruct (lookup "scan" d) as [scan |]; [subst scan |];
    destruct (lookup "score" d) as [section |]; try subst section;
    destruct (lookup "summary" scd) as [m |]; try subst m; reflexivity.
Qed.

(** X7.  [compute_delta] raises nothing but [AttributeError], [TypeError]
    and [OverflowError]; in particular it never divides by zero. *)
Theorem compute_delta_never_divides_by_zero (base head : pyval) (e : exn) :
  compute_delta base head = Raise e ->
  e = AttributeError \/ e = TypeError \/ e = OverflowError.
Proof.
  unfold compute_delta. intros H.
  repeat match type of H with
         | bind (scan_summary ?x) _ = Raise _ =>
             let E := fresh "E" in
             destruct (scan_summary x) eqn:E; cbn [bind] in H;
             [| injection H as <-; apply scan_summary_raise in E; now left]
         | bind (get ?x ?k ?v) _ = Raise _ =>
             let E := fresh "E" in
             destruct (get x k v) eqn:E; cbn [bind] in H;
             [| injection H as <-; apply get_raise in E; now left]
         | bind (sub ?x ?y) _ = Raise _ =>
             let E := fresh "E" in
             destruct (sub x y) eqn:E; cbn [bind] in H;
             [| injection H as <-; apply sub_raise in E; tauto]
         | bind (round1 ?x) _ = Raise _ =>
             let E := fresh "E" in
             destruct (round1 x) eqn:E; cbn [bind] in H;
             [| injection H as <-; apply round1_raise in E; tauto]
         | bind (coverage ?x ?y) _ = Raise _ =>
             let E := fresh "E" in
             destruct (coverage x y) eqn:E; cbn [bind] in H;
             [| injection H as <-; apply coverage_raise in E; tauto]
         end.
  discriminate H.
Qed.

Lemma compute_delta_never_divides_by_zero_witness :
  compute_delta (flat 0 3 0 (PInt 0) "F") (PDict [("scan", PNone)])
  = Raise AttributeError
  /\ (AttributeError = AttributeError \/ AttributeError = TypeError
      \/ AttributeError = OverflowError).
Proof.
  split; [reflexivity |].
  apply (compute_delta_never_divides_by_zero
           (flat 0 3 0 (PInt 0) "F") (PDict [("scan", PNone)])).
  reflexivity.
Defined.

(** X8.  [compute_delta] raises [AttributeError] exactly when a container
    is not a dict: the document itself, or a [scan], [scan.summary] or
    [score] entry that is present, [null] included. *)
Theorem attribute_error_means_a_container_is_not_a_dict (base head : pyval) :
  compute_delta base head = Raise AttributeError
  <-> containers_ok base = false \/ containers_ok head = false.
Proof.
  split.
  - intros H.
    destruct (containers_ok base) eqn:Cb; [| now left].
    destruct (containers_ok head) eqn:Ch; [| now right].
    exfalso.
    destruct (containers_resolve base Cb) as [smb [scb [Hsb Hcb]]].
    destruct (containers_resolve head Ch) as [smh [sch [Hsh Hch]]].
    unfold compute_delta in H. rewrite Hsb, Hsh in H. cbn [bind] in H.
    rewrite Hcb, Hch in H. cbn [bind] in H. rewrite !get_dict in H. cbn [bind] in H.
    repeat match type of H with
           | bind (sub ?x ?y) _ = Raise _ =>
               let E := fresh "E" in
               destruct (sub x y) eqn:E; cbn [bind] in H;
               [| injection H as ->; apply sub_raise in E; destruct E; discriminate]
           | bind (round1 ?x) _ = Raise _ =>
               let E := fresh "E" in
               destruct (round1 x) eqn:E; cbn [bind] in H;
               [| injection H as ->; apply round1_raise in E; discriminate]
           | bind (coverage ?x ?y) _ = Raise _ =>
               let E := fresh "E" in
               destruct (coverage x y) eqn:E; cbn [bind] in H;
               [| injection H as ->; apply coverage_raise in E; destruct E; discriminate]
           end.
    discriminate H.
  - intros Hbad. unfold compute_delta.
    repeat match goal with
           | |- bind (scan_summary ?x) _ = Raise _ =>
               let E := fresh "E" in
               destruct (scan_summary x) eqn:E; cbn [bind];
               [| apply scan_summary_raise in E; now subst]
           | |- bind (get ?x ?k ?v) _ = Raise _ =>
               let E := fresh "E" in
               destruct (get x k v) eqn:E; cbn [bind];
               [| apply get_raise in E; now subst]
           end.
    exfalso.
    assert (containers_ok base = true) as Cb by (eapply containers_from_gets; eassumption).
    assert (containers_ok head = true) as Ch by (eapply containers_from_gets; eassumption).
    destruct Hbad; congruence.
Qed.

Lemma attribute_error_means_a_container_is_not_a_dict_witness :
  compute_delta (flat 1 1 0 (PInt 5) "F")
                (PDict [("scan", PDict [("summary", PNone)])])
  = Raise AttributeError.
Proof.
  apply (proj2 (attribute_error_means_a_container_is_not_a_dict
                  (flat 1 1 0 (PInt 5) "F")
                  (PDict [("scan", PDict [("summary", PNone)])]))).
  right. reflexivity.
Defined.

(** X9.  A record [compute_delta] returns holds numbers only: every base
    and head value of the counts and of the score is an int, a bool or a
    float, every delta is an int or a float, and a coverage is the int 0
    or a float.  A metric that is present with the value [null] or a
    string therefore makes the function raise. *)
Theorem returned_record_holds_numbers (base head : pyval) (d : DeltaRecord) :
  compute_delta base head = Ok d ->
  forallb is_number (count_values d ++ [m_base (score d); m_head (score d)]) = true
  /\ forallb int_or_float
       [m_delta (sites_total d); m_delta (instrumented d);
        m_delta (uninstrumented d); m_delta (score d)] = true
  /\ zero_or_float (p_base (coverage_pct d)) = true
  /\ zero_or_float (p_head (coverage_pct d)) = true
  /\ forallb is_number (metric_fields base ++ metric_fields head) = true.
Proof.
  intros H.
  destruct (compute_delta_arithmetic base head d H) as [A1 [A2 [A3 [A4 [A5 A6]]]]].
  destruct (compute_delta_resolution base head d H)
    as [R1 [R2 [R3 [R4 [R5 [R6 [R7 [R8 _]]]]]]]].
  apply sub_ok in A1 as [N1 [N2 [D1 _]]].
  apply sub_ok in A2 as [N3 [N4 [D2 _]]].
  apply sub_ok in A3 as [N5 [N6 [D3 _]]].
  destruct (sub (m_head (score d)) (m_base (score d))) as [raw |] eqn:E;
    [| discriminate A4].
  cbn [bind] in A4. apply sub_ok in E as [N7 [N8 [D4 _]]].
  apply (round1_ok raw _ D4) in A4 as [D5 _].
  apply coverage_ok in A5, A6.
  unfold count_values, metric_fields, count_fields. cbn [app forallb].
  rewrite <- R1, <- R2, <- R3, <- R4, <- R5, <- R6, <- R7, <- R8.
  rewrite N1, N2, N3, N4, N5, N6, N7, N8, D1, D2, D3, D5, A5, A6.
  repeat split; reflexivity.
Qed.

Lemma returned_record_holds_numbers_witness :
  exists d,
    compute_delta (flat 10 5 5 (dec 175 (-1)) "F") (flat 12 5 7 (PBool true) "F") = Ok d
    /\ is_number (m_head (score d)) = true
    /\ int_or_float (m_delta (score d)) = true.
Proof.
  destruct (compute_delta (flat 10 5 5 (dec 175 (-1)) "F") (flat 12 5 7 (PBool true) "F"))
    as [d |] eqn:E; [| discriminate E].
  exists d. split; [reflexivity |].
  destruct (returned_record_holds_numbers _ _ d E) as [N [D _]].
  cbn [count_values app forallb] in N, D.
  repeat (apply andb_true_iff in N; destruct N as [? N]).
  repeat (apply andb_true_iff in D; destruct D as [? D]).
  split; assumption.
Defined.

(** *** A document against itself *)

Lemma sub_self (v : pyval) :
  finite_number v = true -> plain_number v = true ->
  sub v v = Ok (PInt 0) \/ sub v v = Ok (PFloat (S754_zero false)).
Proof.
  destruct v as [ | b | z | f | | | ]; try discriminate; intros Hf Hp.
  - left. unfold sub, arith. cbn [as_num num_sub]. now rewrite Z.sub_diag.
  - left. unfold sub, arith. cbn [as_num num_sub]. now rewrite Z.sub_diag.
  - right. unfold sub, arith. cbn [as_num num_sub to_float bind].
    destruct f as [s | s | | s m e]; try discriminate Hf.
    + destruct s; reflexivity.
    + do 2 f_equal. cbn [SFsub]. now rewrite Z.sub_diag.
Qed.

Lemma zero_delta (v r : pyval) :
  finite_number v = true -> plain_number v = true -> sub v v = Ok r ->
  r = PInt 0 \/ r = PFloat (S754_zero false).
Proof.
  intros Hf Hp H. destruct (sub_self v Hf Hp) as [E | E]; rewrite E in H;
    injection H as <-; tauto.
Qed.

(** X10.  Comparing a document with itself gives zero deltas, equal
    coverages and no label: for a dictionary-shaped document whose metrics
    are finite numbers every delta equals 0, and a report rendered from the
    record carries neither label unless a printed grade or site field
    brings the word. *)
Theorem identical_documents_have_zero_deltas (doc : pyval) :
  well_shaped doc = true ->
  forallb finite_number (metric_fields doc) = true ->
  exists d,
    compute_delta doc doc = Ok d
    /\ forallb (fun v => eq v (PInt 0))
         [m_delta (sites_total d); m_delta (instrumented d);
          m_delta (uninstrumented d); m_delta (score d)] = true
    /\ p_head (coverage_pct d) = p_base (coverage_pct d)
    /\ score_icon_of (m_delta (score d)) = Ok ""
    /\ forall ns text w,
         word w -> render_markdown d ns = Ok text ->
         existsb (contains w) (printed_text d ns) = false ->
         contains w text = false.
Proof.
  intros W F.
  destruct (compute_delta_total doc doc W W) as [d H]. exists d.
  destruct (compute_delta_arithmetic doc doc d H) as [A1 [A2 [A3 [A4 [A5 A6]]]]].
  destruct (compute_delta_resolution doc doc d H)
    as [R1 [R2 [R3 [R4 [R5 [R6 [R7 [R8 _]]]]]]]].
  destruct (well_shaped_plain doc W) as [P1 [P2 [P3 P4]]].
  unfold metric_fields, count_fields in F. cbn [app forallb] in F.
  repeat (apply andb_true_iff in F; destruct F as [? F]).
  rewrite R1, R2 in A1. rewrite R3, R4 in A2. rewrite R5, R6 in A3.
  rewrite R7, R8 in A4.
  apply zero_delta in A1; [| assumption | assumption].
  apply zero_delta in A2; [| assumption | assumption].
  apply zero_delta in A3; [| assumption | assumption].
  assert (m_delta (score d) = PInt 0 \/ m_delta (score d) = PFloat (S754_zero false)) as A4'.
  { destruct (sub (score_field "score" (PInt 0) doc) (score_field "score" (PInt 0) doc))
      as [raw |] eqn:E; [| discriminate A4].
    cbn [bind] in A4. apply zero_delta in E; [| assumption | assumption].
    destruct E; subst raw; cbn [round1 float_round1] in A4; injection A4 as <-; tauto. }
  assert (score_icon_of (m_delta (score d)) = Ok "") as Icon
    by (destruct A4' as [-> | ->]; reflexivity).
  split; [exact H |]. split; [| split; [| split; [exact Icon |]]].
  - cbn [forallb].
    destruct A1 as [-> | ->], A2 as [-> | ->], A3 as [-> | ->], A4' as [-> | ->];
      reflexivity.
  - rewrite R1, R3 in A5. rewrite R2, R4 in A6. rewrite A5 in A6. now injection A6.
  - intros ns text w Hw Hrender Hfree.
    pose proof (computed_counts_free w doc doc d ns text Hw H Hrender Hfree) as Hall.
    destruct (report_occurrence w d ns text Hw Hrender Hall) as [icon [Hicon ->]].
    rewrite Icon in Hicon. injection Hicon as <-.
    destruct Hw as [-> | ->]; reflexivity.
Qed.

Lemma identical_documents_have_zero_deltas_witness :
  let doc := flat 10 5 5 (dec 175 (-1)) "F" in
  exists d,
    compute_delta doc doc = Ok d
    /\ m_delta (score d) = PFloat (S754_zero false)
    /\ m_delta (sites_total d) = PInt 0.
Proof.
  intros doc.
  destruct (identical_documents_have_zero_deltas doc eq_refl eq_refl)
    as [d [Hrun _]].
  exists d. split; [exact Hrun |].
  vm_compute in Hrun. injection Hrun as <-. split; reflexivity.
Defined.

End DeltaBeyond.

(** ** [render_markdown]: when it returns, when it cannot, what it always prints *)

Module RenderBeyond.
Import Py PrScoreDelta Reading Samples Shapes DeltaFacts MainFacts TextFacts DeltaBeyond.

Lemma modest_bound : 2 * 2 ^ 1000 < overflow_threshold.
Proof. vm_compute. reflexivity. Qed.

Lemma modest_int (v : pyval) (x : Z) :
  modest v = true -> as_num v = Some (NInt x) -> Z.abs x < 2 ^ 1000.
Proof.
  destruct v as [ | b | z | f | | | ]; try discriminate; cbn [modest as_num];
    intros H E; injection E as <-.
  - destruct b; vm_compute; reflexivity.
  - now apply Z.ltb_lt.
Qed.

Lemma int_formats (plus : bool) (z : Z) :
  Z.abs z < overflow_threshold -> exists t, format_f1 plus (PInt z) = Ok t.
Proof.
  intros H. unfold format_f1. cbn [as_num to_float]. unfold int_to_float.
  apply Z.ltb_lt in H. rewrite H. cbn [bind]. eexists. reflexivity.
Qed.

Lemma float_formats (plus : bool) (f : float) :
  format_f1 plus (PFloat f) = Ok (float_f1 plus f).
Proof. reflexivity. Qed.

Lemma modest_formats (plus : bool) (v : pyval) :
  modest v = true -> exists t, format_f1 plus v = Ok t.
Proof.
  intros M. pose proof modest_bound as B.
  destruct v as [ | b | z | f | | | ]; try discriminate M.
  - destruct b, plus; eexists; vm_compute; reflexivity.
  - apply int_formats. pose proof (modest_int (PInt z) z M eq_refl). lia.
  - eexists. apply float_formats.
Qed.

(** The rounded difference of two modest scores has a [.1f] presentation. *)
Lemma score_delta_formats (plus : bool) (a b r q : pyval) :
  modest a = true -> modest b = true -> sub a b = Ok r -> round1 r = Ok q ->
  exists t, format_f1 plus q = Ok t.
Proof.
  intros Ma Mb Hs Hr. pose proof modest_bound as B.
  destruct (is_float a || is_float b) eqn:Fl.
  - destruct (sub_ok _ _ _ Hs) as [_ [_ [_ [Hf _]]]]. specialize (Hf Fl).
    destruct r; try discriminate Hf. cbn [round1] in Hr. injection Hr as <-.
    eexists. apply float_formats.
  - assert (exists x y, as_num a = Some (NInt x) /\ as_num b = Some (NInt y))
      as [x [y [Ea Eb]]].
    { destruct a as [ | a | a | a | | | ]; try discriminate Ma;
        destruct b as [ | b | b | b | | | ]; try discriminate Mb;
        try discriminate Fl; eexists; eexists; split; reflexivity. }
    pose proof (modest_int a x Ma Ea). pose proof (modest_int b y Mb Eb).
    unfold sub, arith in Hs. rewrite Ea, Eb in Hs. cbn [num_sub] in Hs.
    injection Hs as <-. cbn [round1] in Hr. injection Hr as <-.
    apply int_formats. lia.
Qed.

Lemma number_kinds (v : pyval) :
  is_number v = true -> int_like v = negb (is_float v).
Proof. destruct v; try discriminate; reflexivity. Qed.

Lemma digit_room : 2 * overflow_threshold < digit_bound.
Proof. vm_compute. reflexivity. Qed.

(** The difference of two ints that convert to floats is convertible to
    text. *)
Lemma int_delta_convertible (a b r : pyval) :
  sub a b = Ok r -> is_float a || is_float b = false ->
  plain_number a = true -> plain_number b = true ->
  exists z, r = PInt z /\ convertible z = true.
Proof.
  intros Hs Fl Pa Pb. pose proof digit_room as Room.
  assert (exists x y, as_num a = Some (NInt x) /\ as_num b = Some (NInt y))
    as [x [y [Ea Eb]]].
  { destruct a as [ | a | a | a | | | ]; try discriminate Pa;
      destruct b as [ | b | b | b | | | ]; try discriminate Pb;
      try discriminate Fl; eexists; eexists; split; reflexivity. }
  pose proof (plain_int a x Pa Ea). pose proof (plain_int b y Pb Eb).
  unfold sub, arith in Hs. rewrite Ea, Eb in Hs. cbn [num_sub] in Hs.
  injection Hs as <-. exists (x - y). split; [reflexivity |].
  unfold convertible. apply Z.ltb_lt. lia.
Qed.

Lemma int_delta (a b r : pyval) :
  sub a b = Ok r -> is_float a || is_float b = false -> exists z, r = PInt z.
Proof.
  intros Hs Fl. destruct (sub_ok _ _ _ Hs) as [Na [Nb [_ [_ Hi]]]].
  apply orb_false_elim in Fl as [Fa Fb].
  rewrite (number_kinds _ Na), (number_kinds _ Nb), Fa, Fb in Hi.
  specialize (Hi eq_refl eq_refl).
  assert (int_or_float r = true) as Hr by now destruct (sub_ok _ _ _ Hs) as [_ [_ [? _]]].
  destruct r; try discriminate Hi; try discriminate Hr. now eexists.
Qed.

(** A count row needs an int delta that converts to text: [+d] rejects a
    float, and an int of more than 4300 digits. *)
Lemma count_row_ints (label : string) (m : Metric) :
  sub (m_head m) (m_base m) = Ok (m_delta m) ->
  is_float (m_head m) || is_float (m_base m) = false ->
  plain_number (m_head m) = true -> plain_number (m_base m) = true ->
  exists row, count_row label m = Ok row.
Proof.
  intros Hs Fl Ph Pb.
  destruct (int_delta_convertible _ _ _ Hs Fl Ph Pb) as [z [Hz Hc]].
  unfold count_row. rewrite Hz. cbn [format_plus_d]. rewrite Hc. cbn [bind].
  eexists. reflexivity.
Qed.

Lemma count_row_int_or_error (label : string) (m : Metric) :
  sub (m_head m) (m_base m) = Ok (m_delta m) ->
  is_float (m_head m) || is_float (m_base m) = false ->
  (exists row, count_row label m = Ok row) \/ count_row label m = Raise ValueError.
Proof.
  intros Hs Fl. destruct (int_delta _ _ _ Hs Fl) as [z Hz].
  unfold count_row. rewrite Hz. cbn [format_plus_d].
  destruct (convertible z); cbn [bind]; [left; eexists |]; tauto.
Qed.

Lemma count_row_float (label : string) (m : Metric) :
  sub (m_head m) (m_base m) = Ok (m_delta m) ->
  is_float (m_head m) || is_float (m_base m) = true ->
  count_row label m = Raise ValueError.
Proof.
  intros Hs Fl. destruct (sub_ok _ _ _ Hs) as [_ [_ [_ [Hf _]]]].
  specialize (Hf Fl). unfold count_row.
  destruct (m_delta m); try discriminate Hf. reflexivity.
Qed.

Lemma zero_or_float_formats (plus : bool) (v : pyval) :
  zero_or_float v = true -> exists t, format_f1 plus v = Ok t.
Proof.
  destruct v as [ | | [ | | ] | f | | | ]; try discriminate; intros _.
  - destruct plus; eexists; vm_compute; reflexivity.
  - eexists. apply float_formats.
Qed.

Lemma coverage_difference (a b : pyval) :
  zero_or_float a = true -> zero_or_float b = true ->
  exists r, sub a b = Ok r /\ zero_or_float r = true.
Proof.
  assert (int_to_float 0 = Ok (float_of_Z 0)) as Z0 by (vm_compute; reflexivity).
  destruct a as [ | | [ | | ] | f | | | ]; try discriminate;
    destruct b as [ | | [ | | ] | g | | | ]; try discriminate; intros _ _;
    unfold sub, arith; cbn [as_num num_sub to_float]; try rewrite Z0; cbn [bind];
    eexists; split; reflexivity.
Qed.

(** The cells of the score row of a computed record. *)
Lemma score_cells (base head : pyval) (d : DeltaRecord) :
  compute_delta base head = Ok d ->
  modest (m_base (score d)) = true -> modest (m_head (score d)) = true ->
  exists up down sb sh sd,
    gt_int (m_delta (score d)) 0 = Ok up
    /\ lt_int (m_delta (score d)) 0 = Ok down
    /\ format_f1 false (m_base (score d)) = Ok sb
    /\ format_f1 false (m_head (score d)) = Ok sh
    /\ format_f1 true (m_delta (score d)) = Ok sd.
Proof.
  intros H Mb Mh.
  destruct (compute_delta_arithmetic base head d H) as [_ [_ [_ [A4 _]]]].
  destruct (sub (m_head (score d)) (m_base (score d))) as [raw |] eqn:E;
    [| discriminate A4].
  cbn [bind] in A4.
  destruct (sub_ok _ _ _ E) as [_ [_ [D4 _]]].
  destruct (round1_ok raw _ D4 A4) as [D5 _].
  destruct (number_compares _ (int_or_float_number _ D5)) as [up [down [Hup Hdown]]].
  destruct (modest_formats false _ Mb) as [sb Hsb].
  destruct (modest_formats false _ Mh) as [sh Hsh].
  destruct (score_delta_formats true _ _ _ _ Mh Mb E A4) as [sd Hsd].
  exists up, down, sb, sh, sd. tauto.
Qed.

Ltac score_rows H Mb Mh :=
  let up := fresh "up" in
  let down := fresh "down" in
  let Hup := fresh "Hup" in
  let Hdown := fresh "Hdown" in
  let Hsb := fresh "Hsb" in
  let Hsh := fresh "Hsh" in
  let Hsd := fresh "Hsd" in
  destruct (score_cells _ _ _ H Mb Mh)
    as [up [down [? [? [? [Hup [Hdown [Hsb [Hsh Hsd]]]]]]]]];
  unfold render_markdown; rewrite Hup; cbn [bind];
  destruct up; [| rewrite Hdown]; cbn [bind];
  rewrite Hsb, Hsh, Hsd; cbn [bind].

Lemma render_total (base head : pyval) (d : DeltaRecord) (ns : list NewSite) :
  compute_delta base head = Ok d ->
  modest (m_base (score d)) = true -> modest (m_head (score d)) = true ->
  existsb is_float (count_values d) = false ->
  forallb plain_number (count_values d) = true ->
  exists text, render_markdown d ns = Ok text.
Proof.
  intros H Mb Mh Fl Pl.
  unfold count_values in Pl. cbn [forallb] in Pl.
  repeat (apply andb_true_iff in Pl; destruct Pl as [? Pl]).
  destruct (compute_delta_arithmetic base head d H) as [A1 [A2 [A3 [_ [A5 A6]]]]].
  apply coverage_ok in A5, A6.
  destruct (coverage_difference _ _ A6 A5) as [cd [Hcd Zcd]].
  destruct (zero_or_float_formats false _ A5) as [t1 Ht1].
  destruct (zero_or_float_formats false _ A6) as [t2 Ht2].
  destruct (zero_or_float_formats true _ Zcd) as [t3 Ht3].
  unfold count_values in Fl. cbn [existsb] in Fl.
  repeat (apply orb_false_elim in Fl; destruct Fl as [? Fl]).
  assert (is_float (m_head (sites_total d)) || is_float (m_base (sites_total d)) = false)
    as F1 by (apply orb_false_intro; assumption).
  assert (is_float (m_head (instrumented d)) || is_float (m_base (instrumented d)) = false)
    as F2 by (apply orb_false_intro; assumption).
  assert (is_float (m_head (uninstrumented d)) || is_float (m_base (uninstrumented d)) = false)
    as F3 by (apply orb_false_intro; assumption).
  destruct (count_row_ints "| Call Sites | " _ A1 F1) as [r1 Hr1]; try assumption.
  destruct (count_row_ints "| Instrumented | " _ A2 F2) as [r2 Hr2]; try assumption.
  destruct (count_row_ints "| Uninstrumented | " _ A3 F3) as [r3 Hr3]; try assumption.
  score_rows H Mb Mh;
    rewrite Hr1, Hr2, Hr3; cbn [bind]; rewrite Hcd; cbn [bind];
    rewrite Ht1, Ht2, Ht3; cbn [bind]; eexists; reflexivity.
Qed.

Lemma render_float_count (base head : pyval) (d : DeltaRecord) (ns : list NewSite) :
  compute_delta base head = Ok d ->
  modest (m_base (score d)) = true -> modest (m_head (score d)) = true ->
  existsb is_float (count_values d) = true ->
  render_markdown d ns = Raise ValueError.
Proof.
  intros H Mb Mh Fl.
  destruct (compute_delta_arithmetic base head d H) as [A1 [A2 [A3 _]]].
  unfold count_values in Fl. cbn [existsb] in Fl.
  destruct (is_float (m_head (sites_total d)) || is_float (m_base (sites_total d))) eqn:F1.
  { pose proof (count_row_float "| Call Sites | " _ A1 F1) as Hr1.
    score_rows H Mb Mh; rewrite Hr1; reflexivity. }
  destruct (count_row_int_or_error "| Call Sites | " _ A1 F1) as [[r1 Hr1] | Hr1];
    [| score_rows H Mb Mh; rewrite Hr1; reflexivity].
  destruct (is_float (m_head (instrumented d)) || is_float (m_base (instrumented d))) eqn:F2.
  { pose proof (count_row_float "| Instrumented | " _ A2 F2) as Hr2.
    score_rows H Mb Mh; rewrite Hr1; cbn [bind]; rewrite Hr2; reflexivity. }
  destruct (count_row_int_or_error "| Instrumented | " _ A2 F2) as [[r2 Hr2] | Hr2];
    [| score_rows H Mb Mh; rewrite Hr1; cbn [bind]; rewrite Hr2; reflexivity].
  destruct (is_float (m_head (uninstrumented d)) || is_float (m_base (uninstrumented d))) eqn:F3.
  { pose proof (count_row_float "| Uninstrumented | " _ A3 F3) as Hr3.
    score_rows H Mb Mh; rewrite Hr1, Hr2; cbn [bind]; rewrite Hr3; reflexivity. }
  exfalso.
  apply orb_false_elim in F1 as [F1 F1'].
  apply orb_false_elim in F2 as [F2 F2'].
  apply orb_false_elim in F3 as [F3 F3'].
  rewrite F1, F1', F2, F2', F3, F3' in Fl. discriminate Fl.
Qed.

(** *** Substrings of a joined text *)

Lemma concat_cons (sep x : string) (l : list string) :
  l <> [] -> String.concat sep (x :: l) = x ++ sep ++ String.concat sep l.
Proof. intros H. destruct l; [now contradiction H | reflexivity]. Qed.

Lemma concat_app (sep : string) (l t : list string) :
  l <> [] -> t <> [] ->
  String.concat sep (l ++ t) = String.concat sep l ++ sep ++ String.concat sep t.
Proof.
  induction l as [|x l IH]; intros Hl Ht; [now contradiction Hl |].
  destruct l as [|y l].
  - cbn [app]. now rewrite concat_cons.
  - change ((x :: y :: l) ++ t)%list with (x :: ((y :: l) ++ t))%list.
    rewrite concat_cons by discriminate.
    rewrite IH by (discriminate || exact Ht).
    rewrite (concat_cons sep x (y :: l)) by discriminate.
    now rewrite !append_assoc.
Qed.

Lemma prefix_app_l (w s b : string) : prefix w s = true -> prefix w (s ++ b) = true.
Proof.
  revert s. induction w as [|c w IH]; intros s H; [now destruct (s ++ b) |].
  destruct s as [|c' s]; [discriminate H |].
  cbn [prefix append] in *. destruct (ascii_dec c c'); [now apply IH | discriminate H].
Qed.

Lemma prefix_refl (w : string) : prefix w w = true.
Proof.
  induction w as [|c w IH]; [reflexivity |].
  cbn [prefix]. destruct (ascii_dec c c); [exact IH | congruence].
Qed.

Lemma contains_prefix (w s : string) : prefix w s = true -> contains w s = true.
Proof. intros H. destruct s; cbn [contains]; now rewrite H. Qed.

Lemma contains_app_r (w a b : string) :
  contains w b = true -> contains w (a ++ b) = true.
Proof.
  intros H. induction a as [|c a IH]; [exact H |].
  cbn [append contains]. rewrite IH. apply orb_true_r.
Qed.

Lemma contains_app_l (w a b : string) :
  contains w a = true -> contains w (a ++ b) = true.
Proof.
  induction a as [|c a IH]; intros H.
  - cbn [contains] in H. rewrite orb_false_r in H.
    apply contains_prefix. now apply (prefix_app_l w "" b).
  - cbn [contains] in H. apply orb_true_iff in H as [H | H].
    + apply contains_prefix. now apply (prefix_app_l w (String c a) b).
    + cbn [append contains]. rewrite (IH H). apply orb_true_r.
Qed.

(** Int counts and modest scores in the documents give a record that
    [render_markdown] accepts. *)
Lemma plain_counts (base head : pyval) (d : DeltaRecord) :
  well_shaped base = true -> well_shaped head = true ->
  compute_delta base head = Ok d ->
  forallb plain_number (count_values d ++ [m_base (score d); m_head (score d)]) = true.
Proof.
  intros Wb Wh H.
  destruct (compute_delta_resolution base head d H)
    as [R1 [R2 [R3 [R4 [R5 [R6 [R7 [R8 _]]]]]]]].
  destruct (well_shaped_plain base Wb) as [B1 [B2 [B3 B4]]].
  destruct (well_shaped_plain head Wh) as [H1 [H2 [H3 H4]]].
  unfold count_values. cbn [app forallb].
  rewrite R1, R2, R3, R4, R5, R6, R7, R8, B1, B2, B3, B4, H1, H2, H3, H4.
  reflexivity.
Qed.

Lemma render_integer_counts (base head : pyval) (d : DeltaRecord) (ns : list NewSite) :
  well_shaped base = true -> well_shaped head = true ->
  compute_delta base head = Ok d ->
  forallb int_like (count_fields base ++ count_fields head) = true ->
  modest (score_field "score" (PInt 0) base) = true ->
  modest (score_field "score" (PInt 0) head) = true ->
  exists text, render_markdown d ns = Ok text.
Proof.
  intros Wb Wh H Ints Mb Mh.
  pose proof (plain_counts base head d Wb Wh H) as Pl.
  rewrite forallb_app in Pl. apply andb_true_iff in Pl as [Pl _].
  destruct (compute_delta_resolution base head d H)
    as [R1 [R2 [R3 [R4 [R5 [R6 [R7 [R8 _]]]]]]]].
  unfold count_fields in Ints. cbn [app forallb] in Ints.
  repeat (apply andb_true_iff in Ints; destruct Ints as [? Ints]).
  rewrite <- R7 in Mb. rewrite <- R8 in Mh.
  apply (render_total base head d ns H Mb Mh); [| exact Pl].
  unfold count_values. rewrite R1, R2, R3, R4, R5, R6. cbn [existsb].
  repeat match goal with
         | I : int_like ?v = true |- context [is_float ?v] =>
             replace (is_float v) with false
               by (destruct v; try discriminate I; reflexivity)
         end.
  reflexivity.
Qed.

(** X11.  On dictionary-shaped documents whose counts are ints (or
    missing) and whose scores are floats or ints below [2^1000],
    [compute_delta] followed by [render_markdown] always returns a text,
    whatever new sites are passed. *)
Theorem report_is_rendered_for_integer_counts
    (base head : pyval) (ns : list NewSite) :
  well_shaped base = true -> well_shaped head = true ->
  forallb int_like (count_fields base ++ count_fields head) = true ->
  modest (score_field "score" (PInt 0) base) = true ->
  modest (score_field "score" (PInt 0) head) = true ->
  exists d text,
    compute_delta base head = Ok d /\ render_markdown d ns = Ok text.
Proof.
  intros Wb Wh Ints Mb Mh.
  destruct (compute_delta_total base head Wb Wh) as [d H]. exists d.
  destruct (render_integer_counts base head d ns Wb Wh H Ints Mb Mh) as [text Ht].
  now exists text.
Qed.

Lemma report_is_rendered_for_integer_counts_witness :
  let base := PDict [] in
  let head := flat 12 5 7 (PInt 20) "F" in
  exists d text,
    compute_delta base head = Ok d /\ render_markdown d [] = Ok text.
Proof.
  intros base head.
  apply (report_is_rendered_for_integer_counts base head []); reflexivity.
Defined.

(** *** What [json.dumps] accepts *)

Lemma dumpable_lookup (d : assoc) (k : string) (v : pyval) :
  forallb (fun kv => dumpable (snd kv)) d = true -> lookup k d = Some v ->
  dumpable v = true.
Proof.
  induction d as [|[k' v'] d IH]; cbn [forallb lookup snd]; [discriminate |].
  intros H. apply andb_true_iff in H as [Hv Hd].
  destruct (String.eqb k k'); [intros E; now injection E as <- | now apply IH].
Qed.

Lemma dumpable_sub_lookup (v r : pyval) (k : string) :
  dumpable v = true -> sub_lookup k v = Some r -> dumpable r = true.
Proof.
  destruct v as [ | | | | | | d]; try discriminate.
  cbn [dumpable sub_lookup]. apply dumpable_lookup.
Qed.

Lemma dumpable_get (v : pyval) (k : string) (default r : pyval) :
  get v k default = Ok r -> dumpable v = true -> dumpable default = true ->
  dumpable r = true.
Proof.
  destruct v as [ | | | | | | d]; try discriminate. cbn [get dumpable].
  destruct (lookup k d) eqn:E; intros H Hv Hd; injection H as <-;
    [eapply dumpable_lookup; eassumption | exact Hd].
Qed.

Lemma dumpable_summary_field (name : string) (doc : pyval) :
  dumpable doc = true -> dumpable (summary_field name doc) = true.
Proof.
  intros H. unfold summary_field.
  destruct (sub_lookup "scan" doc) as [scan |] eqn:Escan; [| reflexivity].
  pose proof (dumpable_sub_lookup _ _ _ H Escan) as Hscan.
  destruct (sub_lookup "summary" scan) as [summary |] eqn:Esum.
  - pose proof (dumpable_sub_lookup _ _ _ Hscan Esum) as Hsum.
    destruct (sub_lookup name summary) eqn:E; [| reflexivity].
    now apply (dumpable_sub_lookup _ _ _ Hsum E).
  - destruct (sub_lookup name scan) eqn:E; [| reflexivity].
    now apply (dumpable_sub_lookup _ _ _ Hscan E).
Qed.

Lemma dumpable_score_field (name : string) (default doc : pyval) :
  dumpable doc = true -> dumpable default = true ->
  dumpable (score_field name default doc) = true.
Proof.
  intros H Hd. unfold score_field.
  destruct (sub_lookup "score" doc) as [section |] eqn:Esec; [| exact Hd].
  pose proof (dumpable_sub_lookup _ _ _ H Esec) as Hsec.
  destruct (sub_lookup name section) eqn:E; [| exact Hd].
  now apply (dumpable_sub_lookup _ _ _ Hsec E).
Qed.

Lemma delta_dumpable (a b r : pyval) :
  sub a b = Ok r -> plain_number a = true -> plain_number b = true ->
  dumpable r = true.
Proof.
  intros Hs Pa Pb. destruct (is_float a || is_float b) eqn:Fl.
  - destruct (sub_ok _ _ _ Hs) as [_ [_ [_ [Hf _]]]]. specialize (Hf Fl).
    now destruct r.
  - destruct (int_delta_convertible _ _ _ Hs Fl Pa Pb) as [z [-> Hz]]. exact Hz.
Qed.

Lemma round1_dumpable (v r : pyval) :
  round1 v = Ok r -> int_or_float v = true -> dumpable v = true -> dumpable r = true.
Proof.
  destruct v; try discriminate; cbn [round1]; intros H _ Hv; now injection H as <-.
Qed.

Lemma zero_or_float_dumpable (v : pyval) : zero_or_float v = true -> dumpable v = true.
Proof. destruct v as [ | | [ | | ] | | | | ]; try discriminate; reflexivity. Qed.

Lemma site_list_dumpable (doc v : pyval) :
  site_list doc = Ok v -> dumpable doc = true -> dumpable v = true.
Proof.
  unfold site_list. intros H Hdoc.
  destruct (get doc "scan" (PDict [])) as [scan |] eqn:Escan; [| discriminate H].
  cbn [bind] in H.
  destruct (get doc "sites" (PList [])) as [fallback |] eqn:Efall; [| discriminate H].
  cbn [bind] in H.
  apply (dumpable_get _ _ _ _ H).
  - now apply (dumpable_get _ _ _ _ Escan).
  - now apply (dumpable_get _ _ _ _ Efall).
Qed.

Lemma iter_dumpable (v : pyval) (items : list pyval) :
  iter v = Ok items -> dumpable v = true -> forallb dumpable items = true.
Proof.
  destruct v as [ | | | | s | l | d]; try discriminate; cbn [iter]; intros H Hv;
    injection H as <-.
  - apply forallb_forall. intros x Hx. apply in_map_iff in Hx as [c [<- _]]. reflexivity.
  - exact Hv.
  - apply forallb_forall. intros x Hx. apply in_map_iff in Hx as [c [<- _]]. reflexivity.
Qed.

Lemma new_site_dumpable (site : pyval) (entry : NewSite) :
  new_site site = Ok entry -> dumpable site = true ->
  forallb dumpable (site_values entry) = true.
Proof.
  unfold new_site. intros H Hs. bind_inv H. injection H as <-.
  cbn [site_values file line call provider forallb dumpable].
  repeat match goal with
         | E : get site _ _ = Ok ?a |- context [dumpable ?a] =>
             rewrite (dumpable_get _ _ _ _ E Hs eq_refl)
         end.
  reflexivity.
Qed.

Lemma head_loop_dumpable (keys : set string) (sites : list pyval) :
  forall acc out,
    head_loop keys sites acc = Ok out ->
    forallb dumpable sites = true ->
    forallb dumpable (flat_map site_values acc) = true ->
    forallb dumpable (flat_map site_values out) = true.
Proof.
  induction sites as [|site rest IH]; intros acc out H Hs Hacc; cbn [head_loop] in H.
  - apply Ok_inj in H. now subst out.
  - cbn [forallb] in Hs. apply andb_true_iff in Hs as [Hsite Hrest].
    destruct (get site "instrumented" (PBool false)) as [flag |]; [| discriminate H].
    cbn [bind] in H.
    destruct (negb (truthy flag)); [| now apply (IH acc out H)].
    destruct (site_key site) as [key |]; [| discriminate H]. cbn [bind] in H.
    destruct (negb (set_mem string_dec key keys)); [| now apply (IH acc out H)].
    destruct (new_site site) as [entry |] eqn:E; [| discriminate H]. cbn [bind] in H.
    apply (IH _ out H Hrest).
    rewrite flat_map_app, forallb_app, Hacc. cbn [flat_map andb].
    rewrite app_nil_r. now apply (new_site_dumpable site).
Qed.

(** The entries of the new sites hold values of the head document. *)
Lemma found_dumpable (base head : pyval) (found : list NewSite) :
  find_new_uninstrumented base head = Ok found -> dumpable head = true ->
  forallb dumpable (flat_map site_values found) = true.
Proof.
  unfold find_new_uninstrumented. intros H Hhead.
  destruct (site_list base) as [bv |]; [| discriminate H]. cbn [bind] in H.
  destruct (iter bv) as [bl |]; [| discriminate H]. cbn [bind] in H.
  destruct (base_loop bl (empty_set string)) as [keys |]; [| discriminate H].
  cbn [bind] in H.
  destruct (site_list head) as [hv |] eqn:Ehv; [| discriminate H]. cbn [bind] in H.
  destruct (iter hv) as [hl |] eqn:Ehl; [| discriminate H]. cbn [bind] in H.
  destruct (head_loop keys hl []) as [head_new |] eqn:Eloop; [| discriminate H].
  cbn [bind] in H. apply Ok_inj in H. subst found.
  assert (forallb dumpable (flat_map site_values head_new) = true) as Hall.
  { apply (head_loop_dumpable keys hl [] head_new Eloop); [| reflexivity].
    apply (iter_dumpable hv hl Ehl). now apply (site_list_dumpable head). }
  apply forallb_forall. intros v Hv.
  apply in_flat_map in Hv as [site [Hsite Hv]].
  rewrite forallb_forall in Hall. apply Hall.
  apply in_flat_map. exists site. split; [| exact Hv].
  now apply (SitesFacts.in_firstn 10).
Qed.

Lemma modest_plain (v : pyval) : modest v = true -> plain_number v = true.
Proof.
  destruct v as [ | | z | | | | ]; try discriminate; try reflexivity.
  cbn [modest plain_number]. intros H. apply Z.ltb_lt in H. apply Z.ltb_lt.
  pose proof modest_bound. lia.
Qed.

(** When the documents hold convertible ints only, as whatever
    [json.load] returns does, and the counts and scores convert to floats,
    [json.dumps] accepts the report. *)
Lemma report_dumpable (base head : pyval) (d : DeltaRecord) (found : list NewSite)
    (neg : bool) :
  compute_delta base head = Ok d ->
  find_new_uninstrumented base head = Ok found ->
  dumpable base = true -> dumpable head = true ->
  forallb plain_number (count_values d ++ [m_base (score d); m_head (score d)]) = true ->
  json_dumps {| r_delta := d; new_uninstrumented_sites := found; regressed := neg |}
  = Ok (JsonText {| r_delta := d; new_uninstrumented_sites := found;
                    regressed := neg |}).
Proof.
  intros H Hfound Db Dh Pl.
  destruct (compute_delta_arithmetic base head d H) as [A1 [A2 [A3 [A4 [A5 A6]]]]].
  destruct (compute_delta_resolution base head d H)
    as [R1 [R2 [R3 [R4 [R5 [R6 [R7 [R8 [R9 R10]]]]]]]]].
  unfold count_values in Pl. cbn [app forallb] in Pl.
  repeat (apply andb_true_iff in Pl; destruct Pl as [? Pl]).
  apply delta_dumpable in A1; [| assumption | assumption].
  apply delta_dumpable in A2; [| assumption | assumption].
  apply delta_dumpable in A3; [| assumption | assumption].
  assert (dumpable (m_delta (score d)) = true) as A4'.
  { destruct (sub (m_head (score d)) (m_base (score d))) as [raw |] eqn:E;
      [| discriminate A4].
    cbn [bind] in A4. apply (round1_dumpable raw _ A4).
    - now destruct (sub_ok _ _ _ E) as [_ [_ [? _]]].
    - now apply (delta_dumpable _ _ _ E). }
  apply coverage_ok, zero_or_float_dumpable in A5.
  apply coverage_ok, zero_or_float_dumpable in A6.
  pose proof (found_dumpable base head found Hfound Dh) as Hsites.
  unfold json_dumps.
  replace (forallb dumpable _) with true; [reflexivity |]. symmetry.
  unfold report_values, metric_values, pair_values.
  cbn [r_delta new_uninstrumented_sites regressed].
  rewrite !forallb_app. cbn [forallb].
  rewrite A1, A2, A3, A4', A5, A6, Hsites.
  rewrite R1, R2, R3, R4, R5, R6, R7, R8, R9, R10.
  rewrite !dumpable_summary_field, !dumpable_score_field by (assumption || reflexivity).
  reflexivity.
Qed.

(** X12.  A count given as a float (such as [10.0]) is accepted by
    [compute_delta] and by JSON mode but not by the Markdown report: with
    scores that are floats or ints below [2^1000], the [+d] format of a
    count delta raises [ValueError], so a Markdown run ends with that
    exception and prints nothing.  The same inputs with [--json] produce
    the report, when the counts convert to floats and the documents are
    moderate: convertible ints only, as in whatever [json.load] returns,
    and a nesting of at most 100. *)
Theorem float_count_breaks_the_markdown_report
    (base head : pyval) (d : DeltaRecord) :
  compute_delta base head = Ok d ->
  modest (m_base (score d)) = true -> modest (m_head (score d)) = true ->
  existsb is_float (count_values d) = true ->
  (forall ns, render_markdown d ns = Raise ValueError)
  /\ forall args fs found,
       fs (base_json args) = Some (Json base) ->
       fs (head_json args) = Some (Json head) ->
       find_new_uninstrumented base head = Ok found ->
       (json_output args = false ->
        main args fs = {| effects := []; final := Uncaught ValueError |})
       /\ (json_output args = true ->
           moderate base = true -> moderate head = true ->
           forallb plain_number (count_values d) = true ->
           exists neg,
             effects (main args fs)
             = [emit args (JsonText {| r_delta := d;
                                       new_uninstrumented_sites := found;
                                       regressed := neg |})]).
Proof.
  intros H Mb Mh Fl.
  assert (forall ns, render_markdown d ns = Raise ValueError) as Hrender
    by (intros ns; now apply (render_float_count base head)).
  split; [exact Hrender |].
  intros args fs found Lb Lh Hfound.
  rewrite (main_loaded args fs base head Lb Lh).
  unfold build_result. rewrite H, Hfound. cbn [bind].
  split; intros J; rewrite J.
  - now rewrite Hrender.
  - intros Db Dh Pl.
    apply andb_true_iff in Db as [Db _]. apply andb_true_iff in Dh as [Dh _].
    destruct (score_cells base head d H Mb Mh) as [_ [neg [_ [_ [_ [_ [Hneg _]]]]]]].
    rewrite Hneg. cbn [bind]. exists neg.
    rewrite (report_dumpable base head d found neg H Hfound Db Dh).
    + cbn [bind].
      destruct (fail_on_regression args); [rewrite Hneg; destruct neg |]; reflexivity.
    + rewrite forallb_app, Pl. cbn [forallb].
      now rewrite (modest_plain _ Mb), (modest_plain _ Mh).
Qed.

Lemma float_count_breaks_the_markdown_report_witness :
  let base := flat 10 5 5 (dec 175 (-1)) "F" in
  let head := PDict [("scan", PDict [("sites_total", dec 100 (-1))]);
                     ("score", PDict [("score", dec 175 (-1))])] in
  let fs := world (Some (Json base)) (Some (Json head)) in
  exists d,
    compute_delta base head = Ok d
    /\ render_markdown d [] = Raise ValueError
    /\ final (main (cli false false) fs) = Uncaught ValueError
    /\ exists neg,
         effects (main (cli true false) fs)
         = [Print (JsonText {| r_delta := d; new_uninstrumented_sites := [];
                               regressed := neg |})].
Proof.
  intros base head fs.
  destruct (compute_delta base head) as [d |] eqn:E; [| discriminate E].
  exists d. split; [reflexivity |].
  assert (modest (m_base (score d)) = true /\ modest (m_head (score d)) = true
          /\ existsb is_float (count_values d) = true
          /\ forallb plain_number (count_values d) = true) as [Mb [Mh [Fl Pl]]]
    by (vm_compute in E; injection E as <-; repeat split; reflexivity).
  destruct (float_count_breaks_the_markdown_report base head d E Mb Mh Fl)
    as [Hrender Hmain].
  split; [apply Hrender |].
  split.
  - destruct (Hmain (cli false false) fs [] eq_refl eq_refl eq_refl) as [Hmd _].
    now rewrite (Hmd eq_refl).
  - destruct (Hmain (cli true false) fs [] eq_refl eq_refl eq_refl) as [_ Hjson].
    exact (Hjson eq_refl eq_refl eq_refl Pl).
Defined.

(** X13.  Every report has the same frame: it starts with the title, the
    table header and the opening of the score row, and ends with the rule
    and the attribution line that links the methodology page. *)
Theorem report_has_a_fixed_frame
    (d : DeltaRecord) (ns : list NewSite) (text : string) :
  render_markdown d ns = Ok text ->
  (exists body, text = report_head ++ body ++ report_foot)
  /\ contains "| Metric |" text = true
  /\ contains "| **Score** |" text = true
  /\ contains "methodology.html" text = true.
Proof.
  intros H.
  assert (exists body, text = report_head ++ body ++ report_foot) as [body ->].
  { unfold render_markdown in H. cbv zeta in H. bind_inv H.
    apply Ok_inj in H. subst text.
    rewrite concat_app by (cbn [app]; discriminate).
    eexists.
    cbn [app String.concat append fstring frag_text newline report_head report_foot].
    reflexivity. }
  split; [now exists body |].
  split; [| split].
  - apply contains_app_l. vm_compute. reflexivity.
  - apply contains_app_l. vm_compute. reflexivity.
  - do 2 apply contains_app_r. vm_compute. reflexivity.
Qed.

Lemma report_has_a_fixed_frame_witness :
  exists d text,
    compute_delta (PDict []) (PDict []) = Ok d
    /\ render_markdown d [] = Ok text
    /\ contains "methodology.html" text = true.
Proof.
  destruct (compute_delta (PDict []) (PDict [])) as [d |] eqn:E; [| discriminate E].
  destruct (render_markdown d []) as [text |] eqn:R;
    [| vm_compute in E; injection E as <-; discriminate R].
  exists d, text. split; [reflexivity |]. split; [exact R |].
  now destruct (report_has_a_fixed_frame d [] text R) as [_ [_ [_ Hm]]].
Defined.

(** X14.  The new sites only add their block: the table is the one of the
    report without sites, and a non-empty list inserts, between the table
    and the footer, the heading, one row per site in the order of the list
    and the fix hint. *)
Theorem new_sites_only_add_their_block
    (d : DeltaRecord) (ns : list NewSite) (text : string) :
  render_markdown d ns = Ok text ->
  exists table,
    render_markdown d [] = Ok (table ++ report_foot)
    /\ (ns = [] -> text = table ++ report_foot)
    /\ (ns <> [] ->
        text = table ++ sites_head ++ String.concat newline (map site_row ns)
               ++ sites_foot ++ report_foot).
Proof.
  intros H. unfold render_markdown in *. cbv zeta in *. bind_inv H.
  apply Ok_inj in H. subst text.
  repeat (cbn [bind];
          match goal with
          | E : ?c = Ok _ |- context [bind ?c _] => rewrite E
          end).
  cbn [bind]. eexists. split; [| split].
  - cbn [new_sites_block]. rewrite app_nil_r.
    rewrite concat_app by (cbn [app]; discriminate). reflexivity.
  - intros ->. cbn [new_sites_block]. rewrite app_nil_r.
    rewrite concat_app by (cbn [app]; discriminate). reflexivity.
  - intros Hns. destruct ns as [|site ns]; [now contradiction Hns |].
    cbn [new_sites_block].
    rewrite concat_app by (cbn [app map]; discriminate).
    rewrite (concat_app newline _ (_ ++ _)) by (cbn [app map]; discriminate).
    rewrite (concat_app newline [_; _; _; _; _]) by (cbn [app map]; discriminate).
    rewrite (concat_app newline (map _ _)) by (cbn [app map]; discriminate).
    rewrite !append_assoc. reflexivity.
Qed.

Lemma new_sites_only_add_their_block_witness :
  let s := {| file := PStr "new.py"; line := "10";
              call := PStr "client.create"; provider := PStr "openai" |} in
  exists d text table,
    compute_delta (PDict []) (PDict []) = Ok d
    /\ render_markdown d [s] = Ok text
    /\ text = table ++ sites_head ++ site_row s ++ sites_foot ++ report_foot.
Proof.
  intros s.
  destruct (compute_delta (PDict []) (PDict [])) as [d |] eqn:E; [| discriminate E].
  destruct (render_markdown d [s]) as [text |] eqn:R;
    [| vm_compute in E; injection E as <-; discriminate R].
  destruct (new_sites_only_add_their_block d [s] text R) as [table [_ [_ Hblock]]].
  exists d, text, table. split; [reflexivity |]. split; [exact R |].
  apply Hblock. discriminate.
Defined.

End RenderBeyond.

(** ** [main] and [format_delta_icon] *)

Module MainBeyond.
Import Py PrScoreDelta Reading Samples Shapes SitesFacts DeltaFacts MainFacts TextFacts.
Import DeltaBeyond RenderBeyond.

(** The score delta of a computed record compares with 0. *)
Lemma score_delta_compares (base head : pyval) (d : DeltaRecord) :
  compute_delta base head = Ok d ->
  exists neg, lt_int (m_delta (score d)) 0 = Ok neg.
Proof.
  intros H.
  destruct (compute_delta_arithmetic base head d H) as [_ [_ [_ [A4 _]]]].
  destruct (sub (m_head (score d)) (m_base (score d))) as [raw |]; [| discriminate A4].
  cbn [bind] in A4. now apply round1_is_number in A4.
Qed.

Lemma build_result_flag (flag : bool) (args : Args) (base head : pyval) :
  build_result (with_flag flag args) base head = build_result args base head.
Proof. reflexivity. Qed.

Lemma emit_flag (flag : bool) (args : Args) (r : rendered) :
  emit (with_flag flag args) r = emit args r.
Proof. reflexivity. Qed.

(** X15.  Once both inputs are read, a run on well-formed documents
    always completes: when [json.load] returns, for both files,
    dictionary-shaped documents that are moderate (convertible ints, as
    those of a loaded document are, and a nesting of at most 100) and
    whose site lists are lists of dicts, and,
    for the Markdown report, int counts and scores that are floats or ints
    below [2^1000], [main] emits exactly one result, to the file when
    [--output] names one and to standard output otherwise, and ends
    normally or with exit code 1, never with an exception.  Writing the
    file and printing are taken to succeed, as everywhere in [main]. *)
Theorem main_completes_on_well_formed_input
    (args : Args) (fs : filesystem) (base head : pyval) (bs hs : list assoc) :
  fs (base_json args) = Some (Json base) ->
  fs (head_json args) = Some (Json head) ->
  well_shaped base = true -> well_shaped head = true ->
  has_sites base bs -> has_sites head hs ->
  moderate base = true -> moderate head = true ->
  (json_output args = false ->
   forallb int_like (count_fields base ++ count_fields head) = true
   /\ modest (score_field "score" (PInt 0) base) = true
   /\ modest (score_field "score" (PInt 0) head) = true) ->
  exists r,
    effects (main args fs) = [emit args r]
    /\ (final (main args fs) = Returned \/ final (main args fs) = Exit 1)
    /\ (fail_on_regression args = false -> final (main args fs) = Returned)
    /\ (json_output args = true -> exists report, r = JsonText report)
    /\ (json_output args = false -> exists text, r = Markdown text)
    /\ (forall path, output args = Some path -> path <> "" ->
        emit args r = WriteText path r)
    /\ (output args = None \/ output args = Some "" -> emit args r = Print r).
Proof.
  intros Lb Lh Wb Wh Hb Hh Db Dh Hmd.
  apply andb_true_iff in Db as [Db _]. apply andb_true_iff in Dh as [Dh _].
  assert (exists d r, build_result args base head = Ok (d, r)
                      /\ (json_output args = true -> exists report, r = JsonText report)
                      /\ (json_output args = false -> exists text, r = Markdown text))
    as [d [r [Hbuild [Hj Hm]]]].
  { unfold build_result.
    rewrite (find_new_reading base head bs hs Hb Hh).
    destruct (json_output args) eqn:J.
    - destruct (compute_delta_total base head Wb Wh) as [d Hd]. rewrite Hd. cbn [bind].
      destruct (score_delta_compares base head d Hd) as [neg Hneg].
      rewrite Hneg. cbn [bind].
      rewrite (report_dumpable base head d _ neg Hd
                 (find_new_reading base head bs hs Hb Hh) Db Dh
                 (plain_counts base head d Wb Wh Hd)).
      cbn [bind]. eexists. eexists.
      split; [reflexivity |]. split; [| discriminate]. intros _. eexists. reflexivity.
    - destruct (Hmd eq_refl) as [Ints [Mb Mh]].
      destruct (compute_delta_total base head Wb Wh) as [d Hd].
      destruct (render_integer_counts base head d (map entry_of (selected bs hs))
                  Wb Wh Hd Ints Mb Mh) as [text Ht].
      rewrite Hd. cbn [bind]. rewrite Ht. cbn [bind]. eexists. eexists.
      split; [reflexivity |]. split; [discriminate |]. intros _. eexists. reflexivity. }
  exists r.
  rewrite (main_loaded args fs base head Lb Lh), Hbuild.
  destruct (score_delta_compares base head d (build_result_delta _ _ _ _ _ Hbuild))
    as [neg Hneg].
  split; [| split; [| split; [| split; [exact Hj | split; [exact Hm | split]]]]].
  - destruct (fail_on_regression args); [rewrite Hneg; destruct neg |]; reflexivity.
  - destruct (fail_on_regression args); [rewrite Hneg; destruct neg |]; cbn; tauto.
  - intros ->. reflexivity.
  - intros path Hp Hne. unfold emit. rewrite Hp.
    apply String.eqb_neq in Hne. now rewrite Hne.
  - intros [Hp | Hp]; unfold emit; rewrite Hp; reflexivity.
Qed.

Lemma main_completes_on_well_formed_input_witness :
  let base := flat 10 5 5 (dec 250 (-1)) "F" in
  let head := flat 12 5 7 (dec 100 (-1)) "F" in
  let args := {| base_json := "base.json"; head_json := "head.json";
                 output := Some "delta.md"; json_output := false;
                 fail_on_regression := true |} in
  exists r,
    effects (main args (world (Some (Json base)) (Some (Json head))))
    = [WriteText "delta.md" r].
Proof.
  intros base head args.
  destruct (main_completes_on_well_formed_input args
              (world (Some (Json base)) (Some (Json head))) base head [] []
              eq_refl eq_refl eq_refl eq_refl eq_refl eq_refl eq_refl eq_refl)
    as [r [Heff _]].
  - intros _. repeat split; reflexivity.
  - exists r. exact Heff.
Defined.

(** X16.  [--fail-on-regression] changes nothing but the way the run
    ends: the effects are the same with and without it, a run without it
    never exits with code 1, and a run with it ends like the run without
    it unless it exits with code 1 where the other returns. *)
Theorem fail_flag_only_changes_the_exit (args : Args) (fs : filesystem) :
  effects (main (with_flag true args) fs) = effects (main (with_flag false args) fs)
  /\ final (main (with_flag false args) fs) <> Exit 1
  /\ (final (main (with_flag true args) fs) = final (main (with_flag false args) fs)
      \/ (final (main (with_flag true args) fs) = Exit 1
          /\ final (main (with_flag false args) fs) = Returned)).
Proof.
  unfold main. cbn [with_flag base_json head_json fail_on_regression].
  destruct (negb (exists_ fs (base_json args)));
    [cbn; repeat split; [discriminate | now left] |].
  destruct (negb (exists_ fs (head_json args)));
    [cbn; repeat split; [discriminate | now left] |].
  destruct (load_scan_score fs (base_json args)) as [base | e]; cbn [bind].
  - destruct (load_scan_score fs (head_json args)) as [head | e]; cbn [bind].
    + rewrite ?build_result_flag.
      destruct (build_result args base head) as [[d r] | e] eqn:B.
      * destruct (score_delta_compares base head d (build_result_delta _ _ _ _ _ B))
          as [neg Hneg].
        rewrite Hneg, !emit_flag.
        destruct neg; cbn; repeat split; try discriminate; tauto.
      * cbn. repeat split; [discriminate | now left].
    + destruct e; cbn; repeat split; try discriminate; now left.
  - destruct e; cbn; repeat split; try discriminate; now left.
Qed.

(** X17.  [format_delta_icon] raises [TypeError] on a value that is not
    a number and returns an icon on every number: [+] exactly when the
    value is above 0, [-] exactly when it is below 0, [=] otherwise (a NaN
    included).  With [invert] the two signs are exchanged.  The icon
    agrees with the label [render_markdown] gives the same delta. *)
Theorem format_delta_icon_follows_the_sign (value : pyval) :
  (is_number value = false ->
   forall invert, format_delta_icon value invert = Raise TypeError)
  /\ (is_number value = true ->
      exists icon,
        format_delta_icon value false = Ok icon
        /\ format_delta_icon value true = Ok (flip_icon icon)
        /\ (icon = "+" \/ icon = "-" \/ icon = "=")
        /\ (icon = "+" <-> gt_int value 0 = Ok true)
        /\ (icon = "-" <-> lt_int value 0 = Ok true)
        /\ (icon = "+" <-> score_icon_of value = Ok " [improved]")
        /\ (icon = "-" <-> score_icon_of value = Ok " [regressed]")
        /\ (icon = "=" <-> score_icon_of value = Ok "")).
Proof.
  unfold is_number, format_delta_icon, score_icon_of, gt_int, lt_int.
  destruct (as_num value) as [n |]; split; try discriminate.
  - intros _.
    destruct (num_cmp n (NInt 0)) as [[ | | ] |]; cbn [bind negb];
      eexists; (split; [reflexivity |]); (split; [reflexivity |]);
      repeat split; intros; try discriminate; try reflexivity; tauto.
  - intros _ invert. reflexivity.
Qed.

Lemma format_delta_icon_follows_the_sign_witness :
  format_delta_icon (PStr "5") false = Raise TypeError
  /\ exists icon,
       format_delta_icon (PFloat S754_nan) false = Ok icon
       /\ format_delta_icon (PFloat S754_nan) true = Ok (flip_icon icon).
Proof.
  split.
  - apply (proj1 (format_delta_icon_follows_the_sign (PStr "5"))). reflexivity.
  - destruct (proj2 (format_delta_icon_follows_the_sign (PFloat S754_nan)) eq_refl)
      as [icon [H1 [H2 _]]].
    exists icon. split; assumption.
Defined.

Lemma sub_nan (a b r : pyval) :
  sub a b = Ok r -> a = PFloat S754_nan \/ b = PFloat S754_nan ->
  r = PFloat S754_nan.
Proof.
  unfold sub, arith. intros H [-> | ->].
  - cbn [as_num] in H. destruct (as_num b) as [[y | y] |]; [| | discriminate H];
      cbn [num_sub to_float bind] in H.
    + destruct (int_to_float y); cbn [bind] in H; [| discriminate H].
      now injection H as <-.
    + now injection H as <-.
  - cbn [as_num] in H. destruct (as_num a) as [[x | x] |]; [| | discriminate H];
      cbn [num_sub to_float bind] in H.
    + destruct (int_to_float x) as [f |]; cbn [bind] in H; [| discriminate H].
      injection H as <-. now destruct f.
    + injection H as <-. now destruct x.
Qed.

(** X18.  A NaN score is never a regression: when the base or the head
    score is NaN the score delta is NaN, which is neither above nor below
    0, so the report carries no label and a run with
    [--fail-on-regression] does not exit with code 1. *)
Theorem nan_score_is_never_a_regression (base head : pyval) (d : DeltaRecord) :
  compute_delta base head = Ok d ->
  m_base (score d) = PFloat S754_nan \/ m_head (score d) = PFloat S754_nan ->
  m_delta (score d) = PFloat S754_nan
  /\ score_icon_of (m_delta (score d)) = Ok ""
  /\ forall args fs,
       fs (base_json args) = Some (Json base) ->
       fs (head_json args) = Some (Json head) ->
       final (main args fs) <> Exit 1.
Proof.
  intros H Hnan.
  destruct (compute_delta_arithmetic base head d H) as [_ [_ [_ [A4 _]]]].
  destruct (sub (m_head (score d)) (m_base (score d))) as [raw |] eqn:E;
    [| discriminate A4].
  cbn [bind] in A4.
  apply sub_nan in E; [| tauto]. subst raw. cbn [round1 float_round1] in A4.
  apply Ok_inj in A4.
  split; [now symmetry |]. split; [now rewrite <- A4 |].
  intros args fs Lb Lh. rewrite (main_loaded args fs base head Lb Lh).
  destruct (build_result args base head) as [[d' r] | e] eqn:B; [| discriminate].
  pose proof (build_result_delta _ _ _ _ _ B) as Hd'. rewrite H in Hd'.
  apply Ok_inj in Hd'. subst d'. rewrite <- A4.
  destruct (fail_on_regression args); discriminate.
Qed.

Lemma nan_score_is_never_a_regression_witness :
  let base := flat 10 5 5 (dec 250 (-1)) "F" in
  let head := flat 10 5 5 (PFloat S754_nan) "F" in
  final (main (cli false true) (world (Some (Json base)) (Some (Json head)))) <> Exit 1.
Proof.
  intros base head.
  destruct (compute_delta base head) as [d |] eqn:E; [| discriminate E].
  assert (m_head (score d) = PFloat S754_nan) as Hnan
    by (vm_compute in E; injection E as <-; reflexivity).
  destruct (nan_score_is_never_a_regression base head d E (or_intror Hnan))
    as [_ [_ Hmain]].
  apply Hmain; reflexivity.
Defined.

End MainBeyond.
